(** * The action / validation pipeline of the holochain runtime

    A shallow embedding of [action.go] (the action taxonomy, the validation
    driver, the commit algorithm and the peer-side receive handlers) and of
    the bootstrap client ([checkBSResponses]), together with the properties
    the specification states about them.

    Go values are embedded as follows.
    - [error] values are an inductive type: one constructor per sentinel
      the code compares against with [==], and [ErrNew] for the errors
      built on the spot by [errors.New] and [fmt.Errorf] ([ErrFmt] when the
      message ends in the text of another error).
    - A Go function returning [(x, err)] returns a pair whose last
      component is an [option error] ([None] is the nil error).
    - A run-time panic (an explicit [panic], a failed type assertion, a nil
      dereference) is the [Panics] outcome.
    - Code that mutates the node (chain, DHT store, outgoing traffic, peer
      store) is written in a state-and-panic monad over [Holochain].
    - Collaborators that live outside the two source files (hashing, JSON,
      the ribosome, the transport, the DHT store operations, ...) are the
      fields of the record [Env].
    - The calls the bootstrap client starts with [go] assign to a variable
      the function still reads: when they do so is a [Schedule], which the
      function takes as an argument. *)

From Stdlib Require Import String Ascii ZArith List Lia Bool DecimalString.
From stdpp Require Import base gmap strings list.

Local Open Scope string_scope.
Local Open Scope Z_scope.
Local Open Scope list_scope.

(** ** Errors and outcomes *)

Inductive error : Type :=
| ErrHashNotFound
| ErrHashModified
| ValidationFailedErr
| ErrEntryTypeMismatch
| ErrWrongNargs
| NonDHTAction
| NonCallableAction
| ErrNew (msg : string)
| ErrFmt (prefix : string) (cause : error).

#[global] Instance error_eq_dec : EqDecision error.
Proof. solve_decision. Defined.

(** [err == sentinel] *)
Definition err_is (err : option error) (sentinel : error) : bool :=
  match err with
  | Some e => bool_decide (e = sentinel)
  | None => false
  end.

(** [err != nil] *)
Definition failed (err : option error) : bool :=
  match err with Some _ => true | None => false end.

Inductive outcome (A : Type) : Type :=
| Returns (a : A)
| Panics (msg : string).
Arguments Returns {A} a.
Arguments Panics {A} msg.

(** ** Argument descriptions *)

Inductive ArgType : Type :=
| HashArg | StringArg | EntryArg | IntArg | BoolArg | MapArg | ToStrArg | ArgsArg.

(** [Arg], without the fields [MapType] and [value], which play no part in
    what follows. *)
Record Arg : Type := mkArg {
  ArgName : string;
  ArgTy : ArgType;
  Optional : bool
}.

(** The loop of [checkArgCount] that counts the arguments which are not
    optional. *)
Definition countMin (args : list Arg) : Z :=
  fold_left (fun min a => if negb (Optional a) then min + 1 else min) args 0.

Definition checkArgCount (args : list Arg) (l : Z) : option error :=
  let min := countMin args in
  if (l <? min) || (l >? Z.of_nat (length args))
  then Some ErrWrongNargs
  else None.

(** The specification's [required(args)]: how many entries of the list are
    not optional. *)
Definition required (args : list Arg) : nat :=
  length (List.filter (fun a => negb (Optional a)) args).

(** ** Data model *)

(** A hash in its text form; [hash.String()] is the identity. *)
Definition Hash : Type := string.
(** A libp2p peer identifier ([peer.ID] is a string type). *)
Definition PeerID : Type := string.
(** A byte slice; the code converts freely between [[]byte] and [string]. *)
Definition bytes : Type := string.
(** A multi-address in its text form. *)
Definition Multiaddr : Type := string.
(** Validation packages travel through the action layer untouched; they
    are kept in serialized form. *)
Definition Package : Type := bytes.
Definition ValidationPackage : Type := bytes.
Definition PackagingReq : Type := bytes.
(** A zome is referred to by its name. *)
Definition Zome : Type := string.
Definition PrivKey : Type := bytes.

(** The entry type of a header or an action.  In the code this is a string
    of which three values are reserved ([DNAEntryType], [KeyEntryType],
    [AgentEntryType], the case labels of the switches in [ValidateAction],
    [GetValidationResponse] and [ActionGet.Receive]); every other string
    names an application-defined entry type. *)
Inductive EntryTypeName : Type :=
| DNAEntryType
| KeyEntryType
| AgentEntryType
| AppEntryType (name : string).

#[global] Instance EntryTypeName_eq_dec : EqDecision EntryTypeName.
Proof. solve_decision. Defined.

(** The zero value of a Go string-typed entry type. *)
Definition noEntryType : EntryTypeName := AppEntryType "".

(** [GobEntry.C] is an [interface{}]: nil in the zero entry, a string in
    every path that asserts [.(string)], and anything else makes that
    assertion panic.  [ContentOther] carries what [%v] prints for such a
    value. *)
Inductive Content : Type :=
| ContentNil
| ContentString (s : string)
| ContentOther (shown : string).

(** [fmt.Sprintf("%v", c)] *)
Definition showContent (c : Content) : string :=
  match c with
  | ContentNil => "<nil>"
  | ContentString s => s
  | ContentOther shown => shown
  end.

Record GobEntry : Type := mkGobEntry { C : Content }.

(** An [Entry] interface value; [None] is the nil interface. *)
Definition Entry : Type := option GobEntry.

(** [e.Content().(string)] *)
Definition contentString (e : GobEntry) : outcome string :=
  match C e with
  | ContentString s => Returns s
  | _ => Panics "interface conversion: interface {} is not string"
  end.

Record StatusChange : Type := mkStatusChange {
  ChangeAction : string;
  ChangeHash : Hash
}.

Record Header : Type := mkHeader {
  HType : EntryTypeName;
  HTime : Z;
  HeaderLink : Hash;
  EntryLink : Hash;
  TypeLink : Hash;
  Sig : string;
  Change : option StatusChange
}.

Definition zeroHeader : Header :=
  mkHeader noEntryType 0 "" "" "" "" None.

Definition zeroEntry : GobEntry := mkGobEntry ContentNil.

(** What [json.Unmarshal] into an [interface{}] produces. *)
#[local] Unset Elimination Schemes.
Inductive JSON : Type :=
| JNull
| JBool (b : bool)
| JNumber (digits : string)
| JString (s : string)
| JArray (items : list JSON)
| JObject (fields : list (string * JSON)).
#[local] Set Elimination Schemes.

(** The value handed to a schema validator. *)
Inductive SchemaInput : Type :=
| InputJSON (v : JSON)
| InputEntry (e : GobEntry).

Record EntryDef : Type := mkEntryDef {
  DefName : string;
  DataFormat : string;
  Sharing : string;
  (** [d.validator]; [None] is the nil validator, and the function is its
      [Validate] method *)
  validator : option (SchemaInput -> option error)
}.

Record Link : Type := mkLink {
  LinkAction : string;
  Base : string;
  LinkTo : string;
  Tag : string
}.

Record LinksEntry : Type := mkLinksEntry { Links : list Link }.

Record DelEntry : Type := mkDelEntry {
  DelHash : Hash;
  DelMessage : string
}.

(** *** The local chain *)

(** Modelled from the spec: the chain type is declared outside the two
    source files.  The chain is the ordered sequence of (header, entry)
    pairs of the agent, each kept with the hash of its header. *)
Record ChainLink : Type := mkChainLink {
  LinkHeaderHash : Hash;
  LinkHeader : Header;
  LinkEntry : Entry
}.

Definition Chain : Type := list ChainLink.

(** The first link of the chain whose entry has the hash [h]. *)
Definition findEntry (c : Chain) (h : Hash) : option ChainLink :=
  List.find (fun l => String.eqb (EntryLink (LinkHeader l)) h) c.

(** Modelled from the spec: [chain.GetEntry] is declared outside the two
    source files.  It answers the entry with the given hash and its type,
    and [ErrHashNotFound] when the chain holds no such entry. *)
Definition GetEntry (c : Chain) (h : Hash)
  : Entry * EntryTypeName * option error :=
  match findEntry c h with
  | Some l => (LinkEntry l, HType (LinkHeader l), None)
  | None => (None, noEntryType, Some ErrHashNotFound)
  end.

(** Modelled from the spec: [chain.GetEntryHeader] is declared outside the
    two source files.  It answers the header of the entry with the given
    hash, and [ErrHashNotFound] when the chain holds no such entry. *)
Definition GetEntryHeader (c : Chain) (h : Hash)
  : option Header * option error :=
  match findEntry c h with
  | Some l => (Some (LinkHeader l), None)
  | None => (None, Some ErrHashNotFound)
  end.

(** *** The DHT store *)

(** Modelled from the spec: the record of the DHT store is declared
    outside the two source files; its fields are those of section 3 of
    the specification. *)
Record DHTRecord : Type := mkDHTRecord {
  RecType : EntryTypeName;
  RecBytes : bytes;
  RecSources : list PeerID;
  RecStatus : Z;
  RecFollowHash : option Hash
}.

(** Modelled from the spec: an item of the secondary index from a base to
    its links, declared outside the two source files. *)
Record LinkRecord : Type := mkLinkRecord {
  LRLink : string;
  LRTag : string;
  LRSource : PeerID;
  LRStatus : Z
}.

(** Modelled from the spec: the DHT store is declared outside the two
    source files.  It maps a hash to its record and a base to its links;
    its operations are collaborators (see [Env]). *)
Record Store : Type := mkStore {
  records : gmap string DHTRecord;
  linkIndex : gmap string (list LinkRecord)
}.

(** *** Wire messages *)

Inductive MsgType : Type :=
| APP_MESSAGE | PUT_REQUEST | GET_REQUEST | MOD_REQUEST | DEL_REQUEST
| LINK_REQUEST | GETLINK_REQUEST
| VALIDATE_PUT_REQUEST | VALIDATE_MOD_REQUEST | VALIDATE_DEL_REQUEST
| VALIDATE_LINK_REQUEST.

Inductive Protocol : Type := ActionProtocol | ValidateProtocol.

Record GetReq : Type := mkGetReq {
  GetH : Hash;
  StatusMask : Z;
  GetMask : Z
}.

(** The body of a message, an [interface{}] holding one of the request
    structures. *)
Inductive Body : Type :=
| PutReq (H : Hash)
| GetReqBody (req : GetReq)
| ModReq (H N : Hash)
| DelReq (H By : Hash)
| LinkReq (LBase LLinks : Hash)
| ValidateQuery (H : Hash)
| OtherBody (typeName : string).

Record Message : Type := mkMessage {
  MType : MsgType;
  From : PeerID;
  MBody : Body
}.

Record ValidateResponse : Type := mkValidateResponse {
  VType : EntryTypeName;
  VEntry : GobEntry;
  VHeader : Header;
  VPackage : Package
}.

Record GetResp : Type := mkGetResp {
  RespEntry : Entry;
  RespEntryType : EntryTypeName;
  RespSources : list string;
  RespFollowHash : string
}.

(** A response, an [interface{}]; the nil response is [None] of
    [option Response]. *)
Inductive Response : Type :=
| RespString (s : string)
| RespHash (h : Hash)
| RespGet (r : GetResp)
| RespValidate (r : ValidateResponse)
| RespOther (typeName : string).

(** [fmt.Sprintf("%T", r)] *)
Definition typeName (r : option Response) : string :=
  match r with
  | None => "<nil>"
  | Some (RespString _) => "string"
  | Some (RespHash _) => "holochain.Hash"
  | Some (RespGet _) => "holochain.GetResp"
  | Some (RespValidate _) => "holochain.ValidateResponse"
  | Some (RespOther t) => t
  end.

(** *** Actions *)

Record ActionCommit : Type := mkActionCommit {
  commitEntryType : EntryTypeName;
  commitEntry : Entry
}.

Record ActionPut : Type := mkActionPut {
  putEntryType : EntryTypeName;
  putEntry : Entry;
  putHeader : option Header
}.

Record ActionMod : Type := mkActionMod {
  modEntryType : EntryTypeName;
  modEntry : Entry;
  modHeader : option Header;
  replaces : Hash
}.

Record ActionDel : Type := mkActionDel {
  delEntryType : EntryTypeName;
  delEntry : DelEntry
}.

Record ActionLink : Type := mkActionLink {
  linkEntryType : EntryTypeName;
  links : list Link;
  validationBase : Hash
}.

(** The actions behind the [ValidatingAction] interface. *)
Inductive ValidatingAction : Type :=
| VCommit (a : ActionCommit)
| VPut (a : ActionPut)
| VMod (a : ActionMod)
| VDel (a : ActionDel)
| VLink (a : ActionLink).

(** The actions behind the [CommittingAction] interface: the ones with the
    [EntryType] and [Entry] methods. *)
Inductive CommittingAction : Type :=
| CCommit (a : ActionCommit)
| CMod (a : ActionMod)
| CDel (a : ActionDel).

Definition asValidating (a : CommittingAction) : ValidatingAction :=
  match a with
  | CCommit a => VCommit a
  | CMod a => VMod a
  | CDel a => VDel a
  end.

Definition NewCommitAction (entryType : EntryTypeName) (entry : Entry) : ActionCommit :=
  mkActionCommit entryType entry.

Definition NewPutAction (entryType : EntryTypeName) (entry : Entry) (header : option Header)
  : ActionPut :=
  mkActionPut entryType entry header.

Definition NewModAction (entryType : EntryTypeName) (entry : Entry) (replaces : Hash)
  : ActionMod :=
  mkActionMod entryType entry None replaces.

Definition NewDelAction (entryType : EntryTypeName) (entry : DelEntry) : ActionDel :=
  mkActionDel entryType entry.

Definition NewLinkAction (entryType : EntryTypeName) (links : list Link) : ActionLink :=
  mkActionLink entryType links "".

(** *** The node *)

Record PeerInfo : Type := mkPeerInfo {
  PeerInfoID : PeerID;
  PeerAddrs : list Multiaddr
}.

(** One call of [h.Send] or [h.dht.Send]. *)
Record Outgoing : Type := mkOutgoing {
  OutProto : Protocol;
  (** the peer for [h.Send], the key for [h.dht.Send] *)
  OutTo : string;
  OutType : MsgType;
  OutBody : Body
}.

(** The node: [Holochain] together with the [DHT] it owns ([dht.h] and
    [h.dht] point at each other).  [sent] records the messages handed to
    the transport, [added] the peers handed to [AddPeer]. *)
Record Holochain : Type := mkHolochain {
  nodeID : PeerID;
  nodeIDStr : string;
  agentKey : PrivKey;
  chain : Chain;
  dht : Store;
  sent : list Outgoing;
  added : list PeerInfo
}.

Definition withChain (h : Holochain) (c : Chain) : Holochain :=
  mkHolochain (nodeID h) (nodeIDStr h) (agentKey h) c (dht h) (sent h) (added h).

Definition withDHT (h : Holochain) (s : Store) : Holochain :=
  mkHolochain (nodeID h) (nodeIDStr h) (agentKey h) (chain h) s (sent h) (added h).

Definition withSent (h : Holochain) (o : list Outgoing) : Holochain :=
  mkHolochain (nodeID h) (nodeIDStr h) (agentKey h) (chain h) (dht h) o (added h).

Definition withAdded (h : Holochain) (p : list PeerInfo) : Holochain :=
  mkHolochain (nodeID h) (nodeIDStr h) (agentKey h) (chain h) (dht h) (sent h) p.

(** ** Collaborators *)

(** The application engine of a zome. *)
Record Ribosome : Type := mkRibosome {
  RValidateAction :
    ValidatingAction -> option EntryDef -> ValidationPackage -> list string -> option error;
  RValidatePackagingRequest :
    ValidatingAction -> option EntryDef -> PackagingReq * option error
}.

(** Everything the two source files call but do not define.  A function
    that returns [(x, err)] in Go returns the pair here as well: the value
    is present also when the error is not nil, as the code sometimes goes
    on with it.  Logging is left out.  The collaborators only read the
    node; the writes of the DHT store operations are their result. *)
Record Env : Type := mkEnv {
  (** constants *)
  DataFormatLinks : string;
  DataFormatJSON : string;
  Public : string;
  ModAction : string;
  DelAction : string;
  StatusDefault : Z;
  StatusLive : Z;
  StatusRejected : Z;
  GetMaskDefault : Z;
  GetMaskEntry : Z;
  GetMaskEntryType : Z;
  (** hashes, peers, addresses *)
  NewHash : string -> Hash * option error;
  IDB58Encode : PeerID -> string;
  IDB58Decode : string -> PeerID * option error;
  NewMultiaddr : string -> Multiaddr * option error;
  (** encodings: [json.Unmarshal] into an [interface{}], into
      [struct{ Links []map[string]string }] and into [LinksEntry]; the gob
      encodings of entries and of [DelEntry] *)
  jsonUnmarshal : string -> JSON * option error;
  jsonUnmarshalLinkMaps : string -> list (gmap string string) * option error;
  jsonUnmarshalLinksEntry : string -> LinksEntry * option error;
  Marshal : GobEntry -> bytes * option error;
  Unmarshal : bytes -> GobEntry * option error;
  ByteEncoder : DelEntry -> bytes * option error;
  ByteDecoder : bytes -> DelEntry * option error;
  (** the chain's header preparation and header hashing, and the clock *)
  now : Z;
  PrepareHeader :
    Chain -> Z -> EntryTypeName -> Entry -> PrivKey -> option StatusChange ->
    Z * Hash * option Header * option error;
  headerSum : Header -> Hash;
  (** the DNA and the application engine *)
  GetEntryDef : Holochain -> EntryTypeName -> Zome * option EntryDef * option error;
  MakeValidationPackage : Holochain -> option Package -> ValidationPackage * option error;
  MakePackage : Holochain -> PackagingReq -> Package * option error;
  MakeRibosome : Holochain -> Zome -> Ribosome * option error;
  (** what the peers answer to [h.Send] and to [h.dht.Send] *)
  SendReply :
    Holochain -> Protocol -> PeerID -> MsgType -> Body -> option Response * option error;
  dhtSendReply :
    Holochain -> Hash -> MsgType -> Body -> option Response * option error;
  (** the operations of the DHT store *)
  dht_exists : Store -> Hash -> Z -> option error;
  dht_get :
    Store -> Hash -> Z -> Z -> bytes * EntryTypeName * list string * Z * option error;
  dht_put :
    Store -> Message -> EntryTypeName -> Hash -> PeerID -> bytes -> Z ->
    Store * option error;
  dht_mod : Store -> Message -> Hash -> Hash -> Store * option error;
  dht_del : Store -> Message -> Hash -> Store * option error;
  dht_putLink : Store -> Message -> string -> string -> string -> Store * option error;
  dht_delLink : Store -> Message -> string -> string -> string -> Store * option error
}.

(** ** The state-and-panic monad *)

Definition obind {A B : Type} (o : outcome A) (k : A -> outcome B) : outcome B :=
  match o with
  | Returns a => k a
  | Panics msg => Panics msg
  end.

Definition M (A : Type) : Type := Holochain -> outcome A * Holochain.

Definition ret {A : Type} (a : A) : M A := fun h => (Returns a, h).

Definition bind {A B : Type} (m : M A) (k : A -> M B) : M B :=
  fun h =>
    match m h with
    | (Returns a, h') => k a h'
    | (Panics msg, h') => (Panics msg, h')
    end.

Definition panic {A : Type} (msg : string) : M A := fun h => (Panics msg, h).

Definition getNode : M Holochain := fun h => (Returns h, h).

Definition putNode (h' : Holochain) : M unit := fun _ => (Returns tt, h').

Definition lift {A : Type} (o : outcome A) : M A := fun h => (o, h).

Declare Scope go_scope.
Delimit Scope go_scope with go.
Notation "x <- c1 ;; c2" := (bind c1 (fun x => c2))
  (at level 100, c1 at next level, right associativity) : go_scope.
Notation "x <~ c1 ;; c2" := (obind c1 (fun x => c2))
  (at level 100, c1 at next level, right associativity) : go_scope.
Local Open Scope go_scope.

Definition nilDeref : string := "invalid memory address or nil pointer dereference".
Definition badAssertion : string := "interface conversion".

(** Dereferencing a pointer. *)
Definition deref {A : Type} (p : option A) : outcome A :=
  match p with
  | Some a => Returns a
  | None => Panics nilDeref
  end.

(** Modelled from the spec: [chain.addEntry] is declared outside the two
    source files.  It accepts the entry only at the index that equals the
    current length of the chain, only with the hash the header recomputes
    to, and never with a header hash the chain already holds; it then
    appends. *)
Definition addEntry (E : Env) (c : Chain) (idx : Z) (hash : Hash) (header : Header)
    (entry : Entry) : Chain * option error :=
  if negb (idx =? Z.of_nat (length c)) then
    (c, Some (ErrNew "entry index does not match the chain length"))
  else if negb (String.eqb (headerSum E header) hash) then
    (c, Some (ErrNew "header hash does not match"))
  else if existsb (fun l => String.eqb (LinkHeaderHash l) hash) c then
    (c, Some (ErrNew "header hash already in the chain"))
  else (c ++ [mkChainLink hash header entry], None).

(** ** The validation driver *)

Section Validation.
Context (E : Env).

Definition prepareSources (sources : list PeerID) : list string :=
  fold_left (fun srcs s => srcs ++ [IDB58Encode E s]) sources [].

(** The loop of [sysValidateEntry] over the links of a links entry. *)
Fixpoint checkLinks (l : list (gmap string string)) : option error :=
  match l with
  | [] => None
  | link :: rest =>
    match link !! "Base" with
    | None => Some (ErrNew "invalid links entry: missing Base")
    | Some b =>
      match snd (NewHash E b) with
      | Some err => Some (ErrFmt "invalid links entry: Base " err)
      | None =>
        match link !! "Link" with
        | None => Some (ErrNew "invalid links entry: missing Link")
        | Some t =>
          match snd (NewHash E t) with
          | Some err => Some (ErrFmt "invalid links entry: Link " err)
          | None =>
            match link !! "Tag" with
            | None => Some (ErrNew "invalid links entry: missing Tag")
            | Some _ => checkLinks rest
            end
          end
        end
      end
    end
  end.

Definition sysValidateEntry (h : Holochain) (d : option EntryDef) (entry : Entry)
  : outcome (option error) :=
  match entry with
  | None => Returns (Some (ErrNew "nil entry invalid"))
  | Some e =>
    def <~ deref d ;;
    match validator def with
    | Some validate =>
      if String.eqb (DataFormat def) (DataFormatJSON E) then
        s <~ contentString e ;;
        let '(input, err) := jsonUnmarshal E s in
        if failed err then Returns err
        else Returns (validate (InputJSON input))
      else Returns (validate (InputEntry e))
    | None =>
      if String.eqb (DataFormat def) (DataFormatLinks E) then
        s <~ contentString e ;;
        match jsonUnmarshalLinkMaps E s with
        | (_, Some err) =>
          Returns (Some (ErrFmt "invalid links entry, invalid json: " err))
        | (l, None) =>
          if (length l =? 0)%nat then
            Returns (Some (ErrNew "invalid links entry: you must specify at least one link"))
          else Returns (checkLinks l)
        end
      else Returns None
    end
  end.

(** The check that [ActionMod.SysValidation] and [ActionDel.SysValidation]
    share: the header of the superseded entry is in the chain and has the
    type of the action. *)
Definition checkReplaced (h : Holochain) (target : Hash) (entryType : EntryTypeName)
    (k : outcome (option error)) : outcome (option error) :=
  match GetEntryHeader (chain h) target with
  | (_, Some err) => Returns (Some err)
  | (header, None) =>
    hd <~ deref header ;;
    if bool_decide (HType hd <> entryType) then Returns (Some ErrEntryTypeMismatch)
    else k
  end.

Definition SysValidation (a : ValidatingAction) (h : Holochain) (d : option EntryDef)
    (sources : list PeerID) : outcome (option error) :=
  match a with
  | VCommit a => sysValidateEntry h d (commitEntry a)
  | VPut a => sysValidateEntry h d (putEntry a)
  | VMod a =>
    def <~ deref d ;;
    if String.eqb (DataFormat def) (DataFormatLinks E) then
      Returns (Some (ErrNew "Can't mod Links entry"))
    else checkReplaced h (replaces a) (modEntryType a) (sysValidateEntry h d (modEntry a))
  | VDel a =>
    def <~ deref d ;;
    if String.eqb (DataFormat def) (DataFormatLinks E) then
      Returns (Some (ErrNew "Can't del Links entry"))
    else checkReplaced h (DelHash (delEntry a)) (delEntryType a) (Returns None)
  | VLink a => Returns None
  end.

Definition CheckValidationRequest (a : ValidatingAction) (def : option EntryDef)
  : outcome (option error) :=
  match a with
  | VLink _ =>
    d <~ deref def ;;
    if negb (String.eqb (DataFormat d) (DataFormatLinks E)) then
      Returns (Some (ErrNew "hash not of a linking entry"))
    else Returns None
  | _ => Returns None
  end.

Definition ValidateAction (h : Holochain) (a : ValidatingAction) (entryType : EntryTypeName)
    (pkg : option Package) (sources : list PeerID)
  : outcome (option EntryDef * option error) :=
  match entryType with
  | DNAEntryType => Returns (None, None)
  | KeyEntryType => Returns (None, None)
  | AgentEntryType => Returns (None, None)
  | AppEntryType _ =>
    let '(z, d, err) := GetEntryDef E h entryType in
    if failed err then Returns (d, err)
    else
      let '(vpkg, err) := MakeValidationPackage E h pkg in
      if failed err then Returns (d, err)
      else
        err <~ SysValidation a h d sources ;;
        if failed err then Returns (d, err)
        else
          let '(n, err) := MakeRibosome E h z in
          if failed err then Returns (d, err)
          else Returns (d, RValidateAction n a d vpkg (prepareSources sources))
  end.

End Validation.

(** ** Commit, and the initiating side of the actions *)

Section Actions.
Context (E : Env).

(** [a.EntryType()] *)
Definition actionEntryType (a : CommittingAction) : EntryTypeName :=
  match a with
  | CCommit a => commitEntryType a
  | CMod a => modEntryType a
  | CDel a => delEntryType a
  end.

(** [a.Entry()]; [ActionDel.Entry] encodes its [DelEntry] and panics when
    the encoder fails. *)
Definition actionEntry (a : CommittingAction) : outcome Entry :=
  match a with
  | CCommit a => Returns (commitEntry a)
  | CMod a => Returns (modEntry a)
  | CDel a =>
    match ByteEncoder E (delEntry a) with
    | (_, Some _) => Panics "ByteEncoder"
    | (buf, None) => Returns (Some (mkGobEntry (ContentString buf)))
    end
  end.

(** [h.dht.Send]: the message goes to the transport, the peer's answer
    comes back. *)
Definition dhtSend (key : Hash) (t : MsgType) (body : Body)
  : M (option Response * option error) :=
  fun h =>
    (Returns (dhtSendReply E h key t body),
     withSent h (sent h ++ [mkOutgoing ActionProtocol key t body])).

(** [h.Send] *)
Definition Send (proto : Protocol) (to : PeerID) (t : MsgType) (body : Body)
  : M (option Response * option error) :=
  fun h =>
    (Returns (SendReply E h proto to t body),
     withSent h (sent h ++ [mkOutgoing proto to t body])).

Definition doCommit (a : CommittingAction) (change : option StatusChange)
  : M (option EntryDef * option Header * Hash * option error) :=
  let entryType := actionEntryType a in
  entry <- lift (actionEntry a) ;;
  h <- getNode ;;
  let '(l, hash, header, err) :=
    PrepareHeader E (chain h) (now E) entryType entry (agentKey h) change in
  if failed err then ret (None, header, "", err)
  else
    r <- lift (ValidateAction E h (asValidating a) entryType None [nodeID h]) ;;
    let '(d, err) := r in
    if failed err then
      if err_is err ValidationFailedErr then
        e <- lift (deref entry) ;;
        ret (d, header, "", Some (ErrNew ("Invalid entry: " +:+ showContent (C e))))
      else ret (d, header, "", err)
    else
      hd <- lift (deref header) ;;
      let '(c, err) := addEntry E (chain h) l hash hd entry in
      _ <- putNode (withChain h c) ;;
      if failed err then ret (d, header, "", err)
      else ret (d, header, EntryLink hd, err).

(** The loop of [ActionCommit.Do] over the links of a links entry;
    [bases] is the map of the bases already served. *)
Fixpoint sendLinkRequests (ls : list Link) (entryHash : Hash) (bases : gmap string bool)
  : M unit :=
  match ls with
  | [] => ret tt
  | l :: rest =>
    match bases !! Base l with
    | Some _ => sendLinkRequests rest entryHash bases
    | None =>
      let '(b, _) := NewHash E (Base l) in
      _ <- dhtSend b LINK_REQUEST (LinkReq b entryHash) ;;
      sendLinkRequests rest entryHash (<[Base l := true]> bases)
    end
  end.

Definition ActionCommit_Do (a : ActionCommit) : M (option Response * option error) :=
  r <- doCommit (CCommit a) None ;;
  let '(d, _, entryHash, err) := r in
  if failed err then ret (None, err)
  else
    def <- lift (deref d) ;;
    if String.eqb (DataFormat def) (DataFormatLinks E) then
      e <- lift (deref (commitEntry a)) ;;
      entryStr <- lift (contentString e) ;;
      let '(le, err) := jsonUnmarshalLinksEntry E entryStr in
      if failed err then ret (None, err)
      else
        _ <- sendLinkRequests (Links le) entryHash ∅ ;;
        ret (Some (RespHash entryHash), err)
    else if String.eqb (Sharing def) (Public E) then
      r <- dhtSend entryHash PUT_REQUEST (PutReq entryHash) ;;
      ret (Some (RespHash entryHash), snd r)
    else ret (Some (RespHash entryHash), err).

Definition ActionMod_Do (a : ActionMod) : M (option Response * option error) :=
  r <- doCommit (CMod a) (Some (mkStatusChange (ModAction E) (replaces a))) ;;
  let '(d, _, entryHash, err) := r in
  if failed err then ret (None, err)
  else
    def <- lift (deref d) ;;
    if String.eqb (Sharing def) (Public E) then
      _ <- dhtSend entryHash PUT_REQUEST (PutReq entryHash) ;;
      r <- dhtSend (replaces a) MOD_REQUEST (ModReq (replaces a) entryHash) ;;
      ret (Some (RespHash entryHash), snd r)
    else ret (Some (RespHash entryHash), err).

Definition ActionDel_Do (a : ActionDel) : M (option Response * option error) :=
  let target := DelHash (delEntry a) in
  r <- doCommit (CDel a) (Some (mkStatusChange (DelAction E) target)) ;;
  let '(d, _, entryHash, err) := r in
  if failed err then ret (None, err)
  else
    def <- lift (deref d) ;;
    if String.eqb (Sharing def) (Public E) then
      r <- dhtSend target DEL_REQUEST (DelReq target entryHash) ;;
      ret (Some (RespHash entryHash), snd r)
    else ret (Some (RespHash entryHash), err).

Definition ActionCommit_Receive (msg : Message) : M (option Response * option error) :=
  ret (None, Some NonDHTAction).

Definition ActionPut_Do : M (option Response * option error) :=
  ret (None, Some NonCallableAction).

Definition ActionLink_Do : M (option Response * option error) :=
  ret (None, Some NonCallableAction).

(** ** The origin's answer to a validation query *)

Definition withVType (r : ValidateResponse) (t : EntryTypeName) : ValidateResponse :=
  mkValidateResponse t (VEntry r) (VHeader r) (VPackage r).
Definition withVEntry (r : ValidateResponse) (e : GobEntry) : ValidateResponse :=
  mkValidateResponse (VType r) e (VHeader r) (VPackage r).
Definition withVHeader (r : ValidateResponse) (hd : Header) : ValidateResponse :=
  mkValidateResponse (VType r) (VEntry r) hd (VPackage r).
Definition withVPackage (r : ValidateResponse) (p : Package) : ValidateResponse :=
  mkValidateResponse (VType r) (VEntry r) (VHeader r) p.

(** The [switch resp.Type] that ends [GetValidationResponse]. *)
Definition packageResponse (h : Holochain) (a : ValidatingAction) (resp : ValidateResponse)
    (err : option error) : outcome (ValidateResponse * option error) :=
  match VType resp with
  | DNAEntryType => Panics "attempt to get validation response for DNA"
  | KeyEntryType => Returns (resp, err)
  | AgentEntryType => Returns (resp, err)
  | AppEntryType _ =>
    let '(z, def, err) := GetEntryDef E h (VType resp) in
    if failed err then Returns (resp, err)
    else
      err <~ CheckValidationRequest E a def ;;
      if failed err then Returns (resp, err)
      else
        let '(n, err) := MakeRibosome E h z in
        if failed err then Returns (resp, err)
        else
          let '(req, _) := RValidatePackagingRequest n a def in
          let '(pkg, err) := MakePackage E h req in
          Returns (withVPackage resp pkg, err)
  end.

Definition GetValidationResponse (h : Holochain) (a : ValidatingAction) (hash : Hash)
  : outcome (ValidateResponse * option error) :=
  let '(entry, ty, err) := GetEntry (chain h) hash in
  let resp := mkValidateResponse ty zeroEntry zeroHeader "" in
  if err_is err ErrHashNotFound then
    if String.eqb hash (nodeIDStr h) then
      packageResponse h a (withVType resp KeyEntryType) None
    else Returns (resp, err)
  else if failed err then Returns (resp, err)
  else
    e <~ deref entry ;;
    let resp := withVEntry resp e in
    let '(hd, err) := GetEntryHeader (chain h) hash in
    if failed err then Returns (resp, err)
    else
      hd <~ deref hd ;;
      packageResponse h a (withVHeader resp hd) err.

End Actions.

(** ** The peer side: receive handlers *)

Section Receive.
Context (E : Env).

Definition dhtPut (msg : Message) (t : EntryTypeName) (key : Hash) (src : PeerID)
    (b : bytes) (status : Z) : M (option error) :=
  fun h =>
    let '(s, err) := dht_put E (dht h) msg t key src b status in
    (Returns err, withDHT h s).

Definition dhtMod (msg : Message) (old new : Hash) : M (option error) :=
  fun h =>
    let '(s, err) := dht_mod E (dht h) msg old new in
    (Returns err, withDHT h s).

Definition dhtDel (msg : Message) (key : Hash) : M (option error) :=
  fun h =>
    let '(s, err) := dht_del E (dht h) msg key in
    (Returns err, withDHT h s).

Definition dhtPutLink (msg : Message) (base link tag : string) : M (option error) :=
  fun h =>
    let '(s, err) := dht_putLink E (dht h) msg base link tag in
    (Returns err, withDHT h s).

Definition dhtDelLink (msg : Message) (base link tag : string) : M (option error) :=
  fun h =>
    let '(s, err) := dht_delLink E (dht h) msg base link tag in
    (Returns err, withDHT h s).

Definition RunValidationPhase (source : PeerID) (msgType : MsgType) (query : Hash)
    (handler : ValidateResponse -> M (option error)) : M (option error) :=
  r <- Send E ValidateProtocol source msgType (ValidateQuery query) ;;
  let '(r, err) := r in
  if failed err then ret err
  else
    match r with
    | Some (RespValidate resp) => handler resp
    | _ =>
      ret (Some (ErrNew ("expected ValidateResponse from validator got " +:+ typeName r)))
    end.

Definition ActionPut_Receive (msg : Message) : M (option Response * option error) :=
  match MBody msg with
  | PutReq H =>
    err <- RunValidationPhase (From msg) VALIDATE_PUT_REQUEST H (fun resp =>
      let a := NewPutAction (VType resp) (Some (VEntry resp)) (Some (VHeader resp)) in
      h <- getNode ;;
      r <- lift (ValidateAction E h (VPut a) (putEntryType a) (Some (VPackage resp))
                   [From msg]) ;;
      let status := if failed (snd r) then StatusRejected E else StatusLive E in
      let entry := VEntry resp in
      let '(b, err) := Marshal E entry in
      if negb (failed err) then dhtPut msg (VType resp) H (From msg) b status
      else ret err) ;;
    ret (Some (RespString "queued"), err)
  | _ => panic badAssertion
  end.

Definition ActionMod_Receive (msg : Message) : M (option Response * option error) :=
  match MBody msg with
  | ModReq H N =>
    let from := From msg in
    h <- getNode ;;
    let err := dht_exists E (dht h) H (StatusDefault E) in
    if failed err then
      if err_is err ErrHashNotFound then panic "RETRY-MOD NOT IMPLEMENTED"
      else ret (None, err)
    else
      err <- RunValidationPhase (From msg) VALIDATE_MOD_REQUEST N (fun resp =>
        let a := NewModAction (VType resp) (Some (VEntry resp)) H in
        let a := mkActionMod (modEntryType a) (modEntry a) (Some (VHeader resp)) (replaces a) in
        h <- getNode ;;
        r <- lift (ValidateAction E h (VMod a) (VType resp) (Some (VPackage resp)) [from]) ;;
        let err := snd r in
        if failed err then ret err
        else dhtMod msg H N) ;;
      ret (Some (RespString "queued"), err)
  | _ => panic badAssertion
  end.

Definition ActionDel_Receive (msg : Message) : M (option Response * option error) :=
  match MBody msg with
  | DelReq H By =>
    let from := From msg in
    h <- getNode ;;
    let err := dht_exists E (dht h) H (StatusDefault E) in
    if failed err then
      if err_is err ErrHashNotFound then panic "RETRY-DELETE NOT IMPLEMENTED"
      else ret (None, err)
    else
      err <- RunValidationPhase (From msg) VALIDATE_DEL_REQUEST By (fun resp =>
        s <- lift (contentString (VEntry resp)) ;;
        let '(delEntry, err) := ByteDecoder E s in
        if failed err then ret err
        else
          let a := NewDelAction (VType resp) delEntry in
          h <- getNode ;;
          r <- lift (ValidateAction E h (VDel a) (VType resp) (Some (VPackage resp)) [from]) ;;
          let err := snd r in
          if failed err then ret err
          else dhtDel msg (DelHash delEntry)) ;;
      ret (Some (RespString "queued"), err)
  | _ => panic badAssertion
  end.

(** The loop of [ActionLink.Receive] over the links of the entry: the
    links on the base of the message are put or deleted, the others are
    skipped; [err] is the error of the last store operation. *)
Fixpoint applyLinks (msg : Message) (base : string) (ls : list Link) (err : option error)
  : M (option error) :=
  match ls with
  | [] => ret err
  | l :: rest =>
    if String.eqb base (Base l) then
      err <- (if String.eqb (LinkAction l) (DelAction E)
              then dhtDelLink msg base (LinkTo l) (Tag l)
              else dhtPutLink msg base (LinkTo l) (Tag l)) ;;
      applyLinks msg base rest err
    else applyLinks msg base rest err
  end.

Definition ActionLink_Receive (msg : Message) : M (option Response * option error) :=
  match MBody msg with
  | LinkReq base linksHash =>
    let from := From msg in
    h <- getNode ;;
    let err := dht_exists E (dht h) base (StatusLive E) in
    if negb (failed err) then
      h <- getNode ;;
      let err := dht_exists E (dht h) base (StatusLive E) in
      if failed err then
        if err_is err ErrHashNotFound then panic "RETRY-LINK NOT IMPLEMENTED"
        else ret (None, err)
      else
        err <- RunValidationPhase (From msg) VALIDATE_LINK_REQUEST linksHash (fun resp =>
          s <- lift (contentString (VEntry resp)) ;;
          let '(le, err) := jsonUnmarshalLinksEntry E s in
          if failed err then ret err
          else
            let a := NewLinkAction (VType resp) (Links le) in
            let a := mkActionLink (linkEntryType a) (links a) base in
            h <- getNode ;;
            r <- lift (ValidateAction E h (VLink a) (linkEntryType a)
                         (Some (VPackage resp)) [from]) ;;
            let err := snd r in
            if failed err then ret err
            else applyLinks msg base (Links le) err) ;;
        ret (Some (RespString "queued"), err)
    else ret (None, err)
  | _ => panic badAssertion
  end.

(** *** Get *)

(** The mask [ActionGet.Receive] works with: the default mask stands for
    the entry. *)
Definition effectiveMask (req : GetReq) : Z :=
  if GetMask req =? GetMaskDefault E then GetMaskEntry E else GetMask req.

Definition withEntryType (r : GetResp) (t : EntryTypeName) : GetResp :=
  mkGetResp (RespEntry r) t (RespSources r) (RespFollowHash r).
Definition withRespEntry (r : GetResp) (e : Entry) : GetResp :=
  mkGetResp e (RespEntryType r) (RespSources r) (RespFollowHash r).
Definition withFollowHash (r : GetResp) (f : string) : GetResp :=
  mkGetResp (RespEntry r) (RespEntryType r) (RespSources r) f.

Definition zeroGetResp : GetResp := mkGetResp None noEntryType [] "".

Definition ActionGet_Receive (h : Holochain) (msg : Message)
  : outcome (option Response * option error) :=
  match MBody msg with
  | GetReqBody req =>
    let mask := effectiveMask req in
    let '(entryData, entryType, sources, _, err) :=
      dht_get E (dht h) (GetH req) (StatusMask req)
        (Z.lor (GetMask req) (GetMaskEntryType E)) in
    let resp := mkGetResp None noEntryType sources "" in
    let resp :=
      if negb (Z.land mask (GetMaskEntryType E) =? 0) then withEntryType resp entryType
      else resp in
    if negb (failed err) then
      if negb (Z.land mask (GetMaskEntry E) =? 0) then
        match entryType with
        | DNAEntryType => Panics "nobody should actually get the DNA!"
        | AgentEntryType | KeyEntryType =>
          let e := mkGobEntry (ContentString entryData) in
          Returns (Some (RespGet (withRespEntry resp (Some e))), err)
        | AppEntryType _ =>
          let '(e, err) := Unmarshal E entryData in
          if failed err then Returns (None, err)
          else Returns (Some (RespGet (withRespEntry resp (Some e))), err)
        end
      else Returns (Some (RespGet resp), err)
    else
      let resp :=
        if err_is err ErrHashModified then withFollowHash resp entryData else resp in
      Returns (Some (RespGet resp), err)
  | _ => Panics badAssertion
  end.

End Receive.

(** ** The bootstrap client *)

Record BSReq : Type := mkBSReq {
  Version : Z;
  NodeID : string;
  NodeAddr : string;
  ReturnAddr : string
}.

Record BSResp : Type := mkBSResp {
  Req : BSReq;
  Remote : string;
  LastSeen : Z
}.

(** [strings.Split(s, sep)] for a separator of one character, which is
    what [checkBSResponses] passes: the pieces of [s] between the
    occurrences of [sep], one piece more than there are occurrences. *)
Fixpoint Split (s : string) (sep : ascii) : list string :=
  match s with
  | EmptyString => [""]
  | String c rest =>
    if Ascii.eqb c sep then "" :: Split rest sep
    else
      match Split rest sep with
      | piece :: pieces => String c piece :: pieces
      | [] => [String c ""]
      end
  end.

Definition colon : ascii := ":"%char.
Definition slash : ascii := "/"%char.

(** The host and the port [checkBSResponses] settles on for one
    response. *)
Definition peerHostPort (r : BSResp) : string * string :=
  let '(host, port) :=
    if negb (String.eqb (ReturnAddr (Req r)) "") then
      let x := Split (ReturnAddr (Req r)) colon in
      if (length x =? 2)%nat then (nth 0 x "", nth 1 x "") else ("", "")
    else ("", "") in
  if String.eqb host "" then
    let x := Split (Remote r) colon in
    let y := Split (NodeAddr (Req r)) slash in
    (nth 0 x "", nth (length y - 1) y "")
  else (host, port).

(** The text handed to [ma.NewMultiaddr]. *)
Definition peerAddrText (r : BSResp) : string :=
  let '(host, port) := peerHostPort r in
  "/ip4/" +:+ host +:+ "/tcp/" +:+ port.

(** The calls of [h.AddPeer] run in goroutines of their own, and each
    assigns its result to [err], the result variable of
    [checkBSResponses], when it is done.  A schedule says when that
    matters: which of the goroutines started so far are done between the
    decoding of the node identifier of the response [i] and the test of
    [err] that follows, which between the parsing of its address and the
    test that follows, and which after the loop, before the function
    returns.  The assignment of a goroutine that is done at another moment
    is overwritten before [err] is read, or comes after the function has
    returned.  A goroutine is named by the position of its response. *)
Record Schedule : Type := mkSchedule {
  afterDecode : nat -> list nat;
  afterParse : nat -> list nat;
  beforeReturn : list nat
}.

Section Bootstrap.
Context (E : Env).
(** What the calls of [h.AddPeer] return: the method is declared
    elsewhere.  The calls are told apart by the position of the response
    they are made for. *)
Context (AddPeer : nat -> PeerInfo -> option error).

(** [go func() { err = h.AddPeer(...) }()]: the call is started, which
    [added] records. *)
Definition goAddPeer (p : PeerInfo) : M unit :=
  fun h => (Returns tt, withAdded h (added h ++ [p])).

(** The goroutines [done] finish, in this order: each of them that is
    running assigns the result of its call to [err]. *)
Fixpoint finish (done : list nat) (running : list (nat * PeerInfo)) (err : option error)
  : list (nat * PeerInfo) * option error :=
  match done with
  | [] => (running, err)
  | i :: rest =>
    match List.find (fun g => Nat.eqb (fst g) i) running with
    | Some g =>
      finish rest (List.filter (fun g => negb (Nat.eqb (fst g) i)) running)
        (AddPeer (fst g) (snd g))
    | None => finish rest running err
    end
  end.

(** The loop of [checkBSResponses], at the response [i]; [err] is the
    error variable the function returns in the end, [running] are the
    goroutines that have not assigned to it yet. *)
Fixpoint checkBSLoop (sched : Schedule) (myNodeID : string) (nodes : list BSResp) (i : nat)
    (running : list (nat * PeerInfo)) (err : option error) : M (option error) :=
  match nodes with
  | [] => ret (snd (finish (beforeReturn sched) running err))
  | r :: rest =>
    let '(id, err) := IDB58Decode E (NodeID (Req r)) in
    let '(running, err) := finish (afterDecode sched i) running err in
    if negb (failed err) then
      let '(addr, err) := NewMultiaddr E (peerAddrText r) in
      let '(running, err) := finish (afterParse sched i) running err in
      if negb (failed err) then
        if negb (String.eqb (NodeID (Req r)) myNodeID) then
          _ <- goAddPeer (mkPeerInfo id [addr]) ;;
          checkBSLoop sched myNodeID rest (S i)
            (running ++ [(i, mkPeerInfo id [addr])]) err
        else checkBSLoop sched myNodeID rest (S i) running err
      else checkBSLoop sched myNodeID rest (S i) running err
    else checkBSLoop sched myNodeID rest (S i) running err
  end.

Definition checkBSResponses (sched : Schedule) (nodes : list BSResp) : M (option error) :=
  h <- getNode ;;
  checkBSLoop sched (nodeIDStr h) nodes 0 [] None.

End Bootstrap.

(** ** Get, on the initiating side *)

Record GetOptions : Type := mkGetOptions {
  OptStatusMask : Z;
  OptGetMask : Z;
  OptLocal : bool
}.

Record ActionGet : Type := mkActionGet {
  getReq : GetReq;
  getOptions : option GetOptions
}.

Definition NewGetAction (req : GetReq) (options : option GetOptions) : ActionGet :=
  mkActionGet req options.

Section GetDo.
Context (E : Env).
(** What the entangler answers to a get request that is not local. *)
Context (entangledGet : Holochain -> Hash -> Z -> Z -> option Response * option error).

Definition ActionGet_Do (a : ActionGet) (h : Holochain)
  : outcome (option Response * option error) :=
  options <~ deref (getOptions a) ;;
  if OptLocal options then
    let '(entry, entryType, err) := GetEntry (chain h) (GetH (getReq a)) in
    if failed err then Returns (None, err)
    else
      let resp := zeroGetResp in
      let mask := OptGetMask options in
      let resp :=
        if negb (Z.land mask (GetMaskEntryType E) =? 0) then withEntryType resp entryType
        else resp in
      let resp :=
        if negb (Z.land mask (GetMaskEntry E) =? 0) then withRespEntry resp entry
        else resp in
      Returns (Some (RespGet resp), err)
  else
    Returns (entangledGet h (GetH (getReq a)) (OptStatusMask options) (OptGetMask options)).

End GetDo.

(** ** From a message to its action *)

(** The actions [MakeActionFromMessage] makes: the zero value of one of
    the action structures. *)
Inductive ActionKind : Type :=
| ASend | APut | AGet | AMod | ADel | ALink | AGetLink.

(** [a.Name()] *)
Definition actionName (a : ActionKind) : string :=
  match a with
  | ASend => "send"
  | APut => "put"
  | AGet => "get"
  | AMod => "mod"
  | ADel => "del"
  | ALink => "link"
  | AGetLink => "getLink"
  end.

(** The name of the dynamic type of a message body, as [%T] and
    [reflect.Type] print it. *)
Definition bodyTypeName (b : Body) : string :=
  match b with
  | PutReq _ => "holochain.PutReq"
  | GetReqBody _ => "holochain.GetReq"
  | ModReq _ _ => "holochain.ModReq"
  | DelReq _ _ => "holochain.DelReq"
  | LinkReq _ _ => "holochain.LinkReq"
  | ValidateQuery _ => "holochain.ValidateQuery"
  | OtherBody t => t
  end.

(** [fmt.Sprintf("%d", n)] *)
Definition showInt (n : Z) : string := NilZero.string_of_int (Z.to_int n).

Section Dispatch.
(** The numbers of the message types, which are declared elsewhere. *)
Context (msgTypeCode : MsgType -> Z).

(** The [switch msg.Type]: the action and the type its body must have. *)
Definition actionOfType (t : MsgType) : option (ActionKind * string) :=
  match t with
  | APP_MESSAGE => Some (ASend, "holochain.AppMsg")
  | PUT_REQUEST => Some (APut, "holochain.PutReq")
  | GET_REQUEST => Some (AGet, "holochain.GetReq")
  | MOD_REQUEST => Some (AMod, "holochain.ModReq")
  | DEL_REQUEST => Some (ADel, "holochain.DelReq")
  | LINK_REQUEST => Some (ALink, "holochain.LinkReq")
  | GETLINK_REQUEST => Some (AGetLink, "holochain.LinkQuery")
  | _ => None
  end.

Definition MakeActionFromMessage (msg : Message) : option ActionKind * option error :=
  match actionOfType (MType msg) with
  | None =>
    (None, Some (ErrNew ("message type " +:+ showInt (msgTypeCode (MType msg))
                         +:+ " not in holochain-action protocol")))
  | Some (a, t) =>
    if negb (String.eqb (bodyTypeName (MBody msg)) t) then
      (Some a, Some (ErrNew ("Unexpected request body type '" +:+ bodyTypeName (MBody msg)
                             +:+ "' in " +:+ actionName a +:+ " request, expecting " +:+ t)))
    else (Some a, None)
  end.

End Dispatch.

(** ** The bootstrap client: posting and getting *)

(** What the bootstrap client reads of the node besides the fields of
    [Holochain]: the external address of [h.node] ([None] while the node
    is nil), [h.Config.BootstrapServer] and [h.DNAHash()]. *)
Record BootstrapSetup : Type := mkBootstrapSetup {
  nodeAddr : option Multiaddr;
  BootstrapServer : string;
  DNAHash : Hash
}.

Definition notInitialized : error := ErrNew "Node hasn't been initialized yet.".

Section BootstrapClient.
Context (E : Env).
(** What the calls of [h.AddPeer] return. *)
Context (AddPeer : nat -> PeerInfo -> option error).
(** The HTTP client, the JSON encoding and the process environment. *)
Context (httpGet : string -> bytes * option error).
Context (ReadAll : bytes -> bytes * option error).
Context (httpPost : string -> string -> bytes -> option error).
Context (jsonUnmarshalNodes : bytes -> list BSResp * option error).
Context (jsonMarshalReq : BSReq -> bytes * option error).
Context (Getenv : string -> string).

(** The request [BSpost] builds. *)
Definition bsRequest (addr : Multiaddr) (h : Holochain) : BSReq :=
  mkBSReq 1 (nodeIDStr h) addr (Getenv "HCBOOTSTRAP_RETURN_ADDR").

Definition BSpost (cfg : BootstrapSetup) (h : Holochain) : option error :=
  match nodeAddr cfg with
  | None => Some notInitialized
  | Some addr =>
    let nodeID := nodeIDStr h in
    let req := bsRequest addr h in
    let host := BootstrapServer cfg in
    let url := "http://" +:+ host +:+ "/" +:+ DNAHash cfg +:+ "/" +:+ nodeID in
    let '(b, err) := jsonMarshalReq req in
    if negb (failed err) then httpPost url "application/json" b
    else err
  end.

Definition BSget (sched : Schedule) (cfg : BootstrapSetup) : M (option error) :=
  match nodeAddr cfg with
  | None => ret (Some notInitialized)
  | Some _ =>
    let host := BootstrapServer cfg in
    if String.eqb host "" then ret None
    else
      let url := "http://" +:+ host +:+ "/" +:+ DNAHash cfg in
      let '(body, err) := httpGet url in
      if negb (failed err) then
        let '(b, err) := ReadAll body in
        if negb (failed err) then
          let '(nodes, err) := jsonUnmarshalNodes b in
          if negb (failed err) then checkBSResponses E AddPeer sched nodes
          else ret err
        else ret err
      else ret err
  end.

End BootstrapClient.

(** ** GetLink, on the initiating side *)

(** A link as a get-link response lists it: the hash [H] of the linked
    entry and, once loaded, its content [E]. *)
Record TaggedHash : Type := mkTaggedHash {
  TH : string;
  TE : string
}.

Record LinkQuery : Type := mkLinkQuery {
  LQBase : Hash;
  LQT : string;
  LQStatusMask : Z
}.

Record LinkQueryResp : Type := mkLinkQueryResp {
  RespLinks : list TaggedHash
}.

Record GetLinkOptions : Type := mkGetLinkOptions {
  OptLoad : bool;
  OptLinkStatusMask : Z
}.

Record ActionGetLink : Type := mkActionGetLink {
  linkQuery : option LinkQuery;
  getLinkOptions : option GetLinkOptions
}.

Definition NewGetLinkAction (q : option LinkQuery) (options : option GetLinkOptions)
  : ActionGetLink :=
  mkActionGetLink q options.

(** What comes back for a [GETLINK_REQUEST], an [interface{}]: a
    [*LinkQueryResp], or a value of another type (the nil interface
    included, whose [%T] is [<nil>]). *)
Inductive LinkReply : Type :=
| ReplyLinks (r : LinkQueryResp)
| ReplyOther (typeName : string).

Definition getLinkRequest (q : LinkQuery) : Outgoing :=
  mkOutgoing ActionProtocol (LQBase q) GETLINK_REQUEST (OtherBody "holochain.LinkQuery").

Section GetLinkDo.
Context (E : Env).
Context (entangledGet : Holochain -> Hash -> Z -> Z -> option Response * option error).
(** What the DHT answers to the query, and [%v] of a get request. *)
Context (getLinkReply : Holochain -> LinkQuery -> LinkReply * option error).
Context (showGetReq : GetReq -> string).

(** [h.dht.Send(a.linkQuery.Base, GETLINK_REQUEST, *a.linkQuery)] *)
Definition sendGetLink (q : LinkQuery) : M (LinkReply * option error) :=
  fun h => (Returns (getLinkReply h q), withSent h (sent h ++ [getLinkRequest q])).

(** The loop over [t.Links], which writes the loaded content into the
    response it was handed: [done] are the links already passed.  The
    error of the get is a variable of the loop body; the error the loop
    leaves behind is the one of [NewHash]. *)
Fixpoint loadLinks (h : Holochain) (todo done : list TaggedHash)
  : outcome (list TaggedHash * option error) :=
  match todo with
  | [] => Returns (done, None)
  | l :: rest =>
    let '(hash, err) := NewHash E (TH l) in
    if failed err then Returns (done ++ l :: rest, err)
    else
      let req := mkGetReq hash (StatusDefault E) 0 in
      r <~ ActionGet_Do E entangledGet
             (NewGetAction req (Some (mkGetOptions (StatusDefault E) 0 false))) h ;;
      let '(rsp, err) := r in
      if negb (failed err) then
        match rsp with
        | Some (RespGet g) =>
          match RespEntry g with
          | Some entry =>
            s <~ contentString entry ;;
            loadLinks h rest (done ++ [mkTaggedHash (TH l) s])
          | None =>
            Panics ("Nil entry in GetLink.Do response to req: " +:+ showGetReq req)
          end
        | _ => Panics badAssertion
        end
      else loadLinks h rest (done ++ [l])
  end.

Definition ActionGetLink_Do (a : ActionGetLink)
  : M (option LinkQueryResp * option error) :=
  q <- lift (deref (linkQuery a)) ;;
  r <- sendGetLink q ;;
  let '(reply, err) := r in
  if negb (failed err) then
    match reply with
    | ReplyLinks t =>
      options <- lift (deref (getLinkOptions a)) ;;
      if OptLoad options then
        h <- getNode ;;
        loaded <- lift (loadLinks h (RespLinks t) []) ;;
        ret (Some (mkLinkQueryResp (fst loaded)), snd loaded)
      else ret (Some t, None)
    | ReplyOther t =>
      ret (None, Some (ErrNew ("unexpected response type from SendGetLink: " +:+ t)))
    end
  else ret (None, err).

End GetLinkDo.

(** ** Vocabulary of the properties *)

(** The [LINK_REQUEST] that [ActionCommit.Do] sends for the base [base] of
    a links entry with the hash [entryHash]. *)
Definition linkRequest (E : Env) (entryHash : Hash) (base : string) : Outgoing :=
  let b := fst (NewHash E base) in
  mkOutgoing ActionProtocol b LINK_REQUEST (LinkReq b entryHash).

(** The [PUT_REQUEST] for the entry with the hash [entryHash]. *)
Definition putRequest (entryHash : Hash) : Outgoing :=
  mkOutgoing ActionProtocol entryHash PUT_REQUEST (PutReq entryHash).

(** The validation query [RunValidationPhase] sends to [source]. *)
Definition validateQuery (source : PeerID) (t : MsgType) (query : Hash) : Outgoing :=
  mkOutgoing ValidateProtocol source t (ValidateQuery query).

(** The node once that query has gone out. *)
Definition asked (h : Holochain) (source : PeerID) (t : MsgType) (query : Hash) : Holochain :=
  withSent h (sent h ++ [validateQuery source t query]).

Definition queued : option Response := Some (RespString "queued").

(** A link of a links entry as [sysValidateEntry] wants it: a [Base] and a
    [Link] that parse as hashes, and a [Tag]. *)
Definition wellFormedLink (E : Env) (link : gmap string string) : Prop :=
  (exists b, link !! "Base" = Some b /\ snd (NewHash E b) = None)
  /\ (exists t, link !! "Link" = Some t /\ snd (NewHash E t) = None)
  /\ is_Some (link !! "Tag").

(** The peer a bootstrap response makes known, if any: its node
    identifier decodes, its address parses, and it is not the node
    itself. *)
Definition discovered (E : Env) (myNodeID : string) (r : BSResp) : list PeerInfo :=
  match IDB58Decode E (NodeID (Req r)), NewMultiaddr E (peerAddrText r) with
  | (id, None), (addr, None) =>
    if String.eqb (NodeID (Req r)) myNodeID then [] else [mkPeerInfo id [addr]]
  | _, _ => []
  end.

(** The bootstrap response of the specification's end-to-end scenario. *)
Definition bootstrapExample : BSResp :=
  mkBSResp (mkBSReq 1 "QmCarol" "/ip4/1.2.3.4/tcp/4001" "5.6.7.8:4001") "9.9.9.9:1234" 0.



(** No entry of the chain has the hash [hash]. *)
Definition absentFrom (c : Chain) (hash : Hash) : Prop :=
  forall l, In l c -> EntryLink (LinkHeader l) <> hash.

(** The entry types of the system: everything but the types the
    application defines. *)
Definition isSystemType (t : EntryTypeName) : bool :=
  match t with
  | AppEntryType _ => false
  | _ => true
  end.

(** The [MOD_REQUEST] and the [DEL_REQUEST] that [ActionMod.Do] and
    [ActionDel.Do] send. *)
Definition modRequest (old new : Hash) : Outgoing :=
  mkOutgoing ActionProtocol old MOD_REQUEST (ModReq old new).

Definition delRequest (target by_ : Hash) : Outgoing :=
  mkOutgoing ActionProtocol target DEL_REQUEST (DelReq target by_).

(** [h'] is [h] with at most one link more at the end of the chain and
    with more messages sent; nothing else differs. *)
Definition extended (h h' : Holochain) : Prop :=
  exists links out,
    (length links <= 1)%nat
    /\ h' = withSent (withChain h (chain h ++ links)) (sent h ++ out).

(** A computation whose only effect on the node is on its DHT store. *)
Definition writesStoreOnly {A : Type} (m : M A) : Prop :=
  forall h, exists s, snd (m h) = withDHT h s.

(** [h'] is [h], or [h] after one validation query to [from] and any
    number of writes to the DHT store. *)
Definition received (from : PeerID) (h h' : Holochain) : Prop :=
  h' = h \/ exists t q s, h' = withDHT (asked h from t q) s.

(** The error of [RunValidationPhase] when the source does not answer
    with a [ValidateResponse]. *)
Definition unanswered (r : option Response) (err : option error) : option error :=
  if failed err then err
  else Some (ErrNew ("expected ValidateResponse from validator got " +:+ typeName r)).

(** The links of a links entry that are on the base [base]. *)
Definition linksOn (base : string) (ls : list Link) : list Link :=
  List.filter (fun l => String.eqb base (Base l)) ls.

(** The response of a local get with the mask [mask] for an entry of the
    chain. *)
Definition localResp (E : Env) (mask : Z) (entry : Entry) (t : EntryTypeName) : GetResp :=
  mkGetResp (if Z.land mask (GetMaskEntry E) =? 0 then None else entry)
            (if Z.land mask (GetMaskEntryType E) =? 0 then noEntryType else t) [] "".

(** The character [c] occurs in [s]. *)
Fixpoint hasChar (c : ascii) (s : string) : bool :=
  match s with
  | EmptyString => false
  | String x rest => Ascii.eqb x c || hasChar c rest
  end.

(** How often the character [c] occurs in [s]. *)
Fixpoint countChar (c : ascii) (s : string) : nat :=
  match s with
  | EmptyString => O
  | String x rest => ((if Ascii.eqb x c then 1 else 0) + countChar c rest)%nat
  end.

(** No goroutine assigns to [err] between an assignment of the loop and
    the test that follows it. *)
Definition quiet (sched : Schedule) : Prop :=
  forall i, afterDecode sched i = [] /\ afterParse sched i = [].

(** The schedule in which no goroutine is done before the function
    returns. *)
Definition noWrites : Schedule := mkSchedule (fun _ => []) (fun _ => []) [].

(** The peer the loop passes to [h.AddPeer] for the response [r]. *)
Definition offered (E : Env) (r : BSResp) : PeerInfo :=
  mkPeerInfo (fst (IDB58Decode E (NodeID (Req r)))) [fst (NewMultiaddr E (peerAddrText r))].

(** [err] is the result of the call of [h.AddPeer] for one of the
    responses [nodes]. *)
Definition fromCall (E : Env) (AddPeer : nat -> PeerInfo -> option error)
    (nodes : list BSResp) (err : option error) : Prop :=
  exists i r, nodes !! i = Some r /\ err = AddPeer i (offered E r).

(** Every goroutine of [running] is the call for one of the responses
    [pre]. *)
Definition started (E : Env) (pre : list BSResp) (running : list (nat * PeerInfo)) : Prop :=
  forall g, In g running -> exists r, pre !! fst g = Some r /\ snd g = offered E r.

(** The error [checkBSResponses] is left with after the response [r]. *)
Definition responseError (E : Env) (r : BSResp) : option error :=
  match IDB58Decode E (NodeID (Req r)) with
  | (_, Some err) => Some err
  | (_, None) => snd (NewMultiaddr E (peerAddrText r))
  end.

(** The address [BSget] asks. *)
Definition bootstrapURL (cfg : BootstrapSetup) : string :=
  "http://" +:+ BootstrapServer cfg +:+ "/" +:+ DNAHash cfg.

(** The node once the get-link query has gone out. *)
Definition askedLinks (h : Holochain) (q : LinkQuery) : Holochain :=
  withSent h (sent h ++ [getLinkRequest q]).

Section GetLinkVocabulary.
Context (E : Env).
Context (entangledGet : Holochain -> Hash -> Z -> Z -> option Response * option error).

(** What the get of the entry a link points at answers. *)
Definition getOf (h : Holochain) (l : TaggedHash) : option Response * option error :=
  entangledGet h (fst (NewHash E (TH l))) (StatusDefault E) 0.

(** The link with the content of its entry, where the get answered with
    an entry that holds a string, and the link as it was otherwise. *)
Definition loadedLink (h : Holochain) (l : TaggedHash) : TaggedHash :=
  match getOf h l with
  | (Some (RespGet g), None) =>
    match RespEntry g with
    | Some entry =>
      match C entry with
      | ContentString s => mkTaggedHash (TH l) s
      | _ => l
      end
    | None => l
    end
  | _ => l
  end.

(** A link the loop passes: its hash parses, and the get of its entry
    fails or answers with an entry that holds a string. *)
Definition loadable (h : Holochain) (l : TaggedHash) : Prop :=
  snd (NewHash E (TH l)) = None
  /\ (snd (getOf h l) <> None
      \/ exists g entry s,
           getOf h l = (Some (RespGet g), None)
           /\ RespEntry g = Some entry /\ C entry = ContentString s).

End GetLinkVocabulary.

(** ** A small application to run the code on

    One zome, [blog], with a public entry type [post], a private one
    [note], a links type [rating], and a links type [tagged] that comes
    with a schema validator.  The application rejects every entry whose
    content starts with [bad]. *)

Module Example.

Definition StatusDeleted : Z := 4.
Definition StatusModified : Z := 8.

Definition dq : string := String (Ascii.ascii_of_nat 34) EmptyString.
Definition jstr (s : string) : string := dq +:+ s +:+ dq.
Definition jlink (base link tag : string) : string :=
  "{" +:+ jstr "Base" +:+ ":" +:+ jstr base +:+ ","
      +:+ jstr "Link" +:+ ":" +:+ jstr link +:+ ","
      +:+ jstr "Tag" +:+ ":" +:+ jstr tag +:+ "}".
Definition jlinks (ls : list string) : string :=
  "{" +:+ jstr "Links" +:+ ":[" +:+ String.concat "," ls +:+ "]}".

(** Three links, two of them on the same base. *)
Definition ratingLinks : list Link :=
  [ mkLink "" "QmBase1" "QmPost1" "likes";
    mkLink "" "QmBase2" "QmPost2" "likes";
    mkLink "" "QmBase1" "QmPost3" "likes" ].

Definition ratingJSON : string :=
  jlinks (List.map (fun l => jlink (Base l) (LinkTo l) (Tag l)) ratingLinks).

Definition linkMap (l : Link) : gmap string string :=
  <["Base" := Base l]> (<["Link" := LinkTo l]> (<["Tag" := Tag l]> ∅)).

Definition syntaxError : error := ErrNew "invalid character looking for beginning of value".

Definition parseHash (s : string) : Hash * option error :=
  if String.prefix "Qm" s then (s, None) else ("", Some (ErrNew "invalid hash")).

Definition isDigitOrDot (c : ascii) : bool :=
  let n := nat_of_ascii c in
  (((48 <=? n) && (n <=? 57)) || (n =? 46))%nat.

Fixpoint allChars (p : ascii -> bool) (s : string) : bool :=
  match s with
  | EmptyString => true
  | String c rest => p c && allChars p rest
  end.

Definition numeric (s : string) : bool :=
  negb (String.eqb s "") && allChars isDigitOrDot s.

(** Only addresses of the form [/ip4/a.b.c.d/tcp/port] parse. *)
Definition parseMultiaddr (s : string) : Multiaddr * option error :=
  match Split s slash with
  | [""; "ip4"; host; "tcp"; port] =>
    if numeric host && numeric port then (s, None)
    else ("", Some (ErrNew "invalid multiaddr"))
  | _ => ("", Some (ErrNew "invalid multiaddr"))
  end.

Definition postDef : EntryDef := mkEntryDef "post" "string" "public" None.
Definition noteDef : EntryDef := mkEntryDef "note" "string" "private" None.
Definition ratingDef : EntryDef := mkEntryDef "rating" "links" "public" None.
Definition taggedDef : EntryDef :=
  mkEntryDef "tagged" "links" "public" (Some (fun _ => None)).

Definition entryOfAction (a : ValidatingAction) : Entry :=
  match a with
  | VCommit a => commitEntry a
  | VPut a => putEntry a
  | VMod a => modEntry a
  | _ => None
  end.

Definition appValidate (a : ValidatingAction) : option error :=
  match entryOfAction a with
  | Some e => if String.prefix "bad" (showContent (C e)) then Some ValidationFailedErr else None
  | None => None
  end.

Definition ribosome : Ribosome :=
  mkRibosome (fun a _ _ _ => appValidate a) (fun _ _ => ("", None)).

Definition entryHash (e : GobEntry) : Hash := "Qm" +:+ showContent (C e).

Definition prepare (c : Chain) (t : Z) (ty : EntryTypeName) (entry : Entry) (key : PrivKey)
    (change : option StatusChange) : Z * Hash * option Header * option error :=
  match entry with
  | None => (0, "", None, Some (ErrNew "nil entry"))
  | Some e =>
    let hd := mkHeader ty t "" (entryHash e) "" key change in
    (Z.of_nat (length c), "QmHdr" +:+ showContent (C e), Some hd, None)
  end.

Definition entryDefs (h : Holochain) (ty : EntryTypeName)
  : Zome * option EntryDef * option error :=
  match ty with
  | AppEntryType "post" => ("blog", Some postDef, None)
  | AppEntryType "note" => ("blog", Some noteDef, None)
  | AppEntryType "rating" => ("blog", Some ratingDef, None)
  | AppEntryType "tagged" => ("blog", Some taggedDef, None)
  | _ => ("", None, Some (ErrNew "no definition for entry type"))
  end.

(** The peer [QmAlice] justifies three of its entries. *)
Definition answers (h : Holochain) (proto : Protocol) (to : PeerID) (t : MsgType)
    (body : Body) : option Response * option error :=
  match proto, body with
  | ValidateProtocol, ValidateQuery "Qmhello" =>
    (Some (RespValidate (mkValidateResponse (AppEntryType "post")
       (mkGobEntry (ContentString "hello")) zeroHeader "")), None)
  | ValidateProtocol, ValidateQuery "Qmhowdy" =>
    (Some (RespValidate (mkValidateResponse (AppEntryType "post")
       (mkGobEntry (ContentString "howdy")) zeroHeader "")), None)
  | ValidateProtocol, ValidateQuery "Qmbadger" =>
    (Some (RespValidate (mkValidateResponse (AppEntryType "post")
       (mkGobEntry (ContentString "badger")) zeroHeader "")), None)
  | ValidateProtocol, ValidateQuery "Qmpicture" =>
    (Some (RespValidate (mkValidateResponse (AppEntryType "post")
       (mkGobEntry (ContentOther "0xc000010000")) zeroHeader "")), None)
  | _, _ => (None, Some (ErrNew "no response"))
  end.

(** Modelled from the spec: [dht.exists] is declared outside the two
    source files.  A record is found under the default mask whatever its
    status, and under another mask when its status is in the mask. *)
Definition exists_ (s : Store) (key : Hash) (mask : Z) : option error :=
  match records s !! key with
  | None => Some ErrHashNotFound
  | Some r =>
    if (mask =? 0) || negb (Z.land (RecStatus r) mask =? 0) then None
    else Some ErrHashNotFound
  end.

(** Modelled from the spec: [dht.put] is declared outside the two source
    files.  It creates the record of the hash with the given type, bytes,
    source and status. *)
Definition put (s : Store) (msg : Message) (t : EntryTypeName) (key : Hash) (src : PeerID)
    (b : bytes) (status : Z) : Store * option error :=
  (mkStore (<[key := mkDHTRecord t b [src] status None]> (records s)) (linkIndex s), None).

(** Modelled from the spec: [dht.mod] and [dht.del] are declared outside
    the two source files.  They move an existing record to [Modified],
    with the replacing hash as [FollowHash], and to [Deleted]. *)
Definition transition (status : Z) (follow : option Hash) (s : Store) (key : Hash)
  : Store * option error :=
  match records s !! key with
  | None => (s, Some ErrHashNotFound)
  | Some r =>
    (mkStore (<[key := mkDHTRecord (RecType r) (RecBytes r) (RecSources r) status follow]>
                (records s)) (linkIndex s), None)
  end.

(** Modelled from the spec: [dht.get] is declared outside the two source
    files.  For a modified record it answers [ErrHashModified] together
    with the replacing hash; for any other record it answers the bytes. *)
Definition get (s : Store) (key : Hash) (statusMask getMask : Z)
  : bytes * EntryTypeName * list string * Z * option error :=
  match records s !! key with
  | None => ("", noEntryType, [], 0, Some ErrHashNotFound)
  | Some r =>
    match RecFollowHash r with
    | Some f => (f, RecType r, RecSources r, RecStatus r, Some ErrHashModified)
    | None => (RecBytes r, RecType r, RecSources r, RecStatus r, None)
    end
  end.

(** Modelled from the spec: [dht.putLink] and [dht.delLink] are declared
    outside the two source files.  They add the link to the index of its
    base, live or deleted. *)
Definition putLink (status : Z) (s : Store) (msg : Message) (base link tag : string)
  : Store * option error :=
  let old := default [] (linkIndex s !! base) in
  (mkStore (records s)
     (<[base := old ++ [mkLinkRecord link tag (From msg) status]]> (linkIndex s)), None).

Definition env : Env := {|
  DataFormatLinks := "links";
  DataFormatJSON := "json";
  Public := "public";
  ModAction := "m";
  DelAction := "d";
  StatusDefault := 0;
  StatusLive := 1;
  StatusRejected := 2;
  GetMaskDefault := 0;
  GetMaskEntry := 1;
  GetMaskEntryType := 2;
  NewHash := parseHash;
  IDB58Encode := fun id => id;
  IDB58Decode := parseHash;
  NewMultiaddr := parseMultiaddr;
  jsonUnmarshal := fun s => (JString s, None);
  jsonUnmarshalLinkMaps := fun s =>
    if String.eqb s ratingJSON then (List.map linkMap ratingLinks, None)
    else ([], Some syntaxError);
  jsonUnmarshalLinksEntry := fun s =>
    if String.eqb s ratingJSON then (mkLinksEntry ratingLinks, None)
    else (mkLinksEntry [], Some syntaxError);
  Marshal := fun e =>
    match C e with
    | ContentString s => (s, None)
    | _ => ("", Some (ErrNew "gob: type not registered for interface"))
    end;
  Unmarshal := fun b => (mkGobEntry (ContentString b), None);
  ByteEncoder := fun d => (DelHash d +:+ " " +:+ DelMessage d, None);
  ByteDecoder := fun b =>
    let x := Split b " "%char in (mkDelEntry (nth 0 x "") (nth 1 x ""), None);
  now := 1500000000;
  PrepareHeader := prepare;
  headerSum := fun hd => "QmHdr" +:+ String.substring 2 (String.length (EntryLink hd)) (EntryLink hd);
  GetEntryDef := entryDefs;
  MakeValidationPackage := fun _ _ => ("", None);
  MakePackage := fun _ _ => ("", None);
  MakeRibosome := fun _ _ => (ribosome, None);
  SendReply := answers;
  dhtSendReply := fun _ _ _ _ => (Some (RespString "queued"), None);
  dht_exists := exists_;
  dht_get := get;
  dht_put := put;
  dht_mod := fun s _ old new => transition StatusModified (Some new) s old;
  dht_del := fun s _ key => transition StatusDeleted None s key;
  dht_putLink := putLink 1;
  dht_delLink := putLink StatusDeleted
|}.

Definition emptyStore : Store := mkStore ∅ ∅.

(** A node that holds nothing yet. *)
Definition node : Holochain := mkHolochain "QmBob" "QmBob" "key" [] emptyStore [] [].

Definition post (content : string) : ActionCommit :=
  NewCommitAction (AppEntryType "post") (Some (mkGobEntry (ContentString content))).

Definition postHeader (content : string) : Header :=
  mkHeader (AppEntryType "post") 1500000000 "" ("Qm" +:+ content) "" "key" None.

(** The chain after the node has committed one post. *)
Definition chainWith (content : string) : Chain :=
  [mkChainLink ("QmHdr" +:+ content) (postHeader content)
     (Some (mkGobEntry (ContentString content)))].

Definition helloRecord : DHTRecord :=
  mkDHTRecord (AppEntryType "post") "hello" ["QmBob"] 1 None.

(** The node after it has committed the post [hello] and holds its live
    record. *)
Definition nodeWithHello : Holochain :=
  withDHT (withChain node (chainWith "hello")) (mkStore {["Qmhello" := helloRecord]} ∅).

Definition rating : ActionCommit :=
  NewCommitAction (AppEntryType "rating") (Some (mkGobEntry (ContentString ratingJSON))).

Definition fromAlice (t : MsgType) (body : Body) : Message := mkMessage t "QmAlice" body.


Definition ratingHash : Hash := "Qm" +:+ ratingJSON.

Definition ratingHeader : Header :=
  mkHeader (AppEntryType "rating") 1500000000 "" ratingHash "" "key" None.

(** The node after it has committed the links entry [rating]. *)
Definition nodeWithRating : Holochain :=
  withChain node [mkChainLink ("QmHdr" +:+ ratingJSON) ratingHeader (commitEntry rating)].

(** What [QmAlice] answers to the validation queries. *)
Definition postAnswer (content : string) : ValidateResponse :=
  mkValidateResponse (AppEntryType "post") (mkGobEntry (ContentString content)) zeroHeader "".

Definition pictureAnswer : ValidateResponse :=
  mkValidateResponse (AppEntryType "post") (mkGobEntry (ContentOther "0xc000010000"))
    zeroHeader "".

Definition getHello : Message :=
  fromAlice GET_REQUEST (GetReqBody (mkGetReq "Qmhello" 0 0)).

Definition linkToUnknownBase : Message :=
  fromAlice LINK_REQUEST (LinkReq "QmBase1" ratingHash).

(** A bootstrap response whose return address names a port only. *)
Definition portOnly : BSResp :=
  mkBSResp (mkBSReq 1 "QmCarol" "/ip4/1.2.3.4/tcp/7777" ":4001") "9.9.9.9:1234" 0.

(** A bootstrap response for a peer the server saw at an IPv6 address. *)
Definition ipv6Peer : BSResp :=
  mkBSResp (mkBSReq 1 "QmDave" "/ip4/0.0.0.0/tcp/4001" "") "[::1]:51234" 0.

(** The answer of the bootstrap server: the peer of the specification's
    scenario, and the node itself. *)
Definition bootstrapNodes : list BSResp :=
  [bootstrapExample; mkBSResp (mkBSReq 1 "QmBob" "/ip4/1.2.3.4/tcp/4001" "") "9.9.9.9:1234" 0].


(** *** More of the example *)

(** A key entry, the replacement of the post [hello] by [howdy], and its
    deletion. *)
Definition keyEntry : ActionCommit :=
  NewCommitAction KeyEntryType (Some (mkGobEntry (ContentString "pubkey"))).

Definition modHello : ActionMod :=
  NewModAction (AppEntryType "post") (Some (mkGobEntry (ContentString "howdy"))) "Qmhello".

Definition delHello : ActionDel :=
  NewDelAction (AppEntryType "post") (mkDelEntry "Qmhello" "bye").

(** A node that holds the live record of [QmBase1]. *)
Definition nodeWithBase : Holochain :=
  withDHT node
    (mkStore {["QmBase1" := mkDHTRecord (AppEntryType "post") "base" ["QmBob"] 1 None]} ∅).

(** What [QmAlice] answers for the deletion of [Qmhello] and for the links
    entry [rating]. *)
Definition deletionAnswer : ValidateResponse :=
  mkValidateResponse (AppEntryType "post") (mkGobEntry (ContentString "Qmhello bye"))
    zeroHeader "".

Definition ratingAnswer : ValidateResponse :=
  mkValidateResponse (AppEntryType "rating") (mkGobEntry (ContentString ratingJSON))
    zeroHeader "".

Definition moreAnswers (h : Holochain) (proto : Protocol) (to : PeerID) (t : MsgType)
    (body : Body) : option Response * option error :=
  match proto, body with
  | ValidateProtocol, ValidateQuery q =>
    if String.eqb q "QmDel" then (Some (RespValidate deletionAnswer), None)
    else if String.eqb q ratingHash then (Some (RespValidate ratingAnswer), None)
    else answers h proto to t body
  | _, _ => answers h proto to t body
  end.

(** The example with these answers added. *)
Definition env2 : Env := {|
  DataFormatLinks := DataFormatLinks env;
  DataFormatJSON := DataFormatJSON env;
  Public := Public env;
  ModAction := ModAction env;
  DelAction := DelAction env;
  StatusDefault := StatusDefault env;
  StatusLive := StatusLive env;
  StatusRejected := StatusRejected env;
  GetMaskDefault := GetMaskDefault env;
  GetMaskEntry := GetMaskEntry env;
  GetMaskEntryType := GetMaskEntryType env;
  NewHash := NewHash env;
  IDB58Encode := IDB58Encode env;
  IDB58Decode := IDB58Decode env;
  NewMultiaddr := NewMultiaddr env;
  jsonUnmarshal := jsonUnmarshal env;
  jsonUnmarshalLinkMaps := jsonUnmarshalLinkMaps env;
  jsonUnmarshalLinksEntry := jsonUnmarshalLinksEntry env;
  Marshal := Marshal env;
  Unmarshal := Unmarshal env;
  ByteEncoder := ByteEncoder env;
  ByteDecoder := ByteDecoder env;
  now := now env;
  PrepareHeader := PrepareHeader env;
  headerSum := headerSum env;
  GetEntryDef := GetEntryDef env;
  MakeValidationPackage := MakeValidationPackage env;
  MakePackage := MakePackage env;
  MakeRibosome := MakeRibosome env;
  SendReply := moreAnswers;
  dhtSendReply := dhtSendReply env;
  dht_exists := dht_exists env;
  dht_get := dht_get env;
  dht_put := dht_put env;
  dht_mod := dht_mod env;
  dht_del := dht_del env;
  dht_putLink := dht_putLink env;
  dht_delLink := dht_delLink env
|}.

(** The DHT as the node's gets see it: the post [hello], a record without
    an entry, and nothing else. *)
Definition entangled (h : Holochain) (hash : Hash) (statusMask getMask : Z)
  : option Response * option error :=
  if String.eqb hash "Qmhello" then
    (Some (RespGet (mkGetResp (Some (mkGobEntry (ContentString "hello")))
                      (AppEntryType "post") ["QmBob"] "")), None)
  else if String.eqb hash "Qmempty" then (Some (RespGet zeroGetResp), None)
  else (None, Some ErrHashNotFound).

(** The links the DHT reports: two on [QmBase1], of which one leads to an
    entry that is gone, and three on [QmBase2], of which the second is no
    hash. *)
Definition linkReplies (h : Holochain) (q : LinkQuery) : LinkReply * option error :=
  if String.eqb (LQBase q) "QmBase1" then
    (ReplyLinks (mkLinkQueryResp [mkTaggedHash "Qmhello" ""; mkTaggedHash "Qmgone" ""]), None)
  else if String.eqb (LQBase q) "QmBase2" then
    (ReplyLinks (mkLinkQueryResp [mkTaggedHash "Qmhello" ""; mkTaggedHash "nonsense" "";
                                  mkTaggedHash "Qmhello" ""]), None)
  else if String.eqb (LQBase q) "QmBase3" then
    (ReplyLinks (mkLinkQueryResp [mkTaggedHash "Qmempty" ""]), None)
  else (ReplyOther "<nil>", Some (ErrNew "no response")).

Definition showReq (r : GetReq) : string := "{" +:+ GetH r +:+ " 0 0}".

Definition likes (base : Hash) : ActionGetLink :=
  NewGetLinkAction (Some (mkLinkQuery base "likes" 0)) (Some (mkGetLinkOptions true 0)).

(** A transport that takes every peer, and one that takes none. *)
Definition peerAccepted (i : nat) (p : PeerInfo) : option error := None.

Definition peerRejected (i : nat) (p : PeerInfo) : option error :=
  Some (ErrNew "peer rejected").

(** The call for the first response is done after the loop, before the
    function returns; or between the decoding of the second response and
    the test of [err]. *)
Definition doneBeforeReturn : Schedule :=
  mkSchedule (fun _ => []) (fun _ => []) [0%nat].

Definition doneAfterDecode : Schedule :=
  mkSchedule (fun i => if Nat.eqb i 1 then [0%nat] else []) (fun _ => []) [].

(** Another peer, and a response whose node identifier does not decode. *)
Definition secondPeer : BSResp :=
  mkBSResp (mkBSReq 1 "QmErin" "/ip4/1.2.3.5/tcp/4001" "") "8.8.8.8:1234" 0.

Definition undecodable : BSResp :=
  mkBSResp (mkBSReq 1 "garbage" "/ip4/1.2.3.6/tcp/4001" "") "7.7.7.7:1234" 0.

(** A bootstrap server that knows the peers [bootstrapNodes]. *)
Definition setup : BootstrapSetup :=
  mkBootstrapSetup (Some "/ip4/1.2.3.4/tcp/4001") "bootstrap.example.org" "QmDNA".

Definition httpGet (url : string) : bytes * option error :=
  if String.eqb url "http://bootstrap.example.org/QmDNA" then ("nodes", None)
  else ("", Some (ErrNew "connection refused")).

Definition readAll (body : bytes) : bytes * option error := (body, None).

Definition decodeNodes (b : bytes) : list BSResp * option error :=
  if String.eqb b "nodes" then (bootstrapNodes, None) else ([], Some syntaxError).

Definition encodeReq (r : BSReq) : bytes * option error :=
  (NodeID r +:+ " " +:+ NodeAddr r +:+ " " +:+ ReturnAddr r, None).

Definition httpPost (url contentType : string) (b : bytes) : option error := None.

Definition returnAddrSet (name : string) : string :=
  if String.eqb name "HCBOOTSTRAP_RETURN_ADDR" then "5.6.7.8:4001" else "".

Definition returnAddrUnset (name : string) : string := "".

End Example.

(** * Properties *)

Lemma countMin_from (args : list Arg) (acc : Z) :
  fold_left (fun min a => if negb (Optional a) then min + 1 else min) args acc
  = acc + Z.of_nat (required args).
Proof.
  revert acc. induction args as [|a args IH]; intros acc.
  - unfold required. simpl. lia.
  - simpl. rewrite IH. unfold required. simpl.
    destruct (Optional a); simpl; lia.
Qed.

Lemma countMin_required (args : list Arg) :
  countMin args = Z.of_nat (required args).
Proof. unfold countMin. rewrite countMin_from. lia. Qed.

(** C7: [checkArgCount args n] returns no error exactly when the number of
    non-optional arguments is at most [n] and [n] is at most the length of
    the argument list; in every other case the error is [ErrWrongNargs]. *)
Theorem checkArgCount_iff (args : list Arg) (n : Z) :
  (checkArgCount args n = None
   <-> Z.of_nat (required args) <= n /\ n <= Z.of_nat (length args))
  /\ (checkArgCount args n = None \/ checkArgCount args n = Some ErrWrongNargs).
Proof.
  unfold checkArgCount. rewrite countMin_required.
  destruct (n <? Z.of_nat (required args)) eqn:Hlo;
    destruct (n >? Z.of_nat (length args)) eqn:Hhi; simpl;
    repeat split; auto; try congruence; try lia; intros; exfalso; lia.
Qed.

(** ** Commit *)

Section CommitProps.
Context (E : Env).

(** C1: [doCommit] validates a committing action (commit, mod or del)
    with the node itself as the only source before it touches the chain.
    When that validation fails the node, and so its chain, is left as it
    was; when the failure is [ValidationFailedErr] the error returned is
    exactly [Invalid entry: ] followed by the content of the entry, and any
    other validation error is returned as it is. *)
Theorem doCommit_validation_failure
    (a : CommittingAction) (change : option StatusChange) (h : Holochain)
    (entry : Entry) (l : Z) (hash : Hash) (header : option Header)
    (d : option EntryDef) (err : error) :
  actionEntry E a = Returns entry ->
  PrepareHeader E (chain h) (now E) (actionEntryType a) entry (agentKey h) change
    = (l, hash, header, None) ->
  ValidateAction E h (asValidating a) (actionEntryType a) None [nodeID h]
    = Returns (d, Some err) ->
  snd (doCommit E a change h) = h
  /\ (forall e, entry = Some e -> err = ValidationFailedErr ->
        fst (doCommit E a change h)
        = Returns (d, header, "", Some (ErrNew ("Invalid entry: " +:+ showContent (C e)))))
  /\ (err <> ValidationFailedErr ->
        fst (doCommit E a change h) = Returns (d, header, "", Some err)).
Proof.
  intros Hentry Hprep Hval.
  unfold doCommit, bind, lift, getNode, ret.
  rewrite Hentry, Hprep. cbn [failed]. rewrite Hval. cbn [failed err_is].
  destruct (bool_decide_reflect (err = ValidationFailedErr)) as [Heq|Hne].
  - destruct entry as [e|]; cbn.
    + split; [reflexivity|]. split; [|congruence].
      intros e' [= <-] _. reflexivity.
    + split; [reflexivity|]. split; [discriminate|congruence].
  - cbn. split; [reflexivity|]. split; [|reflexivity].
    intros e' _ Heq. contradiction.
Qed.

Lemma withSent_withSent (h : Holochain) (o1 o2 : list Outgoing) :
  withSent (withSent h o1) o2 = withSent h o2.
Proof. reflexivity. Qed.

Lemma withSent_same (h : Holochain) : withSent h (sent h) = h.
Proof. destruct h; reflexivity. Qed.

(** The loop over the links sends one request for each base that has not
    been served, in the order in which the bases first appear. *)
Lemma sendLinkRequests_distinct (ls : list Link) (entryHash : Hash) :
  forall (seen : gmap string bool) (h : Holochain),
  exists bases : list string,
    NoDup bases
    /\ (forall b, b ∈ bases <-> b ∈ List.map Base ls /\ seen !! b = None)
    /\ sendLinkRequests E ls entryHash seen h
       = (Returns tt, withSent h (sent h ++ List.map (linkRequest E entryHash) bases)).
Proof.
  induction ls as [|l rest IH]; intros seen h.
  - exists []. split; [constructor|]. split.
    + intros b. cbn. split; [intros Hb; inversion Hb|intros [Hb _]; inversion Hb].
    + cbn. rewrite app_nil_r, withSent_same. reflexivity.
  - cbn [sendLinkRequests]. destruct (seen !! Base l) as [v|] eqn:Hseen.
    + destruct (IH seen h) as (bases & Hnd & Hin & Hrun).
      exists bases. split; [exact Hnd|]. split; [|exact Hrun].
      intros b. rewrite Hin. cbn [List.map]. rewrite elem_of_cons.
      split; [tauto|]. intros [[-> | Hb] Hnone]; [congruence | tauto].
    + destruct (NewHash E (Base l)) as [b0 e0] eqn:Hnh.
      unfold bind, dhtSend.
      destruct (IH (<[Base l:=true]> seen)
                  (withSent h (sent h ++ [mkOutgoing ActionProtocol b0 LINK_REQUEST
                                            (LinkReq b0 entryHash)])))
        as (bases & Hnd & Hin & Hrun).
      exists (Base l :: bases). split; [|split].
      * constructor; [|exact Hnd]. rewrite Hin. intros [_ Hnone].
        rewrite lookup_insert_eq in Hnone. discriminate.
      * intros b. rewrite elem_of_cons, Hin. cbn [List.map]. rewrite elem_of_cons.
        destruct (decide (b = Base l)) as [->|Hne].
        -- split; [tauto|]. intros _. left. reflexivity.
        -- rewrite lookup_insert_ne by congruence. tauto.
      * rewrite Hrun. cbn [sent withSent]. rewrite withSent_withSent.
        cbn [List.map]. unfold linkRequest at 2. rewrite Hnh. cbn [fst].
        rewrite <- app_assoc. reflexivity.
Qed.

(** C2: after [doCommit] has succeeded with the entry definition [d] and
    the entry hash [entryHash], [ActionCommit.Do] does the following.  For
    a links entry, whenever it returns without error, it has sent exactly
    the [LINK_REQUEST]s of a duplicate-free list of the bases of the
    entry's links, every base of the entry being in the list and each
    request naming the entry hash, and it returns the entry hash.
    Otherwise, for a public entry, it sends exactly one [PUT_REQUEST] for
    the entry hash and returns the entry hash; and for any other entry it
    sends nothing and returns the entry hash. *)
Theorem commit_publishes (a : ActionCommit) (h h1 : Holochain) (d : EntryDef)
    (header : option Header) (entryHash : Hash) :
  doCommit E (CCommit a) None h = (Returns (Some d, header, entryHash, None), h1) ->
  (DataFormat d = DataFormatLinks E ->
     forall resp h2, ActionCommit_Do E a h = (Returns (resp, None), h2) ->
       resp = Some (RespHash entryHash)
       /\ exists e s le bases,
            commitEntry a = Some e /\ C e = ContentString s
            /\ jsonUnmarshalLinksEntry E s = (le, None)
            /\ NoDup bases
            /\ (forall b, b ∈ bases <-> b ∈ List.map Base (Links le))
            /\ h2 = withSent h1 (sent h1 ++ List.map (linkRequest E entryHash) bases))
  /\ (DataFormat d <> DataFormatLinks E -> Sharing d = Public E ->
        ActionCommit_Do E a h
        = (Returns (Some (RespHash entryHash),
                    snd (dhtSendReply E h1 entryHash PUT_REQUEST (PutReq entryHash))),
           withSent h1 (sent h1 ++ [putRequest entryHash])))
  /\ (DataFormat d <> DataFormatLinks E -> Sharing d <> Public E ->
        ActionCommit_Do E a h = (Returns (Some (RespHash entryHash), None), h1)).
Proof.
  intros Hcommit. unfold ActionCommit_Do, bind. rewrite Hcommit.
  cbn [failed lift deref]. split; [|split].
  - intros Hfmt resp h2. rewrite Hfmt, String.eqb_refl.
    destruct (commitEntry a) as [e|]; cbn [deref]; [|discriminate].
    unfold contentString.
    destruct (C e) as [|s|shown] eqn:Hc; try discriminate.
    destruct (jsonUnmarshalLinksEntry E s) as [le [err|]] eqn:Hjson;
      cbn [failed]; [unfold ret; discriminate|].
    destruct (sendLinkRequests_distinct (Links le) entryHash ∅ h1)
      as (bases & Hnd & Hin & Hrun).
    rewrite Hrun. unfold ret. intros [= <- <-]. split; [reflexivity|].
    exists e, s, le, bases. repeat split; try assumption.
    + intros Hb. apply Hin in Hb. tauto.
    + intros Hb. apply Hin. split; [exact Hb|apply lookup_empty].
  - intros Hfmt Hpub. apply String.eqb_neq in Hfmt. rewrite Hfmt, Hpub, String.eqb_refl.
    reflexivity.
  - intros Hfmt Hpub. apply String.eqb_neq in Hfmt, Hpub. rewrite Hfmt, Hpub.
    reflexivity.
Qed.

End CommitProps.

(** ** System validation of an entry *)

Section SysValidateProps.
Context (E : Env).

Lemma checkLinks_ok (l : list (gmap string string)) :
  checkLinks E l = None <-> Forall (wellFormedLink E) l.
Proof.
  induction l as [|link rest IH]; cbn [checkLinks].
  - split; [constructor|reflexivity].
  - rewrite Forall_cons, <- IH. unfold wellFormedLink.
    destruct (link !! "Base") as [b|] eqn:Hb.
    2:{ split; [discriminate|]. intros [[(b & Hb' & _) _] _]. discriminate. }
    destruct (snd (NewHash E b)) as [eb|] eqn:Heb.
    { split; [discriminate|]. intros [[(b' & [= <-] & Hok) _] _]. congruence. }
    destruct (link !! "Link") as [t|] eqn:Ht.
    2:{ split; [discriminate|]. intros [(_ & (t & Ht' & _) & _) _]. discriminate. }
    destruct (snd (NewHash E t)) as [et|] eqn:Het.
    { split; [discriminate|]. intros [(_ & (t' & [= <-] & Hok) & _) _]. congruence. }
    destruct (link !! "Tag") as [g|] eqn:Hg.
    2:{ split; [discriminate|]. intros [(_ & _ & [g Hg']) _]. discriminate. }
    split.
    + intros Hrest. split; [|exact Hrest]. split; [|split]; eauto.
    + intros [_ Hrest]. exact Hrest.
Qed.

(** X25: [sysValidateEntry] rejects a nil entry whatever the
    entry definition.  When the definition has a schema validator, the
    validator decides: on the structured value the content unmarshals to
    when the data format is JSON (the unmarshalling error is returned when
    there is one), on the entry itself otherwise.  When the definition has
    no schema validator and its data format is links, the entry is accepted
    exactly when its content unmarshals to a list of links that is not
    empty and whose items all have a [Base] and a [Link] that parse as
    hashes and a [Tag]; in every other case an error is returned. *)
Theorem sysValidateEntry_rules (h : Holochain) (def : EntryDef) (e : GobEntry) (s : string) :
  (forall d, sysValidateEntry E h d None = Returns (Some (ErrNew "nil entry invalid")))
  /\ (forall validate, validator def = Some validate ->
        (DataFormat def = DataFormatJSON E -> C e = ContentString s ->
           sysValidateEntry E h (Some def) (Some e)
           = Returns (match jsonUnmarshal E s with
                      | (_, Some err) => Some err
                      | (input, None) => validate (InputJSON input)
                      end))
        /\ (DataFormat def <> DataFormatJSON E ->
              sysValidateEntry E h (Some def) (Some e) = Returns (validate (InputEntry e))))
  /\ (validator def = None -> DataFormat def = DataFormatLinks E -> C e = ContentString s ->
        exists err, sysValidateEntry E h (Some def) (Some e) = Returns err
          /\ (err = None <->
              exists l, jsonUnmarshalLinkMaps E s = (l, None) /\ l <> []
                        /\ Forall (wellFormedLink E) l)).
Proof.
  split; [reflexivity|]. split.
  - intros validate Hv. split.
    + intros Hfmt Hc. cbn. rewrite Hv, Hfmt, String.eqb_refl.
      unfold contentString. rewrite Hc. cbn.
      destruct (jsonUnmarshal E s) as [input [err|]]; reflexivity.
    + intros Hfmt. apply String.eqb_neq in Hfmt. cbn. rewrite Hv, Hfmt. reflexivity.
  - intros Hv Hfmt Hc. cbn. rewrite Hv, Hfmt, String.eqb_refl.
    unfold contentString. rewrite Hc. cbn.
    destruct (jsonUnmarshalLinkMaps E s) as [l [err|]] eqn:Hjson.
    + eexists. split; [reflexivity|]. split; [discriminate|].
      intros (l' & [=] & _).
    + destruct l as [|link rest].
      * eexists. split; [reflexivity|]. split; [discriminate|].
        intros (l' & [= <-] & Hne & _). contradiction.
      * cbn [length Nat.eqb]. eexists. split; [reflexivity|].
        rewrite checkLinks_ok. split.
        -- intros Hall. exists (link :: rest). repeat split; [discriminate|exact Hall].
        -- intros (l' & [= <-] & _ & Hall). exact Hall.
Qed.

End SysValidateProps.

(** ** Receive handlers *)

Section ReceiveProps.
Context (E : Env).

Lemma RunValidationPhase_answered (source : PeerID) (t : MsgType) (query : Hash)
    (handler : ValidateResponse -> M (option error)) (h : Holochain) (resp : ValidateResponse) :
  SendReply E h ValidateProtocol source t (ValidateQuery query)
    = (Some (RespValidate resp), None) ->
  RunValidationPhase E source t query handler h = handler resp (asked h source t query).
Proof.
  intros Hreply. unfold RunValidationPhase, bind, Send. rewrite Hreply. reflexivity.
Qed.

(** C3, as amended: when a [PUT_REQUEST] for [H] arrives, the source
    answers the validation query with [resp] and the validation of the put
    action with the sender as the only source returns, the handler
    marshals the entry of the answer.  If that succeeds with [b], it calls
    [dht.put] once, on [b], with the status [StatusRejected] when the
    validation failed and [StatusLive] when it succeeded; the store is
    what [dht.put] leaves, and the handler replies [queued] together with
    the error of [dht.put].  If the entry does not marshal, [dht.put] is
    not called: the node is left as it was after the query, with the
    store untouched, and the handler replies [queued] together with the
    error of the marshalling. *)
Theorem put_receive_status (msg : Message) (H : Hash) (h : Holochain)
    (resp : ValidateResponse) (d : option EntryDef) (verr : option error) (b : bytes)
    (merr : option error) :
  let h1 := asked h (From msg) VALIDATE_PUT_REQUEST H in
  MBody msg = PutReq H ->
  SendReply E h ValidateProtocol (From msg) VALIDATE_PUT_REQUEST (ValidateQuery H)
    = (Some (RespValidate resp), None) ->
  ValidateAction E h1
    (VPut (NewPutAction (VType resp) (Some (VEntry resp)) (Some (VHeader resp))))
    (VType resp) (Some (VPackage resp)) [From msg] = Returns (d, verr) ->
  Marshal E (VEntry resp) = (b, merr) ->
  (merr = None ->
     ActionPut_Receive E msg h
     = (Returns (queued,
                 snd (dht_put E (dht h1) msg (VType resp) H (From msg) b
                        (if failed verr then StatusRejected E else StatusLive E))),
        withDHT h1
          (fst (dht_put E (dht h1) msg (VType resp) H (From msg) b
                  (if failed verr then StatusRejected E else StatusLive E)))))
  /\ (forall err, merr = Some err ->
        ActionPut_Receive E msg h = (Returns (queued, Some err), h1)
        /\ dht (snd (ActionPut_Receive E msg h)) = dht h).
Proof.
  intros h1 Hbody Hreply Hval Hmar.
  assert (Hrun : ActionPut_Receive E msg h
                 = if failed merr then (Returns (queued, merr), h1)
                   else (Returns (queued,
                            snd (dht_put E (dht h1) msg (VType resp) H (From msg) b
                                   (if failed verr then StatusRejected E
                                    else StatusLive E))),
                         withDHT h1
                           (fst (dht_put E (dht h1) msg (VType resp) H (From msg) b
                                   (if failed verr then StatusRejected E
                                    else StatusLive E))))).
  { unfold ActionPut_Receive. rewrite Hbody.
    unfold bind at 1. rewrite (RunValidationPhase_answered _ _ _ _ _ _ Hreply).
    fold h1. unfold bind, getNode, lift. cbn [NewPutAction putEntryType] in *.
    rewrite Hval, Hmar. cbn [snd]. destruct merr as [err|]; cbn [failed negb].
    - reflexivity.
    - unfold dhtPut.
      destruct (dht_put E (dht h1) msg (VType resp) H (From msg) b _) as [s err].
      reflexivity. }
  rewrite Hrun. split.
  - intros ->. reflexivity.
  - intros err ->. split; reflexivity.
Qed.

(** C4, as amended: when a [MOD_REQUEST] replacing [H] by [N] arrives, [H]
    exists in the store and the source answers the validation query for
    [N], then: if the validation of the mod action succeeds the handler
    applies [dht.mod] to the store with the old and the new hash, and
    replies [queued] with the error of [dht.mod]; if the validation fails
    nothing is recorded (the store is left as it was) and the handler
    replies [queued] with the validation error. *)
Theorem mod_receive_outcome (msg : Message) (H N : Hash) (h : Holochain)
    (resp : ValidateResponse) (d : option EntryDef) (verr : option error) :
  let h1 := asked h (From msg) VALIDATE_MOD_REQUEST N in
  MBody msg = ModReq H N ->
  dht_exists E (dht h) H (StatusDefault E) = None ->
  SendReply E h ValidateProtocol (From msg) VALIDATE_MOD_REQUEST (ValidateQuery N)
    = (Some (RespValidate resp), None) ->
  ValidateAction E h1
    (VMod (mkActionMod (VType resp) (Some (VEntry resp)) (Some (VHeader resp)) H))
    (VType resp) (Some (VPackage resp)) [From msg] = Returns (d, verr) ->
  (verr = None ->
     ActionMod_Receive E msg h
     = (Returns (queued, snd (dht_mod E (dht h1) msg H N)),
        withDHT h1 (fst (dht_mod E (dht h1) msg H N))))
  /\ (forall err, verr = Some err ->
        ActionMod_Receive E msg h = (Returns (queued, Some err), h1)).
Proof.
  intros h1 Hbody Hex Hreply Hval.
  assert (Hrun : ActionMod_Receive E msg h
                 = if failed verr then (Returns (queued, verr), h1)
                   else (Returns (queued, snd (dht_mod E (dht h1) msg H N)),
                         withDHT h1 (fst (dht_mod E (dht h1) msg H N)))).
  { unfold ActionMod_Receive. rewrite Hbody.
    unfold bind at 1. unfold getNode at 1. rewrite Hex. cbn [failed].
    unfold bind at 1. rewrite (RunValidationPhase_answered _ _ _ _ _ _ Hreply).
    fold h1. unfold bind, getNode, lift.
    cbn [NewModAction modEntryType modEntry replaces] in *.
    rewrite Hval. cbn [snd]. destruct verr as [err|]; cbn [failed]; [reflexivity|].
    unfold dhtMod. destruct (dht_mod E (dht h1) msg H N) as [s err]. reflexivity. }
  rewrite Hrun. split.
  - intros ->. reflexivity.
  - intros err ->. reflexivity.
Qed.

(** What the three handlers do when the store answers [ErrHashNotFound]
    for the record they need: [ActionMod.Receive] and [ActionDel.Receive]
    panic, [ActionLink.Receive] returns the error and leaves the node as
    it was. *)
Lemma missing_precondition (msg : Message) (h : Holochain) :
  (forall H N, MBody msg = ModReq H N ->
     dht_exists E (dht h) H (StatusDefault E) = Some ErrHashNotFound ->
     ActionMod_Receive E msg h = (Panics "RETRY-MOD NOT IMPLEMENTED", h))
  /\ (forall H By, MBody msg = DelReq H By ->
        dht_exists E (dht h) H (StatusDefault E) = Some ErrHashNotFound ->
        ActionDel_Receive E msg h = (Panics "RETRY-DELETE NOT IMPLEMENTED", h))
  /\ (forall base ls, MBody msg = LinkReq base ls ->
        dht_exists E (dht h) base (StatusLive E) = Some ErrHashNotFound ->
        ActionLink_Receive E msg h = (Returns (None, Some ErrHashNotFound), h)).
Proof.
  split; [|split].
  - intros H N Hbody Hex. unfold ActionMod_Receive. rewrite Hbody.
    unfold bind, getNode. rewrite Hex. reflexivity.
  - intros H By Hbody Hex. unfold ActionDel_Receive. rewrite Hbody.
    unfold bind, getNode. rewrite Hex. reflexivity.
  - intros base ls Hbody Hex. unfold ActionLink_Receive. rewrite Hbody.
    unfold bind, getNode. rewrite Hex. reflexivity.
Qed.

End ReceiveProps.

Section GetProps.
Context (E : Env).


End GetProps.

(** ** The origin's answer to a validation query *)

Section ValidationResponseProps.
Context (E : Env).

Lemma findEntry_absent (c : Chain) (hash : Hash) :
  absentFrom c hash -> findEntry c hash = None.
Proof.
  intros Habs. unfold findEntry.
  destruct (List.find _ c) as [l|] eqn:Hfind; [|reflexivity].
  apply List.find_some in Hfind as [Hin Heq].
  apply String.eqb_eq in Heq. exfalso. exact (Habs l Hin Heq).
Qed.

(** C10: for a hash that no entry of the local chain has,
    [GetValidationResponse] succeeds exactly when the text of the hash is
    the node's own identifier.  The response then has the type
    [KeyEntryType] and the zero entry, header and package; for any other
    absent hash the call returns [ErrHashNotFound] as the chain gave
    it. *)
Theorem GetValidationResponse_absent (h : Holochain) (a : ValidatingAction) (hash : Hash) :
  absentFrom (chain h) hash ->
  (hash = nodeIDStr h ->
     GetValidationResponse E h a hash
     = Returns (mkValidateResponse KeyEntryType zeroEntry zeroHeader "", None))
  /\ (hash <> nodeIDStr h ->
        GetValidationResponse E h a hash
        = Returns (mkValidateResponse noEntryType zeroEntry zeroHeader "",
                   Some ErrHashNotFound))
  /\ ((exists resp, GetValidationResponse E h a hash = Returns (resp, None))
      <-> hash = nodeIDStr h).
Proof.
  intros Habs. apply findEntry_absent in Habs.
  assert (Hself : hash = nodeIDStr h ->
     GetValidationResponse E h a hash
     = Returns (mkValidateResponse KeyEntryType zeroEntry zeroHeader "", None)).
  { intros Heq. unfold GetValidationResponse, GetEntry. rewrite Habs.
    cbn [err_is]. rewrite bool_decide_eq_true_2 by reflexivity.
    rewrite Heq, String.eqb_refl. reflexivity. }
  assert (Hother : hash <> nodeIDStr h ->
     GetValidationResponse E h a hash
     = Returns (mkValidateResponse noEntryType zeroEntry zeroHeader "",
                Some ErrHashNotFound)).
  { intros Hne. unfold GetValidationResponse, GetEntry. rewrite Habs.
    cbn [err_is]. rewrite bool_decide_eq_true_2 by reflexivity.
    apply String.eqb_neq in Hne. rewrite Hne. reflexivity. }
  split; [exact Hself|]. split; [exact Hother|]. split.
  - intros [resp Hresp]. destruct (String.eqb_spec hash (nodeIDStr h)) as [Heq|Hne];
      [exact Heq|]. rewrite (Hother Hne) in Hresp. discriminate.
  - intros Heq. eexists. apply Hself, Heq.
Qed.

End ValidationResponseProps.

(** ** The bootstrap client *)

Lemma withAdded_withAdded (h : Holochain) (p1 p2 : list PeerInfo) :
  withAdded (withAdded h p1) p2 = withAdded h p2.
Proof. reflexivity. Qed.

Lemma withAdded_same (h : Holochain) : withAdded h (added h) = h.
Proof. destruct h; reflexivity. Qed.

Lemma nth_last (l : list string) : nth (length l - 1) l "" = List.last l "".
Proof.
  induction l as [|x l IH]; [reflexivity|].
  destruct l as [|y l]; [reflexivity|].
  change (List.last (x :: y :: l) "") with (List.last (y :: l) ""). rewrite <- IH.
  cbn [length]. rewrite !Nat.sub_succ, !Nat.sub_0_r. reflexivity.
Qed.

Section BootstrapProps.
Context (E : Env).
Context (AddPeer : nat -> PeerInfo -> option error).

Lemma checkBSLoop_adds (sched : Schedule) (my : string) (nodes : list BSResp) :
  quiet sched ->
  forall (i : nat) (running : list (nat * PeerInfo)) (err : option error) (h : Holochain),
  exists err',
    checkBSLoop E AddPeer sched my nodes i running err h
    = (Returns err', withAdded h (added h ++ flat_map (discovered E my) nodes)).
Proof.
  intros Hquiet. induction nodes as [|r rest IH]; intros i running err h.
  - eexists. cbn. rewrite app_nil_r, withAdded_same. reflexivity.
  - cbn [checkBSLoop flat_map]. unfold discovered at 1.
    destruct (Hquiet i) as [-> ->].
    destruct (IDB58Decode E (NodeID (Req r))) as [id [e1|]]; cbn [finish failed negb].
    + destruct (IH (S i) running (Some e1) h) as [err' Hrun]. exists err'.
      rewrite Hrun. reflexivity.
    + destruct (NewMultiaddr E (peerAddrText r)) as [addr [e2|]]; cbn [finish failed negb].
      * destruct (IH (S i) running (Some e2) h) as [err' Hrun]. exists err'.
        rewrite Hrun. reflexivity.
      * destruct (String.eqb (NodeID (Req r)) my); cbn [negb].
        -- destruct (IH (S i) running None h) as [err' Hrun]. exists err'.
           rewrite Hrun. reflexivity.
        -- unfold bind, goAddPeer.
           destruct (IH (S i) (running ++ [(i, mkPeerInfo id [addr])]) None
                       (withAdded h (added h ++ [mkPeerInfo id [addr]])))
             as [err' Hrun].
           exists err'. rewrite Hrun. cbn [added withAdded].
           rewrite withAdded_withAdded, <- app_assoc. reflexivity.
Qed.

Lemma checkBSLoop_never_self (sched : Schedule) (my : string) (nodes : list BSResp) :
  forall (i : nat) (running : list (nat * PeerInfo)) (err : option error) (h : Holochain),
  exists err' rs,
    sublist rs nodes
    /\ Forall (fun r => NodeID (Req r) <> my) rs
    /\ checkBSLoop E AddPeer sched my nodes i running err h
       = (Returns err', withAdded h (added h ++ List.map (offered E) rs)).
Proof.
  induction nodes as [|r rest IH]; intros i running err h.
  - exists (snd (finish AddPeer (beforeReturn sched) running err)), [].
    split; [constructor|]. split; [constructor|].
    cbn. rewrite app_nil_r, withAdded_same. reflexivity.
  - cbn [checkBSLoop].
    destruct (IDB58Decode E (NodeID (Req r))) as [id e1] eqn:Hid.
    destruct (finish AddPeer (afterDecode sched i) running e1) as [running1 err1].
    assert (Hskip : forall running2 err2,
              exists err' rs,
                sublist rs (r :: rest)
                /\ Forall (fun r => NodeID (Req r) <> my) rs
                /\ checkBSLoop E AddPeer sched my rest (S i) running2 err2 h
                   = (Returns err', withAdded h (added h ++ List.map (offered E) rs))).
    { intros running2 err2. destruct (IH (S i) running2 err2 h) as (err' & rs & Hsub & Hne & Hrun).
      exists err', rs. split; [apply sublist_cons; exact Hsub|]. split; [exact Hne|exact Hrun]. }
    destruct (negb (failed err1)); [|apply Hskip].
    destruct (NewMultiaddr E (peerAddrText r)) as [addr e2] eqn:Haddr.
    destruct (finish AddPeer (afterParse sched i) running1 e2) as [running2 err2].
    destruct (negb (failed err2)); [|apply Hskip].
    destruct (String.eqb_spec (NodeID (Req r)) my) as [Hself|Hother]; cbn [negb];
      [apply Hskip|].
    unfold bind, goAddPeer.
    destruct (IH (S i) (running2 ++ [(i, mkPeerInfo id [addr])]) err2
                (withAdded h (added h ++ [mkPeerInfo id [addr]])))
      as (err' & rs & Hsub & Hne & Hrun).
    exists err', (r :: rs). split; [apply sublist_skip; exact Hsub|].
    split; [constructor; assumption|].
    rewrite Hrun. cbn [added withAdded List.map].
    replace (offered E r) with (mkPeerInfo id [addr])
      by (unfold offered; rewrite Hid, Haddr; reflexivity).
    rewrite withAdded_withAdded, <- app_assoc. reflexivity.
Qed.

(** C8, as amended: the address synthesized for a bootstrap response is
    [/ip4/host/tcp/port] with the host and the port of [ReturnAddr] when
    [ReturnAddr] splits at its colons into exactly two parts of which the
    first, the host, is not empty; in every other case the host is the
    part of [Remote] before its first colon and the port is the last
    [/]-separated segment of [NodeAddr].  The response of the
    specification's scenario gives [/ip4/5.6.7.8/tcp/4001].
    In every run in which no call of [h.AddPeer] assigns its result to
    [err] between an assignment of the loop and the test that follows,
    [checkBSResponses] hands to [AddPeer], in order, exactly the peers whose
    node identifier decodes, whose synthesized address parses as a
    multi-address and whose node identifier is not the node's own.  In
    every run whatsoever the peers handed over come, in order, from
    responses whose node identifier is not the node's own: the node itself
    is never handed over. *)
Theorem checkBSResponses_peers (sched : Schedule) (nodes : list BSResp) (h : Holochain)
    (r : BSResp) :
  (forall host port,
     Split (ReturnAddr (Req r)) colon = [host; port] -> host <> "" ->
     peerAddrText r = "/ip4/" +:+ host +:+ "/tcp/" +:+ port)
  /\ ((ReturnAddr (Req r) = ""
       \/ length (Split (ReturnAddr (Req r)) colon) <> 2%nat
       \/ nth 0 (Split (ReturnAddr (Req r)) colon) "" = "") ->
      peerAddrText r
      = "/ip4/" +:+ nth 0 (Split (Remote r) colon) ""
        +:+ "/tcp/" +:+ List.last (Split (NodeAddr (Req r)) slash) "")
  /\ peerAddrText bootstrapExample = "/ip4/5.6.7.8/tcp/4001"
  /\ (quiet sched ->
      exists err,
        checkBSResponses E AddPeer sched nodes h
        = (Returns err,
           withAdded h (added h ++ flat_map (discovered E (nodeIDStr h)) nodes)))
  /\ (exists err rs,
        sublist rs nodes
        /\ Forall (fun r => NodeID (Req r) <> nodeIDStr h) rs
        /\ checkBSResponses E AddPeer sched nodes h
           = (Returns err, withAdded h (added h ++ List.map (offered E) rs)))
  /\ (NodeID (Req r) = nodeIDStr h -> discovered E (nodeIDStr h) r = [])
  /\ (forall id addr,
        NodeID (Req r) <> nodeIDStr h ->
        IDB58Decode E (NodeID (Req r)) = (id, None) ->
        NewMultiaddr E (peerAddrText r) = (addr, None) ->
        discovered E (nodeIDStr h) r = [mkPeerInfo id [addr]]).
Proof.
  split; [|split; [|split; [|split; [|split; [|split]]]]].
  - intros host port Hsplit Hhost. unfold peerAddrText, peerHostPort.
    destruct (String.eqb (ReturnAddr (Req r)) "") eqn:Hret.
    + apply String.eqb_eq in Hret. rewrite Hret in Hsplit. discriminate.
    + cbn [negb]. rewrite Hsplit. cbn [length Nat.eqb nth].
      apply String.eqb_neq in Hhost. rewrite Hhost. reflexivity.
  - intros Hcase. unfold peerAddrText, peerHostPort. rewrite nth_last.
    destruct (String.eqb (ReturnAddr (Req r)) "") eqn:Hret; cbn [negb].
    + reflexivity.
    + destruct (length (Split (ReturnAddr (Req r)) colon) =? 2)%nat eqn:Hlen.
      * destruct Hcase as [Hc|[Hc|Hc]].
        -- apply String.eqb_neq in Hret. contradiction.
        -- apply Nat.eqb_eq in Hlen. contradiction.
        -- rewrite Hc. reflexivity.
      * reflexivity.
  - reflexivity.
  - intros Hquiet. unfold checkBSResponses, bind, getNode.
    apply checkBSLoop_adds. exact Hquiet.
  - unfold checkBSResponses, bind, getNode. apply checkBSLoop_never_self.
  - intros Hself. unfold discovered.
    destruct (IDB58Decode E (NodeID (Req r))) as [id [e1|]]; [reflexivity|].
    destruct (NewMultiaddr E (peerAddrText r)) as [addr [e2|]]; [reflexivity|].
    rewrite Hself, String.eqb_refl. reflexivity.
  - intros id addr Hne Hid Haddr. unfold discovered. rewrite Hid, Haddr.
    apply String.eqb_neq in Hne. rewrite Hne. reflexivity.
Qed.

End BootstrapProps.

(** ** Runs of the example application *)

Import Example.

(** The application rejects [badger]: the commit fails with
    [Invalid entry: badger] and the node is as it was. *)
Lemma doCommit_validation_failure_witness :
  snd (doCommit env (CCommit (post "badger")) None node) = node
  /\ fst (doCommit env (CCommit (post "badger")) None node)
     = Returns (Some postDef, Some (postHeader "badger"), "",
                Some (ErrNew "Invalid entry: badger")).
Proof.
  destruct (doCommit_validation_failure env (CCommit (post "badger")) None node
              (Some (mkGobEntry (ContentString "badger"))) 0 "QmHdrbadger"
              (Some (postHeader "badger")) (Some postDef) ValidationFailedErr
              eq_refl eq_refl eq_refl) as (Hnode & Hmsg & _).
  split; [exact Hnode | exact (Hmsg _ eq_refl eq_refl)].
Defined.

(** Committing the public post [hello] sends one [PUT_REQUEST]; committing
    the links entry [rating], whose three links have two bases, sends one
    [LINK_REQUEST] for each of the two. *)
Lemma commit_publishes_witness :
  ActionCommit_Do env (post "hello") node
  = (Returns (Some (RespHash "Qmhello"), None),
     withSent (withChain node (chainWith "hello")) [putRequest "Qmhello"])
  /\ exists bases,
       NoDup bases
       /\ (forall b, b ∈ bases <-> b ∈ ["QmBase1"; "QmBase2"; "QmBase1"])
       /\ sent (snd (ActionCommit_Do env rating node))
          = List.map (linkRequest env ratingHash) bases.
Proof.
  split.
  - destruct (commit_publishes env (post "hello") node (withChain node (chainWith "hello"))
                postDef (Some (postHeader "hello")) "Qmhello" eq_refl) as (_ & Hput & _).
    exact (Hput ltac:(discriminate) eq_refl).
  - destruct (commit_publishes env rating node nodeWithRating ratingDef (Some ratingHeader)
                ratingHash eq_refl) as (Hlinks & _ & _).
    destruct (Hlinks eq_refl (Some (RespHash ratingHash))
                (snd (ActionCommit_Do env rating node)) eq_refl)
      as (_ & e & s & le & bases & He & Hc & Hj & Hnd & Hin & Hsent).
    exists bases. split; [exact Hnd|]. split.
    + intros b. rewrite Hin. injection He as <-. injection Hc as <-. injection Hj as <-.
      reflexivity.
    + rewrite Hsent. reflexivity.
Defined.

(** A put of [badger] is stored as rejected, a put of [hello] as live; a
    put of [Qmpicture], whose entry does not marshal, is not stored. *)
Lemma put_receive_status_witness :
  fst (ActionPut_Receive env (fromAlice PUT_REQUEST (PutReq "Qmbadger")) node)
  = Returns (queued, None)
  /\ records (dht (snd (ActionPut_Receive env (fromAlice PUT_REQUEST (PutReq "Qmbadger")) node)))
     !! "Qmbadger"
     = Some (mkDHTRecord (AppEntryType "post") "badger" ["QmAlice"] (StatusRejected env) None)
  /\ records (dht (snd (ActionPut_Receive env (fromAlice PUT_REQUEST (PutReq "Qmhello")) node)))
     !! "Qmhello"
     = Some (mkDHTRecord (AppEntryType "post") "hello" ["QmAlice"] (StatusLive env) None)
  /\ ActionPut_Receive env (fromAlice PUT_REQUEST (PutReq "Qmpicture")) node
     = (Returns (queued, Some (ErrNew "gob: type not registered for interface")),
        asked node "QmAlice" VALIDATE_PUT_REQUEST "Qmpicture").
Proof.
  destruct (put_receive_status env (fromAlice PUT_REQUEST (PutReq "Qmbadger")) "Qmbadger" node
              (postAnswer "badger") (Some postDef) (Some ValidationFailedErr) "badger" None
              eq_refl eq_refl eq_refl eq_refl) as [Hbadger _].
  destruct (put_receive_status env (fromAlice PUT_REQUEST (PutReq "Qmhello")) "Qmhello" node
              (postAnswer "hello") (Some postDef) None "hello" None
              eq_refl eq_refl eq_refl eq_refl) as [Hhello _].
  destruct (put_receive_status env (fromAlice PUT_REQUEST (PutReq "Qmpicture")) "Qmpicture" node
              pictureAnswer (Some postDef) None ""
              (Some (ErrNew "gob: type not registered for interface"))
              eq_refl eq_refl eq_refl eq_refl) as [_ Hpicture].
  rewrite (Hbadger eq_refl), (Hhello eq_refl).
  split; [reflexivity|]. split; [reflexivity|]. split; [reflexivity|].
  exact (proj1 (Hpicture _ eq_refl)).
Defined.

(** The source answers the validation query for [Qmpicture] and the
    validation succeeds, but the entry does not marshal: [dht.put] is not
    called and the store holds no record for the hash. *)
Lemma put_receive_unmarshalled_not_stored :
  SendReply env node ValidateProtocol "QmAlice" VALIDATE_PUT_REQUEST (ValidateQuery "Qmpicture")
  = (Some (RespValidate pictureAnswer), None)
  /\ ValidateAction env (asked node "QmAlice" VALIDATE_PUT_REQUEST "Qmpicture")
       (VPut (NewPutAction (VType pictureAnswer) (Some (VEntry pictureAnswer))
                (Some (VHeader pictureAnswer))))
       (VType pictureAnswer) (Some (VPackage pictureAnswer)) ["QmAlice"]
     = Returns (Some postDef, None)
  /\ dht (snd (ActionPut_Receive env (fromAlice PUT_REQUEST (PutReq "Qmpicture")) node))
     = dht node
  /\ records (dht (snd (ActionPut_Receive env (fromAlice PUT_REQUEST (PutReq "Qmpicture")) node)))
     !! "Qmpicture" = None.
Proof. repeat split. Qed.

(** Replacing [Qmhello] by [Qmhowdy] marks the record as modified and
    makes it follow [Qmhowdy]; the replacement by [Qmbadger], which the
    application rejects, changes nothing. *)
Lemma mod_receive_outcome_witness :
  fst (ActionMod_Receive env (fromAlice MOD_REQUEST (ModReq "Qmhello" "Qmhowdy")) nodeWithHello)
  = Returns (queued, None)
  /\ records (dht (snd (ActionMod_Receive env
                         (fromAlice MOD_REQUEST (ModReq "Qmhello" "Qmhowdy")) nodeWithHello)))
     !! "Qmhello"
     = Some (mkDHTRecord (AppEntryType "post") "hello" ["QmBob"] StatusModified (Some "Qmhowdy"))
  /\ ActionMod_Receive env (fromAlice MOD_REQUEST (ModReq "Qmhello" "Qmbadger")) nodeWithHello
     = (Returns (queued, Some ValidationFailedErr),
        asked nodeWithHello "QmAlice" VALIDATE_MOD_REQUEST "Qmbadger").
Proof.
  destruct (mod_receive_outcome env (fromAlice MOD_REQUEST (ModReq "Qmhello" "Qmhowdy"))
              "Qmhello" "Qmhowdy" nodeWithHello (postAnswer "howdy") (Some postDef) None
              eq_refl eq_refl eq_refl eq_refl) as [Hok _].
  destruct (mod_receive_outcome env (fromAlice MOD_REQUEST (ModReq "Qmhello" "Qmbadger"))
              "Qmhello" "Qmbadger" nodeWithHello (postAnswer "badger") (Some postDef)
              (Some ValidationFailedErr) eq_refl eq_refl eq_refl eq_refl) as [_ Hbad].
  rewrite (Hok eq_refl). split; [reflexivity|]. split; [reflexivity|].
  exact (Hbad _ eq_refl).
Defined.

(** The record [Qmhello] exists, the source answers, the validation of the
    replacement by [Qmbadger] fails: afterwards the store is what it was,
    with the record of [Qmhello] live and no record for [Qmbadger]. *)
Lemma mod_receive_rejection_not_recorded :
  dht_exists env (dht nodeWithHello) "Qmhello" (StatusDefault env) = None
  /\ SendReply env nodeWithHello ValidateProtocol "QmAlice" VALIDATE_MOD_REQUEST
       (ValidateQuery "Qmbadger")
     = (Some (RespValidate (postAnswer "badger")), None)
  /\ ValidateAction env (asked nodeWithHello "QmAlice" VALIDATE_MOD_REQUEST "Qmbadger")
       (VMod (mkActionMod (AppEntryType "post") (Some (mkGobEntry (ContentString "badger")))
                (Some zeroHeader) "Qmhello"))
       (AppEntryType "post") (Some "") ["QmAlice"]
     = Returns (Some postDef, Some ValidationFailedErr)
  /\ dht (snd (ActionMod_Receive env (fromAlice MOD_REQUEST (ModReq "Qmhello" "Qmbadger"))
                 nodeWithHello))
     = mkStore {["Qmhello" := helloRecord]} ∅
  /\ RecStatus helloRecord = StatusLive env.
Proof. repeat split. Qed.

(** The links entry [rating] is checked link by link; an entry of the type
    [tagged] is left to its schema validator. *)
Lemma sysValidateEntry_rules_witness :
  (exists err,
     sysValidateEntry env node (Some ratingDef) (commitEntry rating) = Returns err
     /\ (err = None <->
         exists l, jsonUnmarshalLinkMaps env ratingJSON = (l, None) /\ l <> []
                   /\ Forall (wellFormedLink env) l))
  /\ sysValidateEntry env node (Some taggedDef) (Some (mkGobEntry (ContentString "hello")))
     = Returns None.
Proof.
  destruct (sysValidateEntry_rules env node ratingDef (mkGobEntry (ContentString ratingJSON))
              ratingJSON) as (_ & _ & Hlinks).
  destruct (sysValidateEntry_rules env node taggedDef (mkGobEntry (ContentString "hello"))
              "hello") as (_ & Hvalidator & _).
  split.
  - exact (Hlinks eq_refl eq_refl eq_refl).
  - destruct (Hvalidator (fun _ => None) eq_refl) as [_ Hother].
    exact (Hother ltac:(discriminate)).
Defined.

(** C5: a links entry whose definition comes with a schema validator
    escapes the check of its links.  The type [tagged] has the links
    format and a validator, the type [rating] the links format and none.
    The content [not json] does not parse as a list of links:
    [sysValidateEntry] rejects it for [rating] and accepts it for
    [tagged], because the check of the links is the [else if] of the test
    for a validator, while the function is documented to check "if it's a
    Links entry that the contents are correctly structured". *)
Theorem links_check_skipped_with_validator :
  validator taggedDef <> None
  /\ DataFormat taggedDef = DataFormatLinks env
  /\ jsonUnmarshalLinkMaps env "not json" = ([], Some syntaxError)
  /\ sysValidateEntry env node (Some taggedDef) (Some (mkGobEntry (ContentString "not json")))
     = Returns None
  /\ validator ratingDef = None
  /\ DataFormat ratingDef = DataFormatLinks env
  /\ sysValidateEntry env node (Some ratingDef) (Some (mkGobEntry (ContentString "not json")))
     = Returns (Some (ErrFmt "invalid links entry, invalid json: " syntaxError)).
Proof.
  split; [discriminate|]. split; [reflexivity|]. split; [reflexivity|].
  split; [reflexivity|]. split; [reflexivity|]. split; reflexivity.
Qed.


(** The scenario of the specification: the peer is handed over at
    [/ip4/5.6.7.8/tcp/4001], the node itself is not. *)
Lemma checkBSResponses_peers_witness :
  peerAddrText bootstrapExample = "/ip4/5.6.7.8/tcp/4001"
  /\ peerAddrText portOnly = "/ip4/9.9.9.9/tcp/7777"
  /\ added (snd (checkBSResponses env peerRejected noWrites bootstrapNodes node))
     = [mkPeerInfo "QmCarol" ["/ip4/5.6.7.8/tcp/4001"]].
Proof.
  destruct (checkBSResponses_peers env peerRejected noWrites bootstrapNodes node
              bootstrapExample) as (Hret & _ & _ & Hquiet & _).
  destruct (checkBSResponses_peers env peerRejected noWrites bootstrapNodes node portOnly)
    as (_ & Hremote & _).
  destruct (Hquiet (fun i => conj eq_refl eq_refl)) as [err Hrun].
  split; [exact (Hret "5.6.7.8" "4001" eq_refl ltac:(discriminate))|].
  split; [exact (Hremote (or_intror (or_intror eq_refl)))|].
  rewrite Hrun. reflexivity.
Defined.

(** The return address [:4001] is not empty and splits into exactly two
    parts, yet the address is made of the host of [Remote] and the port of
    [NodeAddr].  And the peer [QmDave], whose node identifier decodes and
    is not the node's own, is not handed to [AddPeer]: the address made of
    its [Remote] does not parse. *)
Lemma return_addr_without_host :
  ReturnAddr (Req portOnly) <> ""
  /\ Split (ReturnAddr (Req portOnly)) colon = [""; "4001"]
  /\ peerAddrText portOnly = "/ip4/9.9.9.9/tcp/7777"
  /\ peerAddrText portOnly <> "/ip4/" +:+ "" +:+ "/tcp/" +:+ "4001"
  /\ IDB58Decode env (NodeID (Req ipv6Peer)) = ("QmDave", None)
  /\ NodeID (Req ipv6Peer) <> nodeIDStr node
  /\ peerAddrText ipv6Peer = "/ip4/[/tcp/4001"
  /\ checkBSResponses env peerAccepted noWrites [ipv6Peer] node
     = (Returns (Some (ErrNew "invalid multiaddr")), node).
Proof. repeat split; discriminate. Qed.

(** C9: a [MOD_REQUEST] and a [DEL_REQUEST] whose target the store does
    not hold make the handler panic, but a [LINK_REQUEST] whose base the
    store does not hold does not: [ActionLink.Receive] returns
    [ErrHashNotFound] with no response and leaves the node as it was. *)
Theorem link_receive_missing_base_ignored :
  dht_exists env (dht node) "QmBase1" (StatusLive env) = Some ErrHashNotFound
  /\ ActionLink_Receive env linkToUnknownBase node
     = (Returns (None, Some ErrHashNotFound), node)
  /\ ActionMod_Receive env (fromAlice MOD_REQUEST (ModReq "QmBase1" "Qmhowdy")) node
     = (Panics "RETRY-MOD NOT IMPLEMENTED", node)
  /\ ActionDel_Receive env (fromAlice DEL_REQUEST (DelReq "QmBase1" "Qmhowdy")) node
     = (Panics "RETRY-DELETE NOT IMPLEMENTED", node).
Proof.
  split; [reflexivity|].
  destruct (missing_precondition env linkToUnknownBase node) as (_ & _ & Hlink).
  destruct (missing_precondition env (fromAlice MOD_REQUEST (ModReq "QmBase1" "Qmhowdy")) node)
    as (Hmod & _ & _).
  destruct (missing_precondition env (fromAlice DEL_REQUEST (DelReq "QmBase1" "Qmhowdy")) node)
    as (_ & Hdel & _).
  split; [exact (Hlink _ _ eq_refl eq_refl)|].
  split; [exact (Hmod _ _ eq_refl eq_refl) | exact (Hdel _ _ eq_refl eq_refl)].
Qed.

(** The node answers for its own identifier with a key response, and with
    [ErrHashNotFound] for a hash it never committed. *)
Lemma GetValidationResponse_absent_witness :
  GetValidationResponse env nodeWithHello (VPut (NewPutAction KeyEntryType None None)) "QmBob"
  = Returns (mkValidateResponse KeyEntryType zeroEntry zeroHeader "", None)
  /\ GetValidationResponse env nodeWithHello (VPut (NewPutAction KeyEntryType None None))
       "Qmhowdy"
     = Returns (mkValidateResponse noEntryType zeroEntry zeroHeader "", Some ErrHashNotFound).
Proof.
  assert (Habs : forall hash, hash <> "Qmhello" -> absentFrom (chain nodeWithHello) hash).
  { intros hash Hne l [<- | []] Heq. apply Hne. rewrite <- Heq. reflexivity. }
  destruct (GetValidationResponse_absent env nodeWithHello
              (VPut (NewPutAction KeyEntryType None None)) "QmBob"
              (Habs "QmBob" ltac:(discriminate))) as (Hself & _).
  destruct (GetValidationResponse_absent env nodeWithHello
              (VPut (NewPutAction KeyEntryType None None)) "Qmhowdy"
              (Habs "Qmhowdy" ltac:(discriminate))) as (_ & Hother & _).
  split; [exact (Hself eq_refl) | exact (Hother ltac:(discriminate))].
Defined.

(** * Further properties *)

(** ** Commit, mod and del on the initiating side *)

Lemma withChain_same (h : Holochain) : withChain h (chain h) = h.
Proof. destruct h; reflexivity. Qed.

Section CommitMore.
Context (E : Env).

Lemma addEntry_cases (c : Chain) (idx : Z) (hash : Hash) (hd : Header) (entry : Entry) :
  (exists err, addEntry E c idx hash hd entry = (c, Some err))
  \/ (addEntry E c idx hash hd entry = (c ++ [mkChainLink hash hd entry], None)
      /\ idx = Z.of_nat (length c) /\ headerSum E hd = hash
      /\ forall l, In l c -> LinkHeaderHash l <> hash).
Proof.
  unfold addEntry.
  destruct (idx =? Z.of_nat (length c)) eqn:Hidx; cbn [negb]; [|left; eauto].
  destruct (String.eqb (headerSum E hd) hash) eqn:Hsum; cbn [negb]; [|left; eauto].
  destruct (existsb _ c) eqn:Hdup; [left; eauto|].
  right. split; [reflexivity|]. apply Z.eqb_eq in Hidx. apply String.eqb_eq in Hsum.
  split; [exact Hidx|]. split; [exact Hsum|].
  intros l Hin Heq.
  assert (existsb (fun l0 => String.eqb (LinkHeaderHash l0) hash) c = true).
  { apply existsb_exists. exists l. split; [exact Hin|]. apply String.eqb_eq, Heq. }
  congruence.
Qed.

Lemma doCommit_returns (a : CommittingAction) (change : option StatusChange)
    (h h' : Holochain) (d : option EntryDef) (header : option Header) (entryHash : Hash) :
  doCommit E a change h = (Returns (d, header, entryHash, None), h') ->
  exists entry hash hd,
    actionEntry E a = Returns entry /\ header = Some hd /\ entryHash = EntryLink hd
    /\ h' = withChain h (chain h ++ [mkChainLink hash hd entry]).
Proof.
  unfold doCommit, bind, lift, getNode, ret, putNode.
  destruct (actionEntry E a) as [entry|msg]; [|discriminate].
  destruct (PrepareHeader E (chain h) (now E) (actionEntryType a) entry (agentKey h) change)
    as [[[l hash] hdr] [perr|]]; cbn [failed]; [discriminate|].
  destruct (ValidateAction E h (asValidating a) (actionEntryType a) None [nodeID h])
    as [[d0 [verr|]]|msg]; cbn [failed]; try discriminate.
  - destruct (err_is (Some verr) ValidationFailedErr); [|discriminate].
    destruct entry; cbn; discriminate.
  - destruct hdr as [hd|]; cbn [deref]; [|discriminate].
    destruct (addEntry_cases (chain h) l hash hd entry) as [[err Hadd]|(Hadd & _)];
      rewrite Hadd; cbn [failed]; [discriminate|].
    intros [= <- <- <- <-]. exists entry, hash, hd. repeat split.
Qed.

Lemma doCommit_failure_keeps (a : CommittingAction) (change : option StatusChange)
    (h : Holochain) :
  (forall d header entryHash err,
     fst (doCommit E a change h) = Returns (d, header, entryHash, Some err) ->
     snd (doCommit E a change h) = h)
  /\ (forall msg, fst (doCommit E a change h) = Panics msg ->
        snd (doCommit E a change h) = h).
Proof.
  unfold doCommit, bind, lift, getNode, ret, putNode.
  destruct (actionEntry E a) as [entry|msg]; [|split; intros; reflexivity].
  destruct (PrepareHeader E (chain h) (now E) (actionEntryType a) entry (agentKey h) change)
    as [[[l hash] hdr] [perr|]]; cbn [failed]; [split; intros; reflexivity|].
  destruct (ValidateAction E h (asValidating a) (actionEntryType a) None [nodeID h])
    as [[d0 [verr|]]|msg]; cbn [failed]; [| |split; intros; reflexivity].
  - destruct (err_is (Some verr) ValidationFailedErr); [|split; intros; reflexivity].
    destruct entry; cbn; split; intros; reflexivity.
  - destruct hdr as [hd|]; cbn [deref]; [|split; intros; reflexivity].
    destruct (addEntry_cases (chain h) l hash hd entry) as [[err Hadd]|(Hadd & _)];
      rewrite Hadd; cbn [failed fst snd].
    + split; intros; apply withChain_same.
    + split; intros; discriminate.
Qed.

(** X1: when [doCommit] returns without an error, the entry of the action
    was there, [PrepareHeader] gave a header, the validation of the action
    with the node itself as its only source passed, the header is the one
    returned and its [EntryLink] the hash returned, no link of the chain
    had the hash of the header, and the node differs from the one before
    in exactly one link appended to the chain. *)
Theorem doCommit_success (a : CommittingAction) (change : option StatusChange)
    (h h' : Holochain) (d : option EntryDef) (header : option Header) (entryHash : Hash) :
  doCommit E a change h = (Returns (d, header, entryHash, None), h') ->
  exists entry l hash hd,
    actionEntry E a = Returns entry
    /\ PrepareHeader E (chain h) (now E) (actionEntryType a) entry (agentKey h) change
       = (l, hash, Some hd, None)
    /\ ValidateAction E h (asValidating a) (actionEntryType a) None [nodeID h]
       = Returns (d, None)
    /\ header = Some hd /\ entryHash = EntryLink hd
    /\ (forall link, In link (chain h) -> LinkHeaderHash link <> hash)
    /\ h' = withChain h (chain h ++ [mkChainLink hash hd entry]).
Proof.
  unfold doCommit, bind, lift, getNode, ret, putNode.
  destruct (actionEntry E a) as [entry|msg] eqn:Hentry; [|discriminate].
  destruct (PrepareHeader E (chain h) (now E) (actionEntryType a) entry (agentKey h) change)
    as [[[l hash] hdr] [perr|]] eqn:Hprep; cbn [failed]; [discriminate|].
  destruct (ValidateAction E h (asValidating a) (actionEntryType a) None [nodeID h])
    as [[d0 [verr|]]|msg] eqn:Hval; cbn [failed]; try discriminate.
  - destruct (err_is (Some verr) ValidationFailedErr); [|discriminate].
    destruct entry; cbn; discriminate.
  - destruct hdr as [hd|]; cbn [deref]; [|discriminate].
    destruct (addEntry_cases (chain h) l hash hd entry) as [[err Hadd]|(Hadd & _ & _ & Hnew)];
      rewrite Hadd; cbn [failed]; [discriminate|].
    intros [= <- <- <- <-].
    exists entry, l, hash, hd.
    split; [reflexivity|]. split; [exact Hprep|]. split; [reflexivity|].
    split; [reflexivity|]. split; [reflexivity|]. split; [exact Hnew|reflexivity].
Qed.

(** X2: a [doCommit] that returns an error or panics leaves the node as it
    was, and [ActionCommit.Do], [ActionMod.Do] and [ActionDel.Do] then
    return that error with a nil response: nothing is appended to the
    chain and nothing is sent. *)
Theorem failed_commit_changes_nothing (h : Holochain) :
  (forall a change d header entryHash err,
     fst (doCommit E a change h) = Returns (d, header, entryHash, Some err) ->
     snd (doCommit E a change h) = h)
  /\ (forall a change msg,
        fst (doCommit E a change h) = Panics msg -> snd (doCommit E a change h) = h)
  /\ (forall a d header entryHash err,
        fst (doCommit E (CCommit a) None h) = Returns (d, header, entryHash, Some err) ->
        ActionCommit_Do E a h = (Returns (None, Some err), h))
  /\ (forall a d header entryHash err,
        fst (doCommit E (CMod a) (Some (mkStatusChange (ModAction E) (replaces a))) h)
        = Returns (d, header, entryHash, Some err) ->
        ActionMod_Do E a h = (Returns (None, Some err), h))
  /\ (forall a d header entryHash err,
        fst (doCommit E (CDel a)
               (Some (mkStatusChange (DelAction E) (DelHash (delEntry a)))) h)
        = Returns (d, header, entryHash, Some err) ->
        ActionDel_Do E a h = (Returns (None, Some err), h)).
Proof.
  split; [|split; [|split; [|split]]].
  - intros a change. apply (doCommit_failure_keeps a change h).
  - intros a change. apply (doCommit_failure_keeps a change h).
  - intros a d header entryHash err Hrun.
    pose proof (proj1 (doCommit_failure_keeps (CCommit a) None h) _ _ _ _ Hrun) as Hnode.
    unfold ActionCommit_Do, bind.
    destruct (doCommit E (CCommit a) None h) as [r h1]. cbn [fst snd] in *.
    subst r h1. reflexivity.
  - intros a d header entryHash err Hrun.
    pose proof (proj1 (doCommit_failure_keeps (CMod a) _ h) _ _ _ _ Hrun) as Hnode.
    unfold ActionMod_Do, bind.
    destruct (doCommit E (CMod a) _ h) as [r h1]. cbn [fst snd] in *.
    subst r h1. reflexivity.
  - intros a d header entryHash err Hrun.
    pose proof (proj1 (doCommit_failure_keeps (CDel a) _ h) _ _ _ _ Hrun) as Hnode.
    unfold ActionDel_Do, bind.
    destruct (doCommit E (CDel a) _ h) as [r h1]. cbn [fst snd] in *.
    subst r h1. reflexivity.
Qed.

(** X3: [ValidateAction] returns a nil entry definition for the entry
    types of the system, and [ActionCommit.Do] reads [d.DataFormat]
    without a check: committing an entry of the type DNA, key or agent
    panics with a nil dereference, after the entry has been appended to
    the chain. *)
Theorem commit_system_type_panics (a : ActionCommit) (h : Holochain)
    (l : Z) (hash : Hash) (hd : Header) :
  isSystemType (commitEntryType a) = true ->
  PrepareHeader E (chain h) (now E) (commitEntryType a) (commitEntry a) (agentKey h) None
    = (l, hash, Some hd, None) ->
  addEntry E (chain h) l hash hd (commitEntry a)
    = (chain h ++ [mkChainLink hash hd (commitEntry a)], None) ->
  ActionCommit_Do E a h
  = (Panics nilDeref, withChain h (chain h ++ [mkChainLink hash hd (commitEntry a)])).
Proof.
  intros Hsys Hprep Hadd.
  unfold ActionCommit_Do, doCommit, bind, lift, getNode, ret, putNode.
  cbn [actionEntry actionEntryType asValidating]. rewrite Hprep. cbn [failed].
  destruct (commitEntryType a); try discriminate; cbn [ValidateAction failed deref];
    rewrite Hadd; reflexivity.
Qed.

(** X4: after a successful [doCommit], [ActionMod.Do] of a public entry
    sends a [PUT_REQUEST] for the new entry, whose error it drops, and
    then a [MOD_REQUEST] to the hash replaced, whose error it returns; for
    an entry that is not public it sends nothing.  The response is the
    hash of the new entry. *)
Theorem mod_publishes (a : ActionMod) (h h1 : Holochain) (d : EntryDef)
    (header : option Header) (entryHash : Hash) :
  doCommit E (CMod a) (Some (mkStatusChange (ModAction E) (replaces a))) h
    = (Returns (Some d, header, entryHash, None), h1) ->
  (Sharing d = Public E ->
     ActionMod_Do E a h
     = (Returns (Some (RespHash entryHash),
                 snd (dhtSendReply E (withSent h1 (sent h1 ++ [putRequest entryHash]))
                        (replaces a) MOD_REQUEST (ModReq (replaces a) entryHash))),
        withSent h1 (sent h1 ++ [putRequest entryHash; modRequest (replaces a) entryHash])))
  /\ (Sharing d <> Public E ->
        ActionMod_Do E a h = (Returns (Some (RespHash entryHash), None), h1)).
Proof.
  intros Hcommit. unfold ActionMod_Do, bind. rewrite Hcommit. cbn [failed lift deref].
  split.
  - intros Hpub. rewrite Hpub, String.eqb_refl. unfold dhtSend, ret. cbn [sent withSent].
    rewrite <- app_assoc. reflexivity.
  - intros Hpub. apply String.eqb_neq in Hpub. rewrite Hpub. reflexivity.
Qed.

(** X5: after a successful [doCommit], [ActionDel.Do] of a public entry
    sends one [DEL_REQUEST] to the hash deleted, naming the hash of the
    deletion entry, and returns the error of that send; for an entry that
    is not public it sends nothing. *)
Theorem del_publishes (a : ActionDel) (h h1 : Holochain) (d : EntryDef)
    (header : option Header) (entryHash : Hash) :
  doCommit E (CDel a) (Some (mkStatusChange (DelAction E) (DelHash (delEntry a)))) h
    = (Returns (Some d, header, entryHash, None), h1) ->
  (Sharing d = Public E ->
     ActionDel_Do E a h
     = (Returns (Some (RespHash entryHash),
                 snd (dhtSendReply E h1 (DelHash (delEntry a)) DEL_REQUEST
                        (DelReq (DelHash (delEntry a)) entryHash))),
        withSent h1 (sent h1 ++ [delRequest (DelHash (delEntry a)) entryHash])))
  /\ (Sharing d <> Public E ->
        ActionDel_Do E a h = (Returns (Some (RespHash entryHash), None), h1)).
Proof.
  intros Hcommit. unfold ActionDel_Do, bind. rewrite Hcommit. cbn [failed lift deref].
  split.
  - intros Hpub. rewrite Hpub, String.eqb_refl. reflexivity.
  - intros Hpub. apply String.eqb_neq in Hpub. rewrite Hpub. reflexivity.
Qed.

End CommitMore.

(** *** What the initiating side leaves alone *)

Lemma extended_refl (h : Holochain) : extended h h.
Proof.
  exists [], []. split; [cbn; lia|]. rewrite !app_nil_r. destruct h; reflexivity.
Qed.

Lemma extended_sent (h h1 : Holochain) (out : list Outgoing) :
  extended h h1 -> extended h (withSent h1 (sent h1 ++ out)).
Proof.
  intros (links & out0 & Hlen & ->). exists links, (out0 ++ out). split; [exact Hlen|].
  cbn [sent withSent withChain]. rewrite app_assoc. reflexivity.
Qed.

Section FrameDo.
Context (E : Env).

Lemma doCommit_extends (a : CommittingAction) (change : option StatusChange) (h : Holochain) :
  extended h (snd (doCommit E a change h)).
Proof.
  unfold doCommit, bind, lift, getNode, ret, putNode.
  destruct (actionEntry E a) as [entry|msg]; [|apply extended_refl].
  destruct (PrepareHeader E (chain h) (now E) (actionEntryType a) entry (agentKey h) change)
    as [[[l hash] hdr] [perr|]]; cbn [failed]; [apply extended_refl|].
  destruct (ValidateAction E h (asValidating a) (actionEntryType a) None [nodeID h])
    as [[d0 [verr|]]|msg]; cbn [failed]; [| |apply extended_refl].
  - destruct (err_is (Some verr) ValidationFailedErr); [|apply extended_refl].
    destruct entry; cbn; apply extended_refl.
  - destruct hdr as [hd|]; cbn [deref]; [|apply extended_refl].
    unfold addEntry.
    destruct (negb (l =? Z.of_nat (length (chain h))));
      [cbn; rewrite withChain_same; apply extended_refl|].
    destruct (negb (String.eqb (headerSum E hd) hash));
      [cbn; rewrite withChain_same; apply extended_refl|].
    destruct (existsb _ (chain h));
      [cbn; rewrite withChain_same; apply extended_refl|].
    cbn. exists [mkChainLink hash hd entry], []. split; [cbn; lia|].
    rewrite app_nil_r. destruct h; reflexivity.
Qed.

Ltac leaf H1 :=
  cbn [fst snd];
  first [ exact H1
        | apply (extended_sent _ _ _ H1)
        | rewrite <- app_assoc; apply (extended_sent _ _ _ H1) ].

(** X6: whatever [ActionCommit.Do], [ActionMod.Do] and [ActionDel.Do]
    return, the node afterwards is the node before with at most one link
    appended to the chain and with messages appended to those sent: the
    identity, the key, the DHT store, the peers and the earlier links and
    messages are untouched. *)
Theorem do_extends_node (h : Holochain) :
  (forall a, extended h (snd (ActionCommit_Do E a h)))
  /\ (forall a, extended h (snd (ActionMod_Do E a h)))
  /\ (forall a, extended h (snd (ActionDel_Do E a h))).
Proof.
  split; [|split]; intros a.
  - unfold ActionCommit_Do, bind.
    pose proof (doCommit_extends (CCommit a) None h) as H1.
    destruct (doCommit E (CCommit a) None h) as [[[[[d hdr] eh] err]|msg] h1];
      cbn [snd] in H1; [|exact H1].
    destruct err as [err|]; cbn [failed]; [exact H1|].
    unfold lift, ret. destruct d as [def|]; cbn [deref]; [|exact H1].
    destruct (String.eqb (DataFormat def) (DataFormatLinks E)).
    + destruct (commitEntry a) as [e|]; cbn [deref]; [|exact H1].
      destruct (contentString e) as [s|msg]; [|exact H1].
      destruct (jsonUnmarshalLinksEntry E s) as [le [jerr|]]; cbn [failed]; [exact H1|].
      destruct (sendLinkRequests_distinct E (Links le) eh ∅ h1) as (bases & _ & _ & Hrun).
      rewrite Hrun. leaf H1.
    + destruct (String.eqb (Sharing def) (Public E)); unfold dhtSend; leaf H1.
  - unfold ActionMod_Do, bind.
    pose proof (doCommit_extends (CMod a)
                  (Some (mkStatusChange (ModAction E) (replaces a))) h) as H1.
    destruct (doCommit E (CMod a) _ h) as [[[[[d hdr] eh] err]|msg] h1];
      cbn [snd] in H1; [|exact H1].
    destruct err as [err|]; cbn [failed]; [exact H1|].
    unfold lift, ret. destruct d as [def|]; cbn [deref]; [|exact H1].
    destruct (String.eqb (Sharing def) (Public E)); unfold dhtSend; [|exact H1].
    cbn [fst snd sent withSent]. rewrite <- app_assoc.
    apply (extended_sent _ _ _ H1).
  - unfold ActionDel_Do, bind.
    pose proof (doCommit_extends (CDel a)
                  (Some (mkStatusChange (DelAction E) (DelHash (delEntry a)))) h) as H1.
    destruct (doCommit E (CDel a) _ h) as [[[[[d hdr] eh] err]|msg] h1];
      cbn [snd] in H1; [|exact H1].
    destruct err as [err|]; cbn [failed]; [exact H1|].
    unfold lift, ret. destruct d as [def|]; cbn [deref]; [|exact H1].
    destruct (String.eqb (Sharing def) (Public E)); unfold dhtSend; leaf H1.
Qed.

End FrameDo.

(** ** The validation driver *)

Section ValidationMore.
Context (E : Env).

Lemma prepareSources_from (sources : list PeerID) (acc : list string) :
  fold_left (fun srcs s => srcs ++ [IDB58Encode E s]) sources acc
  = acc ++ List.map (IDB58Encode E) sources.
Proof.
  revert acc. induction sources as [|s rest IH]; intros acc; cbn.
  - rewrite app_nil_r. reflexivity.
  - rewrite IH, <- app_assoc. reflexivity.
Qed.

(** X7: [prepareSources] encodes each source, in order: the result has
    one string for each peer. *)
Theorem prepareSources_map (sources : list PeerID) :
  prepareSources E sources = List.map (IDB58Encode E) sources
  /\ length (prepareSources E sources) = length sources.
Proof.
  assert (H : prepareSources E sources = List.map (IDB58Encode E) sources).
  { unfold prepareSources. rewrite prepareSources_from. reflexivity. }
  split; [exact H|]. rewrite H. apply length_map.
Qed.

(** X8: [ValidateAction] accepts every action on an entry type of the
    system without looking at it, with a nil definition.  For a type of
    the application it passes only if the definition was found, the
    validation package was made, the system validation of the action
    passed, the ribosome was made, and the application accepted the action
    with the encoded sources; a failure of the system validation is
    returned before the application is asked. *)
Theorem ValidateAction_stages (h : Holochain) (a : ValidatingAction)
    (pkg : option Package) (sources : list PeerID) :
  (forall t, isSystemType t = true ->
     ValidateAction E h a t pkg sources = Returns (None, None))
  /\ (forall name d,
        ValidateAction E h a (AppEntryType name) pkg sources = Returns (d, None) ->
        exists z vpkg n,
          GetEntryDef E h (AppEntryType name) = (z, d, None)
          /\ MakeValidationPackage E h pkg = (vpkg, None)
          /\ SysValidation E a h d sources = Returns None
          /\ MakeRibosome E h z = (n, None)
          /\ RValidateAction n a d vpkg (prepareSources E sources) = None)
  /\ (forall name z d vpkg err,
        GetEntryDef E h (AppEntryType name) = (z, d, None) ->
        MakeValidationPackage E h pkg = (vpkg, None) ->
        SysValidation E a h d sources = Returns (Some err) ->
        ValidateAction E h a (AppEntryType name) pkg sources = Returns (d, Some err)).
Proof.
  split; [|split].
  - intros t Hsys. destruct t; try discriminate; reflexivity.
  - intros name d. cbn [ValidateAction].
    destruct (GetEntryDef E h (AppEntryType name)) as [[z d0] [gerr|]] eqn:Hdef;
      cbn [failed]; [discriminate|].
    destruct (MakeValidationPackage E h pkg) as [vpkg [perr|]] eqn:Hpkg;
      cbn [failed]; [discriminate|].
    destruct (SysValidation E a h d0 sources) as [[serr|]|pm] eqn:Hsys;
      cbn [obind failed]; try discriminate.
    destruct (MakeRibosome E h z) as [n [rerr|]] eqn:Hrib; cbn [failed]; [discriminate|].
    intros [= <- Happ]. exists z, vpkg, n. repeat split; assumption.
  - intros name z d vpkg err Hdef Hpkg Hsys. cbn [ValidateAction].
    rewrite Hdef. cbn [failed]. rewrite Hpkg. cbn [failed]. rewrite Hsys. reflexivity.
Qed.


End ValidationMore.

(** ** Receive handlers *)

Lemma withDHT_same (h : Holochain) : withDHT h (dht h) = h.
Proof. destruct h; reflexivity. Qed.

Lemma withDHT_withDHT (h : Holochain) (s1 s2 : Store) :
  withDHT (withDHT h s1) s2 = withDHT h s2.
Proof. reflexivity. Qed.

Lemma writesStoreOnly_ret {A : Type} (a : A) : writesStoreOnly (ret a).
Proof. intros h. exists (dht h). symmetry. apply withDHT_same. Qed.

Lemma writesStoreOnly_lift {A : Type} (o : outcome A) : writesStoreOnly (lift o).
Proof. intros h. exists (dht h). symmetry. apply withDHT_same. Qed.

Lemma writesStoreOnly_getNode : writesStoreOnly getNode.
Proof. intros h. exists (dht h). symmetry. apply withDHT_same. Qed.

Lemma writesStoreOnly_bind {A B : Type} (m : M A) (k : A -> M B) :
  writesStoreOnly m -> (forall a, writesStoreOnly (k a)) -> writesStoreOnly (bind m k).
Proof.
  intros Hm Hk h. unfold bind. destruct (Hm h) as [s1 H1].
  destruct (m h) as [[a|msg] h1]; cbn [snd] in *; subst h1.
  - destruct (Hk a (withDHT h s1)) as [s2 H2]. exists s2. rewrite H2. reflexivity.
  - exists s1. reflexivity.
Qed.

Section FrameReceive.
Context (E : Env).

Lemma writesStoreOnly_dhtPut msg t key src b status :
  writesStoreOnly (dhtPut E msg t key src b status).
Proof. intros h. unfold dhtPut. destruct (dht_put _ _ _ _ _ _ _ _) as [s err]. eauto. Qed.

Lemma writesStoreOnly_dhtMod msg old new : writesStoreOnly (dhtMod E msg old new).
Proof. intros h. unfold dhtMod. destruct (dht_mod _ _ _ _ _) as [s err]. eauto. Qed.

Lemma writesStoreOnly_dhtDel msg key : writesStoreOnly (dhtDel E msg key).
Proof. intros h. unfold dhtDel. destruct (dht_del _ _ _ _) as [s err]. eauto. Qed.

Lemma writesStoreOnly_dhtPutLink msg base link tag :
  writesStoreOnly (dhtPutLink E msg base link tag).
Proof. intros h. unfold dhtPutLink. destruct (dht_putLink _ _ _ _ _ _) as [s err]. eauto. Qed.

Lemma writesStoreOnly_dhtDelLink msg base link tag :
  writesStoreOnly (dhtDelLink E msg base link tag).
Proof. intros h. unfold dhtDelLink. destruct (dht_delLink _ _ _ _ _ _) as [s err]. eauto. Qed.

Lemma writesStoreOnly_applyLinks msg base ls :
  forall err, writesStoreOnly (applyLinks E msg base ls err).
Proof.
  induction ls as [|l rest IH]; intros err; cbn [applyLinks].
  - apply writesStoreOnly_ret.
  - destruct (String.eqb base (Base l)); [|apply IH].
    apply writesStoreOnly_bind; [|exact IH].
    destruct (String.eqb (LinkAction l) (DelAction E));
      [apply writesStoreOnly_dhtDelLink | apply writesStoreOnly_dhtPutLink].
Qed.

Lemma RunValidationPhase_received (source : PeerID) (t : MsgType) (query : Hash)
    (handler : ValidateResponse -> M (option error)) (h : Holochain) :
  (forall resp, writesStoreOnly (handler resp)) ->
  exists s, snd (RunValidationPhase E source t query handler h)
            = withDHT (asked h source t query) s.
Proof.
  intros Hhandler. unfold RunValidationPhase, bind, Send. cbn [fst snd].
  fold (validateQuery source t query). fold (asked h source t query).
  destruct (SendReply E h ValidateProtocol source t (ValidateQuery query)) as [r err].
  destruct (failed err); [exists (dht (asked h source t query)); symmetry; apply withDHT_same|].
  destruct r as [[ | | |resp| ]|];
    try (exists (dht (asked h source t query)); symmetry; apply withDHT_same).
  apply Hhandler.
Qed.

Ltac store_only :=
  repeat first
    [ apply writesStoreOnly_ret | apply writesStoreOnly_lift | apply writesStoreOnly_getNode
    | apply writesStoreOnly_dhtPut | apply writesStoreOnly_dhtMod
    | apply writesStoreOnly_dhtDel | apply writesStoreOnly_applyLinks
    | apply writesStoreOnly_bind
    | progress cbv zeta
    | match goal with
      | |- writesStoreOnly (let '(_, _) := ?x in _) => destruct x
      | |- writesStoreOnly (if ?b then _ else _) => destruct b
      | |- forall _, writesStoreOnly _ => intro
      end ].

Ltac after_query Hrun :=
  unfold bind at 1;
  match goal with
  | |- received _ _ (snd (let (_, _) := ?m ?h in _)) =>
    destruct (m h) as [[err|pmsg] h1]; cbn [snd] in Hrun; subst h1;
    cbn [snd ret]; right; eauto
  end.

(** X10: whatever message arrives, the receive handlers of put, mod, del
    and link leave the node as it was, or send one validation query to
    the sender of the message and write to the DHT store: they never touch
    the chain, the identity or the peers, and they send nothing else. *)
Theorem receive_writes_store_only (msg : Message) (h : Holochain) :
  received (From msg) h (snd (ActionPut_Receive E msg h))
  /\ received (From msg) h (snd (ActionMod_Receive E msg h))
  /\ received (From msg) h (snd (ActionDel_Receive E msg h))
  /\ received (From msg) h (snd (ActionLink_Receive E msg h)).
Proof.
  split; [|split; [|split]].
  - unfold ActionPut_Receive. destruct (MBody msg) as [H| | | | | |]; try (left; reflexivity).
    destruct (RunValidationPhase_received (From msg) VALIDATE_PUT_REQUEST H
                (fun resp =>
                   let a := NewPutAction (VType resp) (Some (VEntry resp)) (Some (VHeader resp)) in
                   h <- getNode ;;
                   r <- lift (ValidateAction E h (VPut a) (putEntryType a)
                                (Some (VPackage resp)) [From msg]) ;;
                   let status := if failed (snd r) then StatusRejected E else StatusLive E in
                   let entry := VEntry resp in
                   let '(b, err) := Marshal E entry in
                   if negb (failed err) then dhtPut E msg (VType resp) H (From msg) b status
                   else ret err) h) as [s Hrun].
    { intros resp. store_only. }
    after_query Hrun.
  - unfold ActionMod_Receive. destruct (MBody msg) as [|?|H N| | | |]; try (left; reflexivity).
    unfold bind at 1. unfold getNode at 1.
    destruct (failed (dht_exists E (dht h) H (StatusDefault E))).
    { destruct (err_is _ _); left; reflexivity. }
    destruct (RunValidationPhase_received (From msg) VALIDATE_MOD_REQUEST N
                (fun resp =>
                   let a := NewModAction (VType resp) (Some (VEntry resp)) H in
                   let a := mkActionMod (modEntryType a) (modEntry a) (Some (VHeader resp))
                              (replaces a) in
                   h <- getNode ;;
                   r <- lift (ValidateAction E h (VMod a) (VType resp)
                                (Some (VPackage resp)) [From msg]) ;;
                   let err := snd r in
                   if failed err then ret err
                   else dhtMod E msg H N) h) as [s Hrun].
    { intros resp. store_only. }
    after_query Hrun.
  - unfold ActionDel_Receive. destruct (MBody msg) as [|?| |H By| | |]; try (left; reflexivity).
    unfold bind at 1. unfold getNode at 1.
    destruct (failed (dht_exists E (dht h) H (StatusDefault E))).
    { destruct (err_is _ _); left; reflexivity. }
    destruct (RunValidationPhase_received (From msg) VALIDATE_DEL_REQUEST By
                (fun resp =>
                   s <- lift (contentString (VEntry resp)) ;;
                   let '(delEntry, err) := ByteDecoder E s in
                   if failed err then ret err
                   else
                     let a := NewDelAction (VType resp) delEntry in
                     h <- getNode ;;
                     r <- lift (ValidateAction E h (VDel a) (VType resp)
                                  (Some (VPackage resp)) [From msg]) ;;
                     let err := snd r in
                     if failed err then ret err
                     else dhtDel E msg (DelHash delEntry)) h) as [s Hrun].
    { intros resp. store_only. }
    after_query Hrun.
  - unfold ActionLink_Receive.
    destruct (MBody msg) as [|?| | |base linksHash| |]; try (left; reflexivity).
    unfold bind at 1. unfold getNode at 1.
    destruct (failed (dht_exists E (dht h) base (StatusLive E))); cbn [negb];
      [left; reflexivity|].
    unfold bind at 1. unfold getNode at 1.
    destruct (failed (dht_exists E (dht h) base (StatusLive E))).
    { destruct (err_is _ _); left; reflexivity. }
    destruct (RunValidationPhase_received (From msg) VALIDATE_LINK_REQUEST linksHash
                (fun resp =>
                   s <- lift (contentString (VEntry resp)) ;;
                   let '(le, err) := jsonUnmarshalLinksEntry E s in
                   if failed err then ret err
                   else
                     let a := NewLinkAction (VType resp) (Links le) in
                     let a := mkActionLink (linkEntryType a) (links a) base in
                     h <- getNode ;;
                     r <- lift (ValidateAction E h (VLink a) (linkEntryType a)
                                  (Some (VPackage resp)) [From msg]) ;;
                     let err := snd r in
                     if failed err then ret err
                     else applyLinks E msg base (Links le) err) h) as [s Hrun].
    { intros resp. store_only. }
    after_query Hrun.
Qed.

End FrameReceive.

Section ReceiveMore.
Context (E : Env).

Lemma RunValidationPhase_unanswered (source : PeerID) (t : MsgType) (query : Hash)
    (handler : ValidateResponse -> M (option error)) (h : Holochain)
    (r : option Response) (err : option error) :
  SendReply E h ValidateProtocol source t (ValidateQuery query) = (r, err) ->
  (err <> None \/ forall resp, r <> Some (RespValidate resp)) ->
  RunValidationPhase E source t query handler h
  = (Returns (unanswered r err), asked h source t query).
Proof.
  intros Hreply Hcase. unfold RunValidationPhase, bind, Send, unanswered. rewrite Hreply.
  destruct err as [e|]; cbn [failed]; [reflexivity|].
  destruct Hcase as [Hc|Hc]; [congruence|].
  destruct r as [[ | | |resp| ]|]; try reflexivity. exfalso. exact (Hc resp eq_refl).
Qed.

(** X11: when the source of a [PUT_REQUEST] does not answer the validation
    query, or answers with anything but a [ValidateResponse], the handler
    stores nothing and still replies [queued], together with the error of
    the send or with [expected ValidateResponse from validator got <type>]. *)
Theorem put_receive_unanswered (msg : Message) (H : Hash) (h : Holochain)
    (r : option Response) (err : option error) :
  MBody msg = PutReq H ->
  SendReply E h ValidateProtocol (From msg) VALIDATE_PUT_REQUEST (ValidateQuery H)
    = (r, err) ->
  (err <> None \/ forall resp, r <> Some (RespValidate resp)) ->
  ActionPut_Receive E msg h
  = (Returns (queued, unanswered r err), asked h (From msg) VALIDATE_PUT_REQUEST H)
  /\ unanswered r err <> None.
Proof.
  intros Hbody Hreply Hcase. split.
  - unfold ActionPut_Receive. rewrite Hbody. unfold bind at 1.
    rewrite (RunValidationPhase_unanswered _ _ _ _ _ _ _ Hreply Hcase). reflexivity.
  - unfold unanswered. destruct err; cbn; congruence.
Qed.

(** X12: when a [DEL_REQUEST] for [H] arrives, [H] exists, and the source
    answers the query for [By] with an entry that decodes to a deletion
    entry, the handler validates the deletion; if it passes, [dht.del] is
    applied to the hash the deletion entry names (not to [H] of the
    request), and if it fails the store is left as it was and the error is
    returned.  The reply is [queued] in both cases. *)
Theorem del_receive_outcome (msg : Message) (H By : Hash) (h : Holochain)
    (resp : ValidateResponse) (s : string) (target : DelEntry) (d : option EntryDef)
    (verr : option error) :
  let h1 := asked h (From msg) VALIDATE_DEL_REQUEST By in
  MBody msg = DelReq H By ->
  dht_exists E (dht h) H (StatusDefault E) = None ->
  SendReply E h ValidateProtocol (From msg) VALIDATE_DEL_REQUEST (ValidateQuery By)
    = (Some (RespValidate resp), None) ->
  C (VEntry resp) = ContentString s ->
  ByteDecoder E s = (target, None) ->
  ValidateAction E h1 (VDel (NewDelAction (VType resp) target)) (VType resp)
    (Some (VPackage resp)) [From msg] = Returns (d, verr) ->
  (verr = None ->
     ActionDel_Receive E msg h
     = (Returns (queued, snd (dht_del E (dht h1) msg (DelHash target))),
        withDHT h1 (fst (dht_del E (dht h1) msg (DelHash target)))))
  /\ (forall err, verr = Some err ->
        ActionDel_Receive E msg h = (Returns (queued, Some err), h1)).
Proof.
  intros h1 Hbody Hex Hreply Hc Hdec Hval.
  assert (Hrun : ActionDel_Receive E msg h
                 = if failed verr then (Returns (queued, verr), h1)
                   else (Returns (queued, snd (dht_del E (dht h1) msg (DelHash target))),
                         withDHT h1 (fst (dht_del E (dht h1) msg (DelHash target))))).
  { unfold ActionDel_Receive. rewrite Hbody.
    unfold bind at 1. unfold getNode at 1. rewrite Hex. cbn [failed].
    unfold bind at 1. rewrite (RunValidationPhase_answered _ _ _ _ _ _ _ Hreply).
    fold h1. unfold bind, getNode, lift, contentString. rewrite Hc, Hdec. cbn [failed].
    rewrite Hval. cbn [snd]. destruct verr as [err|]; cbn [failed]; [reflexivity|].
    unfold dhtDel. destruct (dht_del E (dht h1) msg (DelHash target)) as [st err].
    reflexivity. }
  rewrite Hrun. split.
  - intros ->. reflexivity.
  - intros err ->. reflexivity.
Qed.

Lemma applyLinks_linksOn (msg : Message) (base : string) (ls : list Link) :
  forall err h, applyLinks E msg base ls err h = applyLinks E msg base (linksOn base ls) err h.
Proof.
  induction ls as [|l rest IH]; intros err h; [reflexivity|].
  cbn [applyLinks linksOn List.filter].
  destruct (String.eqb base (Base l)) eqn:Hb.
  - cbn [applyLinks]. rewrite Hb. unfold bind.
    destruct (if String.eqb (LinkAction l) (DelAction E)
              then dhtDelLink E msg base (LinkTo l) (Tag l)
              else dhtPutLink E msg base (LinkTo l) (Tag l)) as [[e|pm] h1]; [|reflexivity].
    apply IH.
  - apply IH.
Qed.

(** X13: when a [LINK_REQUEST] for a live base arrives and the source
    answers with a links entry, the handler validates it; if that passes,
    it applies the links of the entry that are on this base, and only
    those, so that an entry with no link on the base changes nothing; if
    it fails, nothing is recorded and the error is returned.  The reply is
    [queued]. *)
Theorem link_receive_outcome (msg : Message) (base linksHash : Hash) (h : Holochain)
    (resp : ValidateResponse) (s : string) (le : LinksEntry) (d : option EntryDef)
    (verr : option error) :
  let h1 := asked h (From msg) VALIDATE_LINK_REQUEST linksHash in
  MBody msg = LinkReq base linksHash ->
  dht_exists E (dht h) base (StatusLive E) = None ->
  SendReply E h ValidateProtocol (From msg) VALIDATE_LINK_REQUEST (ValidateQuery linksHash)
    = (Some (RespValidate resp), None) ->
  C (VEntry resp) = ContentString s ->
  jsonUnmarshalLinksEntry E s = (le, None) ->
  ValidateAction E h1 (VLink (mkActionLink (VType resp) (Links le) base)) (VType resp)
    (Some (VPackage resp)) [From msg] = Returns (d, verr) ->
  (verr = None ->
     ActionLink_Receive E msg h
     = (match applyLinks E msg base (linksOn base (Links le)) None h1 with
        | (Returns err, h2) => (Returns (queued, err), h2)
        | (Panics pm, h2) => (Panics pm, h2)
        end))
  /\ (verr = None -> linksOn base (Links le) = [] ->
        ActionLink_Receive E msg h = (Returns (queued, None), h1))
  /\ (forall err, verr = Some err ->
        ActionLink_Receive E msg h = (Returns (queued, Some err), h1)).
Proof.
  intros h1 Hbody Hex Hreply Hc Hjson Hval.
  assert (Hrun : ActionLink_Receive E msg h
                 = if failed verr then (Returns (queued, verr), h1)
                   else match applyLinks E msg base (linksOn base (Links le)) None h1 with
                        | (Returns err, h2) => (Returns (queued, err), h2)
                        | (Panics pm, h2) => (Panics pm, h2)
                        end).
  { unfold ActionLink_Receive. rewrite Hbody.
    unfold bind at 1. unfold getNode at 1. rewrite Hex. cbn [failed negb].
    unfold bind at 1. unfold getNode at 1. rewrite Hex. cbn [failed].
    unfold bind at 1. rewrite (RunValidationPhase_answered _ _ _ _ _ _ _ Hreply).
    fold h1. unfold bind at 1. unfold lift at 1. unfold contentString. rewrite Hc, Hjson.
    cbn [failed NewLinkAction linkEntryType links].
    unfold bind at 1. unfold getNode at 1. unfold bind at 1. unfold lift at 1.
    rewrite Hval. cbn [snd]. destruct verr as [err|]; cbn [failed]; [reflexivity|].
    rewrite applyLinks_linksOn.
    destruct (applyLinks E msg base (linksOn base (Links le)) None h1) as [[e|pm] h2];
      reflexivity. }
  rewrite Hrun. split; [|split].
  - intros ->. reflexivity.
  - intros -> ->. reflexivity.
  - intros err ->. reflexivity.
Qed.

(** X14: [ActionGet.Receive] always reports the sources [dht.get]
    returned.  When [dht.get] fails, the response is returned along with
    the error and carries no entry.  When it succeeds and the entry is
    asked for, a DNA entry makes the handler panic, a key or agent entry
    is returned as the raw data, and an entry that does not unmarshal
    gives the error with a nil response; when the entry is not asked for,
    none is returned. *)
Theorem get_receive_edges (h : Holochain) (msg : Message) (req : GetReq)
    (entryData : bytes) (entryType : EntryTypeName) (sources : list string) (status : Z)
    (err : option error) :
  MBody msg = GetReqBody req ->
  dht_get E (dht h) (GetH req) (StatusMask req) (Z.lor (GetMask req) (GetMaskEntryType E))
    = (entryData, entryType, sources, status, err) ->
  (forall resp err', ActionGet_Receive E h msg = Returns (Some (RespGet resp), err') ->
     RespSources resp = sources)
  /\ (forall e, err = Some e ->
        exists resp, ActionGet_Receive E h msg = Returns (Some (RespGet resp), Some e)
                     /\ RespEntry resp = None)
  /\ (err = None -> Z.land (effectiveMask E req) (GetMaskEntry E) <> 0 ->
        (entryType = DNAEntryType ->
           ActionGet_Receive E h msg = Panics "nobody should actually get the DNA!")
        /\ (entryType = KeyEntryType \/ entryType = AgentEntryType ->
              exists resp, ActionGet_Receive E h msg = Returns (Some (RespGet resp), None)
                /\ RespEntry resp = Some (mkGobEntry (ContentString entryData)))
        /\ (forall name ge ue, entryType = AppEntryType name ->
              Unmarshal E entryData = (ge, Some ue) ->
              ActionGet_Receive E h msg = Returns (None, Some ue)))
  /\ (err = None -> Z.land (effectiveMask E req) (GetMaskEntry E) = 0 ->
        exists resp, ActionGet_Receive E h msg = Returns (Some (RespGet resp), None)
                     /\ RespEntry resp = None).
Proof.
  intros Hbody Hget. unfold ActionGet_Receive. rewrite Hbody, Hget.
  set (mask := effectiveMask E req).
  split; [|split; [|split]].
  - intros resp err'. destruct err as [e|]; cbn [failed negb].
    + intros [= <- <-]. cbn [err_is]. destruct (bool_decide (e = ErrHashModified));
        destruct (negb (Z.land mask (GetMaskEntryType E) =? 0)); reflexivity.
    + destruct (negb (Z.land mask (GetMaskEntry E) =? 0)).
      * destruct entryType; try discriminate.
        -- intros [= <- <-].
           destruct (negb (Z.land mask (GetMaskEntryType E) =? 0)); reflexivity.
        -- intros [= <- <-].
           destruct (negb (Z.land mask (GetMaskEntryType E) =? 0)); reflexivity.
        -- destruct (Unmarshal E entryData) as [ge [ue|]]; cbn [failed]; [discriminate|].
           intros [= <- <-].
           destruct (negb (Z.land mask (GetMaskEntryType E) =? 0)); reflexivity.
      * intros [= <- <-].
        destruct (negb (Z.land mask (GetMaskEntryType E) =? 0)); reflexivity.
  - intros e ->. cbn [failed negb]. eexists. split; [reflexivity|].
    cbn [err_is]. destruct (bool_decide (e = ErrHashModified));
      destruct (negb (Z.land mask (GetMaskEntryType E) =? 0)); reflexivity.
  - intros -> Hmask. apply Z.eqb_neq in Hmask. rewrite Hmask. cbn [failed negb].
    split; [|split].
    + intros ->. reflexivity.
    + intros [-> | ->]; eexists; (split; [reflexivity|]);
        destruct (negb (Z.land mask (GetMaskEntryType E) =? 0)); reflexivity.
    + intros name ge ue -> Hun. rewrite Hun. reflexivity.
  - intros -> Hmask. apply Z.eqb_eq in Hmask. rewrite Hmask. cbn [failed negb].
    eexists. split; [reflexivity|].
    destruct (negb (Z.land mask (GetMaskEntryType E) =? 0)); reflexivity.
Qed.

End ReceiveMore.

(** ** The origin's answer to a validation query, when it has the entry *)

Section ResponseMore.
Context (E : Env).

(** X15: for a hash whose entry the local chain has,
    [GetValidationResponse] panics for the DNA, answers with the entry and
    its header and no package for a key or agent entry, refuses a link
    action on an entry whose definition is not of the links format with
    [hash not of a linking entry], and otherwise answers with the package
    made for the request the application gave, whose own error is
    dropped. *)
Theorem GetValidationResponse_found (h : Holochain) (a : ValidatingAction) (hash : Hash)
    (l : ChainLink) (e : GobEntry) :
  findEntry (chain h) hash = Some l ->
  LinkEntry l = Some e ->
  let found := mkValidateResponse (HType (LinkHeader l)) e (LinkHeader l) "" in
  (HType (LinkHeader l) = DNAEntryType ->
     GetValidationResponse E h a hash
     = Panics "attempt to get validation response for DNA")
  /\ (HType (LinkHeader l) = KeyEntryType \/ HType (LinkHeader l) = AgentEntryType ->
        GetValidationResponse E h a hash = Returns (found, None))
  /\ (forall name la z def,
        HType (LinkHeader l) = AppEntryType name ->
        a = VLink la ->
        GetEntryDef E h (AppEntryType name) = (z, Some def, None) ->
        DataFormat def <> DataFormatLinks E ->
        GetValidationResponse E h a hash
        = Returns (found, Some (ErrNew "hash not of a linking entry")))
  /\ (forall name z def n,
        HType (LinkHeader l) = AppEntryType name ->
        GetEntryDef E h (AppEntryType name) = (z, def, None) ->
        CheckValidationRequest E a def = Returns None ->
        MakeRibosome E h z = (n, None) ->
        GetValidationResponse E h a hash
        = Returns (withVPackage found
                     (fst (MakePackage E h (fst (RValidatePackagingRequest n a def)))),
                   snd (MakePackage E h (fst (RValidatePackagingRequest n a def))))).
Proof.
  intros Hfind Hentry found.
  assert (Hrun : GetValidationResponse E h a hash = packageResponse E h a found None).
  { unfold GetValidationResponse, GetEntry, GetEntryHeader. rewrite Hfind, Hentry.
    reflexivity. }
  rewrite Hrun. unfold packageResponse. subst found. cbn [VType].
  split; [|split; [|split]].
  - intros ->. reflexivity.
  - intros [-> | ->]; reflexivity.
  - intros name la z def Hty -> Hdef Hfmt. rewrite Hty, Hdef. cbn [failed].
    cbn [CheckValidationRequest deref obind]. apply String.eqb_neq in Hfmt. rewrite Hfmt.
    reflexivity.
  - intros name z def n Hty Hdef Hcheck Hrib. rewrite Hty, Hdef. cbn [failed].
    rewrite Hcheck. cbn [obind failed]. rewrite Hrib. cbn [failed].
    destruct (RValidatePackagingRequest n a def) as [req rerr]. cbn [fst].
    destruct (MakePackage E h req) as [p perr]. reflexivity.
Qed.

End ResponseMore.

(** ** Get and GetLink on the initiating side *)

Lemma findEntry_app_new (c : Chain) (link : ChainLink) (hash : Hash) :
  absentFrom c hash -> EntryLink (LinkHeader link) = hash ->
  findEntry (c ++ [link]) hash = Some link.
Proof.
  intros Habs Heq. unfold findEntry. induction c as [|x c IH]; cbn.
  - rewrite Heq, String.eqb_refl. reflexivity.
  - destruct (String.eqb_spec (EntryLink (LinkHeader x)) hash) as [Hx|Hx].
    + exfalso. apply (Habs x); [left; reflexivity|exact Hx].
    + apply IH. intros l Hin. apply Habs. right. exact Hin.
Qed.

Section GetDoProps.
Context (E : Env).
Context (entangledGet : Holochain -> Hash -> Z -> Z -> option Response * option error).

Lemma ActionGet_Do_local (req : GetReq) (o : GetOptions) (h : Holochain) (l : ChainLink) :
  OptLocal o = true ->
  findEntry (chain h) (GetH req) = Some l ->
  ActionGet_Do E entangledGet (NewGetAction req (Some o)) h
  = Returns (Some (RespGet (localResp E (OptGetMask o) (LinkEntry l) (HType (LinkHeader l)))),
             None).
Proof.
  intros Hlocal Hfind. unfold ActionGet_Do, GetEntry, localResp. cbn [NewGetAction getOptions getReq deref obind].
  rewrite Hlocal, Hfind. cbn [failed].
  destruct (Z.land (OptGetMask o) (GetMaskEntryType E) =? 0);
    destruct (Z.land (OptGetMask o) (GetMaskEntry E) =? 0); reflexivity.
Qed.

(** X16: [ActionGet.Do] without options panics.  A local get of a hash
    the chain does not have returns [ErrHashNotFound] and no response; of
    one it has, it returns the entry and the entry type as the bits of the
    mask say.  The mask is taken literally: with the mask zero, which
    stands for the default on the receiving side, the response is empty. *)
Theorem get_local_edges (req : GetReq) (o : GetOptions) (h : Holochain) :
  ActionGet_Do E entangledGet (NewGetAction req None) h = Panics nilDeref
  /\ (OptLocal o = true -> absentFrom (chain h) (GetH req) ->
        ActionGet_Do E entangledGet (NewGetAction req (Some o)) h
        = Returns (None, Some ErrHashNotFound))
  /\ (OptLocal o = true ->
      forall l, findEntry (chain h) (GetH req) = Some l ->
        ActionGet_Do E entangledGet (NewGetAction req (Some o)) h
        = Returns (Some (RespGet (localResp E (OptGetMask o) (LinkEntry l)
                                    (HType (LinkHeader l)))), None))
  /\ (OptLocal o = true -> OptGetMask o = 0 ->
      forall l, findEntry (chain h) (GetH req) = Some l ->
        ActionGet_Do E entangledGet (NewGetAction req (Some o)) h
        = Returns (Some (RespGet zeroGetResp), None)).
Proof.
  split; [reflexivity|]. split; [|split].
  - intros Hlocal Habs. apply findEntry_absent in Habs.
    unfold ActionGet_Do, GetEntry. cbn [NewGetAction getOptions getReq deref obind].
    rewrite Hlocal, Habs. reflexivity.
  - intros Hlocal l Hfind. apply ActionGet_Do_local; assumption.
  - intros Hlocal Hmask l Hfind. rewrite (ActionGet_Do_local req o h l Hlocal Hfind).
    unfold localResp. rewrite Hmask. cbn [Z.land Z.eqb]. reflexivity.
Qed.

(** X17: after a successful [doCommit], a local get of the hash returned
    answers with the entry committed and the type of its header. *)
Theorem commit_then_local_get (a : CommittingAction) (change : option StatusChange)
    (h h' : Holochain) (d : option EntryDef) (header : option Header) (entryHash : Hash)
    (o : GetOptions) (statusMask getMask : Z) :
  doCommit E a change h = (Returns (d, header, entryHash, None), h') ->
  absentFrom (chain h) entryHash ->
  OptLocal o = true ->
  exists entry hd,
    actionEntry E a = Returns entry /\ header = Some hd
    /\ ActionGet_Do E entangledGet
         (NewGetAction (mkGetReq entryHash statusMask getMask) (Some o)) h'
       = Returns (Some (RespGet (localResp E (OptGetMask o) entry (HType hd))), None).
Proof.
  intros Hcommit Habs Hlocal.
  destruct (doCommit_returns E a change h h' d header entryHash Hcommit)
    as (entry & hash & hd & Hentry & -> & -> & ->).
  exists entry, hd. split; [exact Hentry|]. split; [reflexivity|].
  apply (ActionGet_Do_local (mkGetReq (EntryLink hd) statusMask getMask) o _
           (mkChainLink hash hd entry) Hlocal).
  cbn [GetH chain withChain]. apply findEntry_app_new; [exact Habs|reflexivity].
Qed.

End GetDoProps.

Section GetLinkProps.
Context (E : Env).
Context (entangledGet : Holochain -> Hash -> Z -> Z -> option Response * option error).
Context (getLinkReply : Holochain -> LinkQuery -> LinkReply * option error).
Context (showGetReq : GetReq -> string).

Lemma loadLinks_step (h : Holochain) (l : TaggedHash) (rest done : list TaggedHash) :
  loadable E entangledGet h l ->
  loadLinks E entangledGet showGetReq h (l :: rest) done
  = loadLinks E entangledGet showGetReq h rest (done ++ [loadedLink E entangledGet h l]).
Proof.
  intros [Hhash Hget]. cbn [loadLinks]. unfold loadedLink, getOf in *.
  destruct (NewHash E (TH l)) as [hash herr]. cbn [snd fst] in *. subst herr. cbn [failed].
  unfold ActionGet_Do.
  cbn [NewGetAction getOptions getReq deref obind OptLocal GetH OptStatusMask OptGetMask].
  destruct (entangledGet h hash (StatusDefault E) 0) as [rsp gerr].
  destruct Hget as [Herr|(g & entry & s & [= -> ->] & Hentry & Hc)].
  - cbn [snd] in Herr. destruct gerr as [e|]; [|contradiction]. cbn [failed negb].
    destruct rsp as [[ | |g| | ]|]; reflexivity.
  - cbn [failed negb]. rewrite Hentry. unfold contentString. rewrite Hc. reflexivity.
Qed.

Lemma loadLinks_loadable (h : Holochain) (links : list TaggedHash) :
  Forall (loadable E entangledGet h) links ->
  forall rest done,
    loadLinks E entangledGet showGetReq h (links ++ rest) done
    = loadLinks E entangledGet showGetReq h rest
        (done ++ List.map (loadedLink E entangledGet h) links).
Proof.
  induction 1 as [|l links Hl _ IH]; intros rest done.
  - cbn [app List.map]. rewrite app_nil_r. reflexivity.
  - cbn [app List.map]. rewrite (loadLinks_step h l (links ++ rest) done Hl), IH.
    rewrite <- app_assoc. reflexivity.
Qed.

(** X18: [ActionGetLink.Do] panics without a query.  It returns the error
    of the send with a nil response, and [unexpected response type from
    SendGetLink: <type>] for a reply that is not a [*LinkQueryResp].  With
    such a reply it panics when the options are nil, and returns the reply
    as it is when [Load] is off or there are no links. *)
Theorem getlink_do_replies (q : LinkQuery) (options : option GetLinkOptions) (h : Holochain) :
  let a := NewGetLinkAction (Some q) options in
  ActionGetLink_Do E entangledGet getLinkReply showGetReq (NewGetLinkAction None options) h
  = (Panics nilDeref, h)
  /\ (forall reply err, getLinkReply h q = (reply, Some err) ->
        ActionGetLink_Do E entangledGet getLinkReply showGetReq a h
        = (Returns (None, Some err), askedLinks h q))
  /\ (forall t, getLinkReply h q = (ReplyOther t, None) ->
        ActionGetLink_Do E entangledGet getLinkReply showGetReq a h
        = (Returns (None, Some (ErrNew ("unexpected response type from SendGetLink: " +:+ t))),
           askedLinks h q))
  /\ (forall t, getLinkReply h q = (ReplyLinks t, None) ->
        (options = None ->
           ActionGetLink_Do E entangledGet getLinkReply showGetReq a h
           = (Panics nilDeref, askedLinks h q))
        /\ (forall o, options = Some o -> OptLoad o = false ->
              ActionGetLink_Do E entangledGet getLinkReply showGetReq a h
              = (Returns (Some t, None), askedLinks h q))
        /\ (forall o, options = Some o -> RespLinks t = [] ->
              ActionGetLink_Do E entangledGet getLinkReply showGetReq a h
              = (Returns (Some t, None), askedLinks h q))).
Proof.
  intros a. unfold ActionGetLink_Do, bind, lift, sendGetLink, ret, getNode.
  cbn [a NewGetLinkAction linkQuery getLinkOptions deref]. fold (askedLinks h q).
  split; [reflexivity|]. split; [|split].
  - intros reply err ->. reflexivity.
  - intros t ->. reflexivity.
  - intros t ->. cbn [failed negb]. split; [|split].
    + intros ->. reflexivity.
    + intros o -> Hload. cbn [deref]. rewrite Hload. reflexivity.
    + intros o -> Hnil. cbn [deref]. destruct (OptLoad o); [|reflexivity].
      rewrite Hnil. cbn [loadLinks fst snd]. destruct t as [ls]. cbn in Hnil. subst ls.
      reflexivity.
Qed.

(** X19: with [Load], [ActionGetLink.Do] fills each link with the content
    of its entry.  A get that fails is passed over silently, so that when
    every get fails the reply comes back unchanged with a nil error.  A
    hash that does not parse ends the loop: the error is returned along
    with the response, in which the links before it are loaded.  A get
    that answers without an entry makes it panic. *)
Theorem getlink_do_load (q : LinkQuery) (o : GetLinkOptions) (t : LinkQueryResp)
    (h : Holochain) :
  let a := NewGetLinkAction (Some q) (Some o) in
  let h1 := askedLinks h q in
  getLinkReply h q = (ReplyLinks t, None) ->
  OptLoad o = true ->
  (Forall (loadable E entangledGet h1) (RespLinks t) ->
     ActionGetLink_Do E entangledGet getLinkReply showGetReq a h
     = (Returns (Some (mkLinkQueryResp
                         (List.map (loadedLink E entangledGet h1) (RespLinks t))), None),
        h1))
  /\ (Forall (fun l => snd (NewHash E (TH l)) = None /\ snd (getOf E entangledGet h1 l) <> None)
        (RespLinks t) ->
      ActionGetLink_Do E entangledGet getLinkReply showGetReq a h
      = (Returns (Some t, None), h1))
  /\ (forall before l rest err,
        RespLinks t = before ++ l :: rest ->
        Forall (loadable E entangledGet h1) before ->
        snd (NewHash E (TH l)) = Some err ->
        ActionGetLink_Do E entangledGet getLinkReply showGetReq a h
        = (Returns (Some (mkLinkQueryResp
                            (List.map (loadedLink E entangledGet h1) before ++ l :: rest)),
                    Some err), h1))
  /\ (forall before l rest g,
        RespLinks t = before ++ l :: rest ->
        Forall (loadable E entangledGet h1) before ->
        snd (NewHash E (TH l)) = None ->
        getOf E entangledGet h1 l = (Some (RespGet g), None) ->
        RespEntry g = None ->
        ActionGetLink_Do E entangledGet getLinkReply showGetReq a h
        = (Panics ("Nil entry in GetLink.Do response to req: "
                   +:+ showGetReq (mkGetReq (fst (NewHash E (TH l))) (StatusDefault E) 0)),
           h1)).
Proof.
  intros a h1 Hreply Hload.
  assert (Hrun : ActionGetLink_Do E entangledGet getLinkReply showGetReq a h
                 = match loadLinks E entangledGet showGetReq h1 (RespLinks t) [] with
                   | Returns loaded =>
                     (Returns (Some (mkLinkQueryResp (fst loaded)), snd loaded), h1)
                   | Panics pm => (Panics pm, h1)
                   end).
  { unfold ActionGetLink_Do, bind, lift, sendGetLink, ret, getNode.
    cbn [a NewGetLinkAction linkQuery getLinkOptions deref]. fold (askedLinks h q).
    rewrite Hreply. cbn [failed negb]. rewrite Hload. fold h1.
    destruct (loadLinks E entangledGet showGetReq h1 (RespLinks t) []); reflexivity. }
  rewrite Hrun. split; [|split; [|split]].
  - intros Hall.
    pose proof (loadLinks_loadable h1 (RespLinks t) Hall [] []) as Hloop.
    rewrite app_nil_r in Hloop. rewrite Hloop. reflexivity.
  - intros Hall.
    assert (Hloadable : Forall (loadable E entangledGet h1) (RespLinks t)).
    { eapply Forall_impl; [exact Hall|]. intros l [Hh Hg]. split; [exact Hh|left; exact Hg]. }
    pose proof (loadLinks_loadable h1 (RespLinks t) Hloadable [] []) as Hloop.
    rewrite app_nil_r in Hloop. rewrite Hloop. cbn [loadLinks fst snd app].
    assert (Hsame : List.map (loadedLink E entangledGet h1) (RespLinks t) = RespLinks t).
    { clear Hloop Hloadable Hrun. induction Hall as [|l ls [_ Hg] _ IH]; [reflexivity|].
      cbn [List.map]. rewrite IH. f_equal. unfold loadedLink.
      destruct (getOf E entangledGet h1 l) as [rsp [e|]]; [|contradiction].
      destruct rsp as [[ | |g| | ]|]; reflexivity. }
    rewrite Hsame. destruct t; reflexivity.
  - intros before l rest err Hlinks Hall Hbad. rewrite Hlinks.
    rewrite (loadLinks_loadable h1 before Hall (l :: rest) []). cbn [loadLinks app].
    destruct (NewHash E (TH l)) as [hash herr]. cbn [snd] in Hbad. subst herr.
    reflexivity.
  - intros before l rest g Hlinks Hall Hhash Hget Hnil. rewrite Hlinks.
    rewrite (loadLinks_loadable h1 before Hall (l :: rest) []). cbn [loadLinks app].
    unfold getOf in Hget.
    destruct (NewHash E (TH l)) as [hash herr]. cbn [snd fst] in *. subst herr.
    cbn [failed]. unfold ActionGet_Do.
    cbn [NewGetAction getOptions getReq deref obind OptLocal GetH OptStatusMask OptGetMask].
    rewrite Hget. cbn [failed negb]. rewrite Hnil. reflexivity.
Qed.

End GetLinkProps.

(** ** From a message to its action *)

Section DispatchProps.
Context (msgTypeCode : MsgType -> Z).

(** X20: [MakeActionFromMessage] makes a send action for an
    [APP_MESSAGE], a put action for a [PUT_REQUEST], a get action for a
    [GET_REQUEST], a mod action for a [MOD_REQUEST], a del action for a
    [DEL_REQUEST], a link action for a [LINK_REQUEST], a get-link action
    for a [GETLINK_REQUEST], and no action for any other message type,
    for which the error is [message type <n> not in holochain-action
    protocol].  It returns no error exactly when the body is an [AppMsg],
    a [PutReq], a [GetReq], a [ModReq], a [DelReq], a [LinkReq] or a
    [LinkQuery] respectively, so that the assertion on the body in the
    receive handler of the action holds.  For a body of another type it
    returns the action together with an error that names the type of the
    body, the action and the type wanted. *)
Theorem MakeActionFromMessage_dispatch (msg : Message) :
  fst (MakeActionFromMessage msgTypeCode msg)
  = match MType msg with
    | APP_MESSAGE => Some ASend
    | PUT_REQUEST => Some APut
    | GET_REQUEST => Some AGet
    | MOD_REQUEST => Some AMod
    | DEL_REQUEST => Some ADel
    | LINK_REQUEST => Some ALink
    | GETLINK_REQUEST => Some AGetLink
    | VALIDATE_PUT_REQUEST | VALIDATE_MOD_REQUEST | VALIDATE_DEL_REQUEST
    | VALIDATE_LINK_REQUEST => None
    end
  /\ (snd (MakeActionFromMessage msgTypeCode msg) = None
      <-> (MType msg = APP_MESSAGE /\ bodyTypeName (MBody msg) = "holochain.AppMsg")
          \/ (MType msg = PUT_REQUEST /\ bodyTypeName (MBody msg) = "holochain.PutReq")
          \/ (MType msg = GET_REQUEST /\ bodyTypeName (MBody msg) = "holochain.GetReq")
          \/ (MType msg = MOD_REQUEST /\ bodyTypeName (MBody msg) = "holochain.ModReq")
          \/ (MType msg = DEL_REQUEST /\ bodyTypeName (MBody msg) = "holochain.DelReq")
          \/ (MType msg = LINK_REQUEST /\ bodyTypeName (MBody msg) = "holochain.LinkReq")
          \/ (MType msg = GETLINK_REQUEST
              /\ bodyTypeName (MBody msg) = "holochain.LinkQuery"))
  /\ (forall a, (forall t, MBody msg <> OtherBody t) ->
        MakeActionFromMessage msgTypeCode msg = (Some a, None) ->
        (a = APut /\ MType msg = PUT_REQUEST /\ exists H, MBody msg = PutReq H)
        \/ (a = AGet /\ MType msg = GET_REQUEST /\ exists req, MBody msg = GetReqBody req)
        \/ (a = AMod /\ MType msg = MOD_REQUEST /\ exists H N, MBody msg = ModReq H N)
        \/ (a = ADel /\ MType msg = DEL_REQUEST /\ exists H By, MBody msg = DelReq H By)
        \/ (a = ALink /\ MType msg = LINK_REQUEST
            /\ exists base l, MBody msg = LinkReq base l))
  /\ (fst (MakeActionFromMessage msgTypeCode msg) = None ->
      snd (MakeActionFromMessage msgTypeCode msg)
      = Some (ErrNew ("message type " +:+ showInt (msgTypeCode (MType msg))
                      +:+ " not in holochain-action protocol")))
  /\ (forall a,
        fst (MakeActionFromMessage msgTypeCode msg) = Some a ->
        snd (MakeActionFromMessage msgTypeCode msg) <> None ->
        exists want,
          MakeActionFromMessage msgTypeCode (mkMessage (MType msg) (From msg) (OtherBody want))
          = (Some a, None)
          /\ bodyTypeName (MBody msg) <> want
          /\ snd (MakeActionFromMessage msgTypeCode msg)
             = Some (ErrNew ("Unexpected request body type '" +:+ bodyTypeName (MBody msg)
                             +:+ "' in " +:+ actionName a +:+ " request, expecting "
                             +:+ want))).
Proof.
  split; [|split; [|split; [|split]]].
  - unfold MakeActionFromMessage.
    destruct (MType msg); cbn [actionOfType]; try reflexivity;
      destruct (negb _); reflexivity.
  - unfold MakeActionFromMessage.
    destruct (MType msg) eqn:Htype; cbn [actionOfType];
      try (cbn [snd]; split; [discriminate|]; intros Hrow; decompose [or and] Hrow;
           congruence);
      match goal with
      | |- context [String.eqb (bodyTypeName ?b) ?want] =>
        destruct (String.eqb_spec (bodyTypeName b) want) as [Hbody|Hbody]
      end; cbn [negb snd].
    all: try (split; [intros _; intuition congruence | reflexivity]).
    all: split; [discriminate|]; intros Hrow; decompose [or and] Hrow; congruence.
  - intros a Hknown Hrun. unfold MakeActionFromMessage in Hrun.
    destruct (MBody msg) as [H|req|H N|H By|base l|H|t] eqn:Hb;
      try (exfalso; exact (Hknown t eq_refl));
      destruct (MType msg) eqn:Htype; cbn in Hrun; try discriminate Hrun;
      injection Hrun as <-; naive_solver.
  - unfold MakeActionFromMessage.
    destruct (MType msg); cbn [actionOfType]; try (intros _; reflexivity);
      destruct (negb _); cbn [fst]; discriminate.
  - intros a Ha Herr. unfold MakeActionFromMessage in *. cbn [MType MBody].
    destruct (MType msg); cbn [actionOfType] in *; try discriminate Ha;
      match goal with
      | _ : context [String.eqb (bodyTypeName ?b) ?want] |- _ =>
        destruct (String.eqb_spec (bodyTypeName b) want) as [Hbody|Hbody]; cbn in Ha, Herr;
          [exfalso; apply Herr; reflexivity|];
          injection Ha as <-; exists want;
          split; [reflexivity|]; split; [exact Hbody|reflexivity]
      end.
Qed.

End DispatchProps.

(** ** The bootstrap client, further *)

Lemma append_nil (s : string) : "" +:+ s = s.
Proof. reflexivity. Qed.

Lemma append_cons (c : ascii) (a s : string) : String c a +:+ s = String c (a +:+ s).
Proof. reflexivity. Qed.

Lemma Split_nonempty (s : string) (sep : ascii) : Split s sep <> [].
Proof.
  destruct s as [|c rest]; cbn; [discriminate|].
  destruct (Ascii.eqb c sep); [discriminate|].
  destruct (Split rest sep); discriminate.
Qed.

Lemma Split_no_sep (s : string) (sep : ascii) :
  hasChar sep s = false -> Split s sep = [s].
Proof.
  induction s as [|c rest IH]; cbn; [reflexivity|].
  destruct (Ascii.eqb c sep); cbn; [discriminate|].
  intros Hrest. rewrite (IH Hrest). reflexivity.
Qed.

Lemma Split_app (a b : string) (sep : ascii) :
  hasChar sep a = false -> Split (a +:+ String sep b) sep = a :: Split b sep.
Proof.
  induction a as [|c rest IH]; rewrite ?append_nil, ?append_cons; cbn [Split hasChar].
  - rewrite Ascii.eqb_refl. reflexivity.
  - destruct (Ascii.eqb c sep); cbn [orb]; [discriminate|].
    intros Hrest. rewrite (IH Hrest). reflexivity.
Qed.

Lemma Split_snoc (a p : string) (sep : ascii) :
  hasChar sep p = false -> Split (a +:+ String sep p) sep = Split a sep ++ [p].
Proof.
  intros Hp. induction a as [|c rest IH]; rewrite ?append_nil, ?append_cons; cbn [Split].
  - rewrite Ascii.eqb_refl, (Split_no_sep p sep Hp). reflexivity.
  - rewrite IH. destruct (Ascii.eqb c sep); [reflexivity|].
    pose proof (Split_nonempty rest sep) as Hne.
    destruct (Split rest sep) as [|x xs]; [contradiction|reflexivity].
Qed.

Lemma Split_length (s : string) (sep : ascii) :
  length (Split s sep) = S (countChar sep s).
Proof.
  induction s as [|c rest IH]; cbn [Split countChar]; [reflexivity|].
  destruct (Ascii.eqb c sep); cbn [length]; [rewrite IH; reflexivity|].
  pose proof (Split_nonempty rest sep) as Hne.
  destruct (Split rest sep) as [|x xs]; [contradiction|exact IH].
Qed.

Lemma peerAddrText_of_return_addr (r : BSResp) (host port : string) :
  host <> "" -> hasChar colon host = false -> hasChar colon port = false ->
  ReturnAddr (Req r) = host +:+ String colon port ->
  peerAddrText r = "/ip4/" +:+ host +:+ "/tcp/" +:+ port.
Proof.
  intros Hhost Hh Hp Hret. unfold peerAddrText, peerHostPort. rewrite Hret.
  rewrite (Split_app host port colon Hh), (Split_no_sep port colon Hp).
  cbn [length Nat.eqb nth].
  destruct (String.eqb_spec (host +:+ String colon port) "") as [Hempty|_].
  { destruct host; discriminate. }
  cbn [negb]. apply String.eqb_neq in Hhost. rewrite Hhost. reflexivity.
Qed.

Lemma peerAddrText_of_remote (r : BSResp) (ip rport prefix port : string) :
  ReturnAddr (Req r) = "" ->
  hasChar colon ip = false -> Remote r = ip +:+ String colon rport ->
  hasChar slash port = false -> NodeAddr (Req r) = prefix +:+ String slash port ->
  peerAddrText r = "/ip4/" +:+ ip +:+ "/tcp/" +:+ port.
Proof.
  intros Hret Hip Hremote Hport Haddr. unfold peerAddrText, peerHostPort.
  rewrite Hret, Hremote, Haddr. cbn [String.eqb negb].
  rewrite (Split_app ip rport colon Hip), nth_last, (Split_snoc prefix port slash Hport),
    last_last.
  reflexivity.
Qed.

(** X21: the address [checkBSResponses] makes for a response is
    [/ip4/host/tcp/port] for a return address [host:port] with a host, is
    made of the host of [Remote] and the last segment of [NodeAddr] when
    there is no return address, and also when the return address has more
    than one colon. *)
Theorem peerAddrText_well_formed (r : BSResp) :
  (forall host port,
     host <> "" -> hasChar colon host = false -> hasChar colon port = false ->
     ReturnAddr (Req r) = host +:+ String colon port ->
     peerAddrText r = "/ip4/" +:+ host +:+ "/tcp/" +:+ port)
  /\ (forall ip rport prefix port,
        ReturnAddr (Req r) = "" ->
        hasChar colon ip = false -> Remote r = ip +:+ String colon rport ->
        hasChar slash port = false -> NodeAddr (Req r) = prefix +:+ String slash port ->
        peerAddrText r = "/ip4/" +:+ ip +:+ "/tcp/" +:+ port)
  /\ (forall a b c, ReturnAddr (Req r) = a +:+ String colon (b +:+ String colon c) ->
        peerAddrText r
        = "/ip4/" +:+ nth 0 (Split (Remote r) colon) ""
          +:+ "/tcp/" +:+ List.last (Split (NodeAddr (Req r)) slash) "").
Proof.
  split; [|split].
  - intros host port. apply peerAddrText_of_return_addr.
  - intros ip rport prefix port. apply peerAddrText_of_remote.
  - intros a b c Hret. unfold peerAddrText, peerHostPort. rewrite nth_last.
    assert (Hlen : (length (Split (ReturnAddr (Req r)) colon) =? 2)%nat = false).
    { rewrite Hret, Split_length. cbn [countChar].
      assert (Hc : forall x y, (1 <= countChar colon (x +:+ String colon y))%nat).
      { intros x y. induction x as [|ch x IH]; rewrite ?append_nil, ?append_cons;
          cbn [countChar]; [rewrite Ascii.eqb_refl|]; lia. }
      assert (Hc2 : forall x, (2 <= countChar colon (x +:+ String colon (b +:+ String colon c)))%nat).
      { intros x. induction x as [|ch x IH]; rewrite ?append_nil, ?append_cons;
          cbn [countChar]; [rewrite Ascii.eqb_refl; specialize (Hc b c)|]; lia. }
      specialize (Hc2 a). apply Nat.eqb_neq. lia. }
    rewrite Hlen. destruct (negb (String.eqb (ReturnAddr (Req r)) "")); reflexivity.
Qed.

Section BootstrapMore.
Context (E : Env).
Context (AddPeer : nat -> PeerInfo -> option error).

Lemma finish_idle (done : list nat) (err : option error) :
  finish AddPeer done [] err = ([], err).
Proof. induction done as [|i rest IH]; [reflexivity|exact IH]. Qed.

Lemma finish_origin (done : list nat) :
  forall (running : list (nat * PeerInfo)) (err : option error),
    (forall g, In g (fst (finish AddPeer done running err)) -> In g running)
    /\ (snd (finish AddPeer done running err) = err
        \/ exists g, In g running
                     /\ snd (finish AddPeer done running err) = AddPeer (fst g) (snd g)).
Proof.
  induction done as [|i rest IH]; intros running err.
  - cbn. split; [tauto|left; reflexivity].
  - cbn [finish].
    destruct (List.find (fun g => Nat.eqb (fst g) i) running) as [g|] eqn:Hfind.
    + apply List.find_some in Hfind as [Hin _].
      destruct (IH (List.filter (fun g => negb (Nat.eqb (fst g) i)) running)
                  (AddPeer (fst g) (snd g))) as [Hsub Herr].
      split.
      * intros g' Hg'. apply Hsub in Hg'. apply List.filter_In in Hg'. tauto.
      * right. destruct Herr as [-> | (g' & Hg' & ->)].
        -- exists g. split; [exact Hin|reflexivity].
        -- exists g'. apply List.filter_In in Hg'. split; [tauto|reflexivity].
    + apply IH.
Qed.

Lemma fromCall_app (pre rest : list BSResp) (err : option error) :
  fromCall E AddPeer pre err -> fromCall E AddPeer (pre ++ rest) err.
Proof.
  intros (i & r & Hi & ->). exists i, r. split; [|reflexivity].
  apply lookup_app_l_Some. exact Hi.
Qed.

Lemma finish_started (done : list nat) (pre : list BSResp)
    (running : list (nat * PeerInfo)) (err : option error) :
  started E pre running ->
  started E pre (fst (finish AddPeer done running err))
  /\ (snd (finish AddPeer done running err) = err
      \/ fromCall E AddPeer pre (snd (finish AddPeer done running err))).
Proof.
  intros Hstarted. destruct (finish_origin done running err) as [Hsub Herr]. split.
  - intros g Hg. apply Hstarted, Hsub, Hg.
  - destruct Herr as [Heq | (g & Hg & Heq)]; [left; exact Heq|right].
    destruct (Hstarted g Hg) as (r & Hr & Hp). exists (fst g), r.
    split; [exact Hr|]. rewrite Heq, Hp. reflexivity.
Qed.

Lemma checkBSLoop_error_origin (sched : Schedule) (my : string) (nodes : list BSResp) :
  forall (pre : list BSResp) (running : list (nat * PeerInfo)) (err : option error)
         (h : Holochain) (err' : option error),
    started E pre running ->
    fst (checkBSLoop E AddPeer sched my nodes (length pre) running err h) = Returns err' ->
    match last nodes with
    | None => err' = err \/ fromCall E AddPeer pre err'
    | Some r =>
      err' = snd (IDB58Decode E (NodeID (Req r)))
      \/ err' = snd (NewMultiaddr E (peerAddrText r))
      \/ fromCall E AddPeer (pre ++ nodes) err'
    end.
Proof.
  induction nodes as [|r rest IH]; intros pre running err h err' Hstarted Hrun.
  - cbn in Hrun. injection Hrun as <-. cbn [last].
    apply (finish_started (beforeReturn sched) pre running err Hstarted).
  - assert (Hnext : forall running1 err1 h1,
              started E (pre ++ [r]) running1 ->
              (err1 = snd (IDB58Decode E (NodeID (Req r)))
               \/ err1 = snd (NewMultiaddr E (peerAddrText r))
               \/ fromCall E AddPeer pre err1) ->
              fst (checkBSLoop E AddPeer sched my rest (S (length pre)) running1 err1 h1)
              = Returns err' ->
              match last (r :: rest) with
              | None => err' = err \/ fromCall E AddPeer pre err'
              | Some r0 =>
                err' = snd (IDB58Decode E (NodeID (Req r0)))
                \/ err' = snd (NewMultiaddr E (peerAddrText r0))
                \/ fromCall E AddPeer (pre ++ r :: rest) err'
              end).
    { intros running1 err1 h1 Hstarted1 Herr1 Hrun1.
      replace (S (length pre)) with (length (pre ++ [r])) in Hrun1
        by (rewrite length_app; cbn; lia).
      pose proof (IH (pre ++ [r]) running1 err1 h1 err' Hstarted1 Hrun1) as Hrest.
      rewrite <- app_assoc in Hrest. cbn [app] in Hrest.
      destruct rest as [|r1 rest1].
      - cbn [last] in *. destruct Hrest as [-> | Hcall].
        + destruct Herr1 as [H1|[H1|H1]]; [tauto|tauto|].
          right. right. apply fromCall_app. exact H1.
        + right. right. exact Hcall.
      - change (last (r :: r1 :: rest1)) with (last (r1 :: rest1)).
        destruct (last (r1 :: rest1)) eqn:Hlast; [exact Hrest|].
        apply last_None in Hlast. discriminate. }
    assert (Hkeep : forall running1, started E pre running1 -> started E (pre ++ [r]) running1).
    { intros running1 Hs g Hg. destruct (Hs g Hg) as (r0 & Hr0 & Hp). exists r0.
      split; [apply lookup_app_l_Some; exact Hr0|exact Hp]. }
    cbn [checkBSLoop] in Hrun.
    destruct (IDB58Decode E (NodeID (Req r))) as [id e1] eqn:Hid. cbn [snd] in Hnext.
    destruct (finish_started (afterDecode sched (length pre)) pre running e1 Hstarted)
      as [Hs1 He1].
    destruct (finish AddPeer (afterDecode sched (length pre)) running e1) as [running1 err1].
    cbn [fst snd] in Hs1, He1.
    destruct (negb (failed err1)).
    2:{ apply (Hnext running1 err1 h (Hkeep _ Hs1)); [|exact Hrun].
        destruct He1 as [->|Hc]; [left; reflexivity|right; right; exact Hc]. }
    destruct (NewMultiaddr E (peerAddrText r)) as [addr e2] eqn:Haddr. cbn [snd] in Hnext.
    destruct (finish_started (afterParse sched (length pre)) pre running1 e2 Hs1)
      as [Hs2 He2].
    destruct (finish AddPeer (afterParse sched (length pre)) running1 e2) as [running2 err2].
    cbn [fst snd] in Hs2, He2.
    assert (Herr2 : err2 = e1 \/ err2 = e2 \/ fromCall E AddPeer pre err2).
    { destruct He2 as [->|Hc]; [right; left; reflexivity|right; right; exact Hc]. }
    destruct (negb (failed err2)); [|exact (Hnext running2 err2 h (Hkeep _ Hs2) Herr2 Hrun)].
    destruct (negb (String.eqb (NodeID (Req r)) my));
      [|exact (Hnext running2 err2 h (Hkeep _ Hs2) Herr2 Hrun)].
    unfold bind, goAddPeer in Hrun.
    apply (Hnext (running2 ++ [(length pre, mkPeerInfo id [addr])]) err2
             (withAdded h (added h ++ [mkPeerInfo id [addr]]))); [|exact Herr2|exact Hrun].
    intros g Hg. apply in_app_or in Hg as [Hg|[<-|[]]].
    + apply (Hkeep _ Hs2 g Hg).
    + exists r. cbn [fst snd]. split.
      * rewrite lookup_app_r by lia. rewrite Nat.sub_diag. reflexivity.
      * unfold offered. rewrite Hid, Haddr. reflexivity.
Qed.

Lemma checkBSLoop_error (sched : Schedule) (my : string) (nodes : list BSResp) (r : BSResp) :
  quiet sched -> beforeReturn sched = [] ->
  forall i running err h,
    fst (checkBSLoop E AddPeer sched my (nodes ++ [r]) i running err h)
    = Returns (responseError E r).
Proof.
  intros Hquiet Hreturn.
  induction nodes as [|x rest IH]; intros i running err h.
  - cbn [app checkBSLoop]. unfold responseError. destruct (Hquiet i) as [-> ->].
    rewrite Hreturn.
    destruct (IDB58Decode E (NodeID (Req r))) as [id [e1|]]; cbn [finish failed negb];
      [reflexivity|].
    destruct (NewMultiaddr E (peerAddrText r)) as [addr [e2|]]; cbn [finish failed negb snd];
      [reflexivity|].
    destruct (negb (String.eqb (NodeID (Req r)) my)); reflexivity.
  - cbn [app checkBSLoop]. destruct (Hquiet i) as [-> ->].
    destruct (IDB58Decode E (NodeID (Req x))) as [id [e1|]]; cbn [finish failed negb];
      [apply IH|].
    destruct (NewMultiaddr E (peerAddrText x)) as [addr [e2|]]; cbn [finish failed negb];
      [apply IH|].
    destruct (negb (String.eqb (NodeID (Req x)) my)); [|apply IH].
    unfold bind, goAddPeer. apply IH.
Qed.

Lemma find_last_started (running : list (nat * PeerInfo)) (k : nat) (p : PeerInfo) :
  Forall (fun g => (fst g < k)%nat) running ->
  List.find (fun g => Nat.eqb (fst g) k) (running ++ [(k, p)]) = Some (k, p).
Proof.
  induction 1 as [|g running Hg _ IH]; cbn [app List.find fst].
  - rewrite Nat.eqb_refl. reflexivity.
  - destruct (Nat.eqb_spec (fst g) k) as [Heq|_]; [lia|exact IH].
Qed.

Lemma checkBSLoop_error_written (sched : Schedule) (my : string) (nodes : list BSResp)
    (r : BSResp) (id : PeerID) (addr : Multiaddr) (k : nat) :
  quiet sched -> beforeReturn sched = [k] ->
  NodeID (Req r) <> my ->
  IDB58Decode E (NodeID (Req r)) = (id, None) ->
  NewMultiaddr E (peerAddrText r) = (addr, None) ->
  forall i running err h,
    (i + length nodes = k)%nat ->
    Forall (fun g => (fst g < i)%nat) running ->
    fst (checkBSLoop E AddPeer sched my (nodes ++ [r]) i running err h)
    = Returns (AddPeer k (mkPeerInfo id [addr])).
Proof.
  intros Hquiet Hreturn Hother Hid Haddr.
  induction nodes as [|x rest IH]; intros i running err h Hk Hrunning.
  - cbn [app checkBSLoop]. destruct (Hquiet i) as [-> ->].
    rewrite Hid. cbn [finish failed negb]. rewrite Haddr. cbn [finish failed negb].
    apply String.eqb_neq in Hother. rewrite Hother. cbn [negb].
    unfold bind, goAddPeer. cbn [checkBSLoop ret fst snd]. rewrite Hreturn.
    cbn [length] in Hk. replace i with k in * by lia.
    cbn [finish]. rewrite (find_last_started running k _ Hrunning). reflexivity.
  - cbn [app checkBSLoop]. destruct (Hquiet i) as [-> ->]. cbn [length] in Hk.
    assert (Hnext : Forall (fun g => (fst g < S i)%nat) running).
    { eapply Forall_impl; [exact Hrunning|]. cbn. intros g Hg. lia. }
    destruct (IDB58Decode E (NodeID (Req x))) as [idx [e1|]]; cbn [finish failed negb];
      [apply IH; [lia|exact Hnext]|].
    destruct (NewMultiaddr E (peerAddrText x)) as [addrx [e2|]]; cbn [finish failed negb];
      [apply IH; [lia|exact Hnext]|].
    destruct (negb (String.eqb (NodeID (Req x)) my)); [|apply IH; [lia|exact Hnext]].
    unfold bind, goAddPeer. apply IH; [lia|].
    apply Forall_app. split; [exact Hnext|]. constructor; [cbn; lia|constructor].
Qed.

(** X22: [checkBSResponses] returns no error for no responses.  Otherwise
    the error it returns is never the error of decoding or parsing an
    earlier response: it is the error of decoding or of parsing the last
    response, or the result that one of the calls of [h.AddPeer] assigned
    to [err] from its goroutine.  When no call assigns to [err] before the
    function returns, it is the error of the last response; when the call
    for the last response does so after the loop, it is the result of that
    call, whatever the responses were. *)
Theorem checkBSResponses_last_error (sched : Schedule) (nodes : list BSResp) (r : BSResp)
    (h : Holochain) :
  checkBSResponses E AddPeer sched [] h = (Returns None, h)
  /\ (forall err,
        fst (checkBSResponses E AddPeer sched (nodes ++ [r]) h) = Returns err ->
        err = snd (IDB58Decode E (NodeID (Req r)))
        \/ err = snd (NewMultiaddr E (peerAddrText r))
        \/ fromCall E AddPeer (nodes ++ [r]) err)
  /\ (quiet sched -> beforeReturn sched = [] ->
      fst (checkBSResponses E AddPeer sched (nodes ++ [r]) h) = Returns (responseError E r))
  /\ (forall id addr,
        quiet sched -> beforeReturn sched = [length nodes] ->
        NodeID (Req r) <> nodeIDStr h ->
        IDB58Decode E (NodeID (Req r)) = (id, None) ->
        NewMultiaddr E (peerAddrText r) = (addr, None) ->
        fst (checkBSResponses E AddPeer sched (nodes ++ [r]) h)
        = Returns (AddPeer (length nodes) (mkPeerInfo id [addr]))).
Proof.
  unfold checkBSResponses, bind, getNode. split; [|split; [|split]].
  - cbn [checkBSLoop ret]. rewrite finish_idle. reflexivity.
  - intros err Hrun.
    pose proof (checkBSLoop_error_origin sched (nodeIDStr h) (nodes ++ [r]) [] [] None h err
                  (fun g (Hg : In g []) => False_ind _ Hg) Hrun) as Horigin.
    rewrite last_snoc in Horigin. exact Horigin.
  - intros Hquiet Hreturn. apply checkBSLoop_error; assumption.
  - intros id addr Hquiet Hreturn Hother Hid Haddr.
    apply (checkBSLoop_error_written sched (nodeIDStr h) nodes r id addr (length nodes));
      try assumption; [reflexivity|constructor].
Qed.

End BootstrapMore.

Section BootstrapClientProps.
Context (E : Env).
Context (AddPeer : nat -> PeerInfo -> option error).
Context (httpGet : string -> bytes * option error).
Context (ReadAll : bytes -> bytes * option error).
Context (httpPost : string -> string -> bytes -> option error).
Context (jsonUnmarshalNodes : bytes -> list BSResp * option error).
Context (jsonMarshalReq : BSReq -> bytes * option error).
Context (Getenv : string -> string).

(** X23: [BSget] fails with [Node hasn't been initialized yet.] while the
    node is nil, does nothing when no bootstrap server is configured, and
    returns the error of the request, of reading the body or of decoding
    it with the node unchanged; otherwise it asks
    [http://<server>/<dna>] and hands the responses to
    [checkBSResponses], which, when no call of [h.AddPeer] assigns to
    [err] between an assignment of the loop and its test, adds the peers
    discovered. *)
Theorem BSget_outcome (sched : Schedule) (cfg : BootstrapSetup) (h : Holochain) :
  (nodeAddr cfg = None ->
     BSget E AddPeer httpGet ReadAll jsonUnmarshalNodes sched cfg h
     = (Returns (Some notInitialized), h))
  /\ (nodeAddr cfg <> None -> BootstrapServer cfg = "" ->
        BSget E AddPeer httpGet ReadAll jsonUnmarshalNodes sched cfg h = (Returns None, h))
  /\ (nodeAddr cfg <> None -> BootstrapServer cfg <> "" ->
        (forall body err, httpGet (bootstrapURL cfg) = (body, Some err) ->
           BSget E AddPeer httpGet ReadAll jsonUnmarshalNodes sched cfg h
           = (Returns (Some err), h))
        /\ (forall body b err, httpGet (bootstrapURL cfg) = (body, None) ->
              ReadAll body = (b, Some err) ->
              BSget E AddPeer httpGet ReadAll jsonUnmarshalNodes sched cfg h
              = (Returns (Some err), h))
        /\ (forall body b nodes err, httpGet (bootstrapURL cfg) = (body, None) ->
              ReadAll body = (b, None) -> jsonUnmarshalNodes b = (nodes, Some err) ->
              BSget E AddPeer httpGet ReadAll jsonUnmarshalNodes sched cfg h
              = (Returns (Some err), h))
        /\ (forall body b nodes, httpGet (bootstrapURL cfg) = (body, None) ->
              ReadAll body = (b, None) -> jsonUnmarshalNodes b = (nodes, None) ->
              BSget E AddPeer httpGet ReadAll jsonUnmarshalNodes sched cfg h
              = checkBSResponses E AddPeer sched nodes h
              /\ (quiet sched ->
                  snd (BSget E AddPeer httpGet ReadAll jsonUnmarshalNodes sched cfg h)
                  = withAdded h (added h ++ flat_map (discovered E (nodeIDStr h)) nodes)))).
Proof.
  unfold BSget, bootstrapURL. split; [|split; [|split; [|split; [|split]]]].
  - intros ->. reflexivity.
  - intros Hnode ->. destruct (nodeAddr cfg); [reflexivity|contradiction].
  - intros body err Hget. destruct (nodeAddr cfg); [|contradiction].
    apply String.eqb_neq in H0. rewrite H0, Hget. reflexivity.
  - intros body b err Hget Hread. destruct (nodeAddr cfg); [|contradiction].
    apply String.eqb_neq in H0. rewrite H0, Hget. cbn [failed negb]. rewrite Hread.
    reflexivity.
  - intros body b nodes err Hget Hread Hjson. destruct (nodeAddr cfg); [|contradiction].
    apply String.eqb_neq in H0. rewrite H0, Hget. cbn [failed negb]. rewrite Hread.
    cbn [failed negb]. rewrite Hjson. reflexivity.
  - intros body b nodes Hget Hread Hjson. destruct (nodeAddr cfg); [|contradiction].
    apply String.eqb_neq in H0. rewrite H0, Hget. cbn [failed negb]. rewrite Hread.
    cbn [failed negb]. rewrite Hjson. cbn [failed negb]. split; [reflexivity|].
    intros Hquiet. unfold checkBSResponses, bind, getNode.
    destruct (checkBSLoop_adds E AddPeer sched (nodeIDStr h) nodes Hquiet 0%nat [] None h)
      as [err Hrun].
    rewrite Hrun. reflexivity.
Qed.

(** X24: [BSpost] posts its request as JSON to
    [http://<server>/<dna>/<node id>]; a response that carries this
    request is read back by [checkBSResponses] as the address advertised
    in [HCBOOTSTRAP_RETURN_ADDR] when it is [host:port], and otherwise as
    the host the server saw with the port of the node's own address. *)
Theorem bootstrap_round_trip (cfg : BootstrapSetup) (addr : Multiaddr) (h : Holochain)
    (b : bytes) (remote : string) (seen : Z) :
  nodeAddr cfg = Some addr ->
  jsonMarshalReq (bsRequest Getenv addr h) = (b, None) ->
  let posted := bsRequest Getenv addr h in
  BSpost httpPost jsonMarshalReq Getenv cfg h
  = httpPost ("http://" +:+ BootstrapServer cfg +:+ "/" +:+ DNAHash cfg +:+ "/" +:+ nodeIDStr h)
      "application/json" b
  /\ NodeID posted = nodeIDStr h
  /\ (forall host port,
        host <> "" -> hasChar colon host = false -> hasChar colon port = false ->
        Getenv "HCBOOTSTRAP_RETURN_ADDR" = host +:+ String colon port ->
        peerAddrText (mkBSResp posted remote seen) = "/ip4/" +:+ host +:+ "/tcp/" +:+ port)
  /\ (forall ip rport prefix port,
        Getenv "HCBOOTSTRAP_RETURN_ADDR" = "" ->
        hasChar colon ip = false -> remote = ip +:+ String colon rport ->
        hasChar slash port = false -> addr = prefix +:+ String slash port ->
        peerAddrText (mkBSResp posted remote seen) = "/ip4/" +:+ ip +:+ "/tcp/" +:+ port).
Proof.
  intros Hnode Hmarshal posted. split; [|split; [|split]].
  - unfold BSpost. rewrite Hnode. fold posted. subst posted. rewrite Hmarshal. reflexivity.
  - reflexivity.
  - intros host port Hhost Hh Hp Henv.
    apply peerAddrText_of_return_addr; try assumption.
  - intros ip rport prefix port Henv Hip Hremote Hport Haddr.
    apply (peerAddrText_of_remote _ ip rport prefix port); try assumption.
Qed.

End BootstrapClientProps.

(** ** Further runs of the example application *)

(** The commit of the post [hello] on the empty node appends its link. *)
Lemma doCommit_success_witness :
  exists entry l hash hd,
    actionEntry env (CCommit (post "hello")) = Returns entry
    /\ PrepareHeader env (chain node) (now env) (AppEntryType "post") entry (agentKey node) None
       = (l, hash, Some hd, None)
    /\ ValidateAction env node (VCommit (post "hello")) (AppEntryType "post") None [nodeID node]
       = Returns (Some postDef, None)
    /\ Some (postHeader "hello") = Some hd /\ "Qmhello" = EntryLink hd
    /\ (forall link, In link (chain node) -> LinkHeaderHash link <> hash)
    /\ withChain node (chainWith "hello")
       = withChain node (chain node ++ [mkChainLink hash hd entry]).
Proof.
  exact (doCommit_success env (CCommit (post "hello")) None node
           (withChain node (chainWith "hello")) (Some postDef) (Some (postHeader "hello"))
           "Qmhello" eq_refl).
Defined.

(** The application rejects [badger]: [ActionCommit.Do] returns the error
    and the node is as it was. *)
Lemma failed_commit_changes_nothing_witness :
  ActionCommit_Do env (post "badger") node
  = (Returns (None, Some (ErrNew "Invalid entry: badger")), node).
Proof.
  destruct (failed_commit_changes_nothing env node) as (_ & _ & Hcommit & _).
  exact (Hcommit (post "badger") (Some postDef) (Some (postHeader "badger")) ""
           (ErrNew "Invalid entry: badger") eq_refl).
Defined.

(** Committing a key entry panics, and the chain has the entry. *)
Lemma commit_system_type_panics_witness :
  ActionCommit_Do env keyEntry node
  = (Panics nilDeref,
     withChain node
       [mkChainLink "QmHdrpubkey" (mkHeader KeyEntryType 1500000000 "" "Qmpubkey" "" "key" None)
          (commitEntry keyEntry)]).
Proof.
  exact (commit_system_type_panics env keyEntry node 0 "QmHdrpubkey"
           (mkHeader KeyEntryType 1500000000 "" "Qmpubkey" "" "key" None)
           eq_refl eq_refl eq_refl).
Defined.

(** Replacing the post [hello] by [howdy] sends the put of [Qmhowdy] and
    then the mod of [Qmhello]. *)
Lemma mod_publishes_witness :
  fst (ActionMod_Do env modHello nodeWithHello) = Returns (Some (RespHash "Qmhowdy"), None)
  /\ sent (snd (ActionMod_Do env modHello nodeWithHello))
     = [putRequest "Qmhowdy"; modRequest "Qmhello" "Qmhowdy"].
Proof.
  destruct (mod_publishes env modHello nodeWithHello
              (snd (doCommit env (CMod modHello)
                      (Some (mkStatusChange (ModAction env) (replaces modHello))) nodeWithHello))
              postDef
              (Some (mkHeader (AppEntryType "post") 1500000000 "" "Qmhowdy" "" "key"
                       (Some (mkStatusChange "m" "Qmhello"))))
              "Qmhowdy" eq_refl) as [Hpublic _].
  rewrite (Hpublic eq_refl). split; reflexivity.
Defined.

(** Deleting the post [hello] sends the del of [Qmhello]. *)
Lemma del_publishes_witness :
  fst (ActionDel_Do env delHello nodeWithHello)
  = Returns (Some (RespHash "QmQmhello bye"), None)
  /\ sent (snd (ActionDel_Do env delHello nodeWithHello))
     = [delRequest "Qmhello" "QmQmhello bye"].
Proof.
  destruct (del_publishes env delHello nodeWithHello
              (snd (doCommit env (CDel delHello)
                      (Some (mkStatusChange (DelAction env) (DelHash (delEntry delHello))))
                      nodeWithHello))
              postDef
              (Some (mkHeader (AppEntryType "post") 1500000000 "" "QmQmhello bye" "" "key"
                       (Some (mkStatusChange "d" "Qmhello"))))
              "QmQmhello bye" eq_refl) as [Hpublic _].
  rewrite (Hpublic eq_refl). split; reflexivity.
Defined.

(** [QmAlice] has no answer for [Qmunknown]: nothing is stored, and the
    reply is [queued] with the error of the send. *)
Lemma put_receive_unanswered_witness :
  ActionPut_Receive env (fromAlice PUT_REQUEST (PutReq "Qmunknown")) node
  = (Returns (queued, Some (ErrNew "no response")),
     asked node "QmAlice" VALIDATE_PUT_REQUEST "Qmunknown").
Proof.
  assert (Hcase : Some (ErrNew "no response") <> None
                  \/ forall resp, @None Response <> Some (RespValidate resp)).
  { left. discriminate. }
  destruct (put_receive_unanswered env (fromAlice PUT_REQUEST (PutReq "Qmunknown"))
              "Qmunknown" node None (Some (ErrNew "no response")) eq_refl eq_refl Hcase)
    as [Hrun _].
  exact Hrun.
Defined.

(** The deletion of [Qmhello], which the node has in its chain, marks the
    record as deleted; a deletion entry that names a hash the chain does
    not have is refused and nothing is recorded. *)
Lemma del_receive_outcome_witness :
  fst (ActionDel_Receive env2 (fromAlice DEL_REQUEST (DelReq "Qmhello" "QmDel")) nodeWithHello)
  = Returns (queued, None)
  /\ records (dht (snd (ActionDel_Receive env2
                         (fromAlice DEL_REQUEST (DelReq "Qmhello" "QmDel")) nodeWithHello)))
     !! "Qmhello"
     = Some (mkDHTRecord (AppEntryType "post") "hello" ["QmBob"] StatusDeleted None)
  /\ ActionDel_Receive env2 (fromAlice DEL_REQUEST (DelReq "Qmhello" "Qmhowdy")) nodeWithHello
     = (Returns (queued, Some ErrHashNotFound),
        asked nodeWithHello "QmAlice" VALIDATE_DEL_REQUEST "Qmhowdy").
Proof.
  destruct (del_receive_outcome env2 (fromAlice DEL_REQUEST (DelReq "Qmhello" "QmDel"))
              "Qmhello" "QmDel" nodeWithHello deletionAnswer "Qmhello bye"
              (mkDelEntry "Qmhello" "bye") (Some postDef) None
              eq_refl eq_refl eq_refl eq_refl eq_refl eq_refl) as [Hok _].
  destruct (del_receive_outcome env2 (fromAlice DEL_REQUEST (DelReq "Qmhello" "Qmhowdy"))
              "Qmhello" "Qmhowdy" nodeWithHello (postAnswer "howdy") "howdy"
              (mkDelEntry "howdy" "") (Some postDef) (Some ErrHashNotFound)
              eq_refl eq_refl eq_refl eq_refl eq_refl eq_refl) as [_ Hbad].
  rewrite (Hok eq_refl). split; [reflexivity|]. split; [reflexivity|].
  exact (Hbad _ eq_refl).
Defined.

(** Of the three links of [rating], the two on [QmBase1] are recorded on
    the node that holds [QmBase1], and the one on [QmBase2] is not. *)
Lemma link_receive_outcome_witness :
  fst (ActionLink_Receive env2 (fromAlice LINK_REQUEST (LinkReq "QmBase1" ratingHash))
         nodeWithBase)
  = Returns (queued, None)
  /\ linkIndex (dht (snd (ActionLink_Receive env2
                           (fromAlice LINK_REQUEST (LinkReq "QmBase1" ratingHash))
                           nodeWithBase)))
     !! "QmBase1"
     = Some [mkLinkRecord "QmPost1" "likes" "QmAlice" 1;
             mkLinkRecord "QmPost3" "likes" "QmAlice" 1]
  /\ linkIndex (dht (snd (ActionLink_Receive env2
                           (fromAlice LINK_REQUEST (LinkReq "QmBase1" ratingHash))
                           nodeWithBase)))
     !! "QmBase2" = None.
Proof.
  destruct (link_receive_outcome env2 (fromAlice LINK_REQUEST (LinkReq "QmBase1" ratingHash))
              "QmBase1" ratingHash nodeWithBase ratingAnswer ratingJSON
              (mkLinksEntry ratingLinks) (Some ratingDef) None
              eq_refl eq_refl eq_refl eq_refl eq_refl eq_refl) as [Hok _].
  rewrite (Hok eq_refl). split; [reflexivity|]. split; reflexivity.
Defined.

(** The get of [Qmhello] reports the source of the record; on a node that
    does not hold it, the response comes with [ErrHashNotFound] and no
    entry. *)
Lemma get_receive_edges_witness :
  (forall resp err',
     ActionGet_Receive env nodeWithHello getHello = Returns (Some (RespGet resp), err') ->
     RespSources resp = ["QmBob"])
  /\ exists resp,
       ActionGet_Receive env node getHello = Returns (Some (RespGet resp), Some ErrHashNotFound)
       /\ RespEntry resp = None.
Proof.
  destruct (get_receive_edges env nodeWithHello getHello (mkGetReq "Qmhello" 0 0)
              "hello" (AppEntryType "post") ["QmBob"] 1 None eq_refl eq_refl)
    as (Hsources & _).
  destruct (get_receive_edges env node getHello (mkGetReq "Qmhello" 0 0)
              "" noEntryType [] 0 (Some ErrHashNotFound) eq_refl eq_refl)
    as (_ & Hfailed & _).
  split; [exact Hsources | exact (Hfailed _ eq_refl)].
Defined.

(** The node justifies its post [hello] with the entry and its header, and
    refuses to justify it as a links entry. *)
Lemma GetValidationResponse_found_witness :
  GetValidationResponse env nodeWithHello (VPut (NewPutAction (AppEntryType "post") None None))
    "Qmhello"
  = Returns (mkValidateResponse (AppEntryType "post") (mkGobEntry (ContentString "hello"))
               (postHeader "hello") "", None)
  /\ GetValidationResponse env nodeWithHello
       (VLink (NewLinkAction (AppEntryType "rating") ratingLinks)) "Qmhello"
     = Returns (mkValidateResponse (AppEntryType "post") (mkGobEntry (ContentString "hello"))
                  (postHeader "hello") "",
                Some (ErrNew "hash not of a linking entry")).
Proof.
  destruct (GetValidationResponse_found env nodeWithHello
              (VPut (NewPutAction (AppEntryType "post") None None)) "Qmhello"
              (mkChainLink "QmHdrhello" (postHeader "hello")
                 (Some (mkGobEntry (ContentString "hello"))))
              (mkGobEntry (ContentString "hello")) eq_refl eq_refl) as (_ & _ & _ & Hpackage).
  destruct (GetValidationResponse_found env nodeWithHello
              (VLink (NewLinkAction (AppEntryType "rating") ratingLinks)) "Qmhello"
              (mkChainLink "QmHdrhello" (postHeader "hello")
                 (Some (mkGobEntry (ContentString "hello"))))
              (mkGobEntry (ContentString "hello")) eq_refl eq_refl) as (_ & _ & Hlink & _).
  split.
  - exact (Hpackage "post" "blog" (Some postDef) ribosome eq_refl eq_refl eq_refl eq_refl).
  - exact (Hlink "post" _ "blog" postDef eq_refl eq_refl eq_refl ltac:(discriminate)).
Defined.

(** After the commit of [hello], a local get of [Qmhello] with both bits
    of the mask answers with the post and its type. *)
Lemma commit_then_local_get_witness :
  exists entry hd,
    actionEntry env (CCommit (post "hello")) = Returns entry
    /\ Some (postHeader "hello") = Some hd
    /\ ActionGet_Do env entangled
         (NewGetAction (mkGetReq "Qmhello" 0 0) (Some (mkGetOptions 0 3 true)))
         (withChain node (chainWith "hello"))
       = Returns (Some (RespGet (localResp env 3 entry (HType hd))), None).
Proof.
  exact (commit_then_local_get env entangled (CCommit (post "hello")) None node
           (withChain node (chainWith "hello")) (Some postDef) (Some (postHeader "hello"))
           "Qmhello" (mkGetOptions 0 3 true) 0 0 eq_refl
           (fun l (Hin : In l []) => False_ind _ Hin) eq_refl).
Defined.

(** The links on [QmBase1] come back with the content of [Qmhello] and
    without a word about [Qmgone]; on [QmBase2] the loop ends at the link
    that is no hash, with the first link loaded; on [QmBase3] the get
    answers without an entry and the action panics. *)
Lemma getlink_do_load_witness :
  ActionGetLink_Do env entangled linkReplies showReq (likes "QmBase1") node
  = (Returns (Some (mkLinkQueryResp [mkTaggedHash "Qmhello" "hello"; mkTaggedHash "Qmgone" ""]),
              None),
     askedLinks node (mkLinkQuery "QmBase1" "likes" 0))
  /\ ActionGetLink_Do env entangled linkReplies showReq (likes "QmBase2") node
     = (Returns (Some (mkLinkQueryResp [mkTaggedHash "Qmhello" "hello";
                                        mkTaggedHash "nonsense" "";
                                        mkTaggedHash "Qmhello" ""]),
                 Some (ErrNew "invalid hash")),
        askedLinks node (mkLinkQuery "QmBase2" "likes" 0))
  /\ ActionGetLink_Do env entangled linkReplies showReq (likes "QmBase3") node
     = (Panics "Nil entry in GetLink.Do response to req: {Qmempty 0 0}",
        askedLinks node (mkLinkQuery "QmBase3" "likes" 0)).
Proof.
  assert (Hhello : forall h, loadable env entangled h (mkTaggedHash "Qmhello" "")).
  { intros h. split; [reflexivity|]. right.
    exists (mkGetResp (Some (mkGobEntry (ContentString "hello"))) (AppEntryType "post")
              ["QmBob"] ""), (mkGobEntry (ContentString "hello")), "hello".
    repeat split. }
  assert (Hgone : forall h, loadable env entangled h (mkTaggedHash "Qmgone" "")).
  { intros h. split; [reflexivity|]. left. discriminate. }
  destruct (getlink_do_load env entangled linkReplies showReq
              (mkLinkQuery "QmBase1" "likes" 0) (mkGetLinkOptions true 0)
              (mkLinkQueryResp [mkTaggedHash "Qmhello" ""; mkTaggedHash "Qmgone" ""]) node
              eq_refl eq_refl) as (Hall & _).
  destruct (getlink_do_load env entangled linkReplies showReq
              (mkLinkQuery "QmBase2" "likes" 0) (mkGetLinkOptions true 0)
              (mkLinkQueryResp [mkTaggedHash "Qmhello" ""; mkTaggedHash "nonsense" "";
                                mkTaggedHash "Qmhello" ""]) node
              eq_refl eq_refl) as (_ & _ & Hbad & _).
  destruct (getlink_do_load env entangled linkReplies showReq
              (mkLinkQuery "QmBase3" "likes" 0) (mkGetLinkOptions true 0)
              (mkLinkQueryResp [mkTaggedHash "Qmempty" ""]) node
              eq_refl eq_refl) as (_ & _ & _ & Hnil).
  split; [|split].
  - apply Hall. cbn [RespLinks].
    constructor; [apply Hhello|]. constructor; [apply Hgone|]. constructor.
  - apply (Hbad [mkTaggedHash "Qmhello" ""] (mkTaggedHash "nonsense" "")
             [mkTaggedHash "Qmhello" ""] (ErrNew "invalid hash") eq_refl); [|reflexivity].
    constructor; [apply Hhello|]. constructor.
  - apply (Hnil [] (mkTaggedHash "Qmempty" "") [] zeroGetResp eq_refl); [|reflexivity..].
    constructor.
Defined.

(** The response of the specification's scenario has the return address
    [5.6.7.8:4001]; one with two colons in it falls back to [Remote]. *)
Lemma peerAddrText_well_formed_witness :
  peerAddrText bootstrapExample = "/ip4/5.6.7.8/tcp/4001"
  /\ peerAddrText (mkBSResp (mkBSReq 1 "QmCarol" "/ip4/1.2.3.4/tcp/7777" "::1:4001")
                     "9.9.9.9:1234" 0)
     = "/ip4/9.9.9.9/tcp/7777".
Proof.
  destruct (peerAddrText_well_formed bootstrapExample) as (Hret & _).
  destruct (peerAddrText_well_formed
              (mkBSResp (mkBSReq 1 "QmCarol" "/ip4/1.2.3.4/tcp/7777" "::1:4001")
                 "9.9.9.9:1234" 0)) as (_ & _ & Hmany).
  split.
  - exact (Hret "5.6.7.8" "4001" ltac:(discriminate) eq_refl eq_refl eq_refl).
  - exact (Hmany "" "" "1:4001" eq_refl).
Defined.

(** The address of [QmDave] does not parse, but the response after it
    does: no error is left.  When the transport rejects [QmCarol] and the
    call is done before the function returns, the error returned is the
    one of the transport. *)
Lemma checkBSResponses_last_error_witness :
  fst (checkBSResponses env peerAccepted noWrites [ipv6Peer] node)
  = Returns (Some (ErrNew "invalid multiaddr"))
  /\ fst (checkBSResponses env peerAccepted noWrites [ipv6Peer; bootstrapExample] node)
     = Returns None
  /\ fst (checkBSResponses env peerRejected doneBeforeReturn [bootstrapExample] node)
     = Returns (Some (ErrNew "peer rejected")).
Proof.
  destruct (checkBSResponses_last_error env peerAccepted noWrites [] ipv6Peer node)
    as (_ & _ & Hone & _).
  destruct (checkBSResponses_last_error env peerAccepted noWrites [ipv6Peer] bootstrapExample
              node) as (_ & _ & Htwo & _).
  destruct (checkBSResponses_last_error env peerRejected doneBeforeReturn [] bootstrapExample
              node) as (_ & _ & _ & Hwritten).
  split; [exact (Hone (fun i => conj eq_refl eq_refl) eq_refl)|].
  split; [exact (Htwo (fun i => conj eq_refl eq_refl) eq_refl)|].
  exact (Hwritten "QmCarol" "/ip4/5.6.7.8/tcp/4001" (fun i => conj eq_refl eq_refl) eq_refl
           ltac:(discriminate) eq_refl eq_refl).
Defined.

(** The calls of [h.AddPeer] assign to the variable the loop tests.  When
    the call for [QmCarol], which the transport rejects, is done between
    the decoding of the next response and the test of [err], the peer
    [QmErin] is passed over although its identifier decodes and its
    address parses.  When the transport accepts [QmCarol] and the call is
    done at that moment for a response whose identifier does not decode,
    the error of the decoding is lost and a peer without an identifier is
    handed over. *)
Lemma checkBSResponses_racing :
  discovered env "QmBob" secondPeer = [mkPeerInfo "QmErin" ["/ip4/8.8.8.8/tcp/4001"]]
  /\ checkBSResponses env peerRejected doneAfterDecode [bootstrapExample; secondPeer] node
     = (Returns (Some (ErrNew "peer rejected")),
        withAdded node [mkPeerInfo "QmCarol" ["/ip4/5.6.7.8/tcp/4001"]])
  /\ discovered env "QmBob" undecodable = []
  /\ checkBSResponses env peerAccepted doneAfterDecode [bootstrapExample; undecodable] node
     = (Returns None,
        withAdded node [mkPeerInfo "QmCarol" ["/ip4/5.6.7.8/tcp/4001"];
                        mkPeerInfo "" ["/ip4/7.7.7.7/tcp/4001"]]).
Proof. split; [reflexivity|]. split; [reflexivity|]. split; reflexivity. Qed.

(** The node asks the bootstrap server and adds [QmCarol]. *)
Lemma BSget_outcome_witness :
  added (snd (BSget env peerAccepted httpGet readAll decodeNodes noWrites setup node))
  = [mkPeerInfo "QmCarol" ["/ip4/5.6.7.8/tcp/4001"]].
Proof.
  destruct (BSget_outcome env peerAccepted httpGet readAll decodeNodes noWrites setup node)
    as (_ & _ & Hasked).
  destruct (Hasked ltac:(discriminate) ltac:(discriminate)) as (_ & _ & _ & Hok).
  destruct (Hok "nodes" "nodes" bootstrapNodes eq_refl eq_refl eq_refl) as [_ Hadded].
  rewrite (Hadded (fun i => conj eq_refl eq_refl)). reflexivity.
Defined.

(** What the node posts comes back as [/ip4/5.6.7.8/tcp/4001] when the
    return address is set to [5.6.7.8:4001], and as the address the server
    saw with the node's own port when it is not set. *)
Lemma bootstrap_round_trip_witness :
  peerAddrText (mkBSResp (bsRequest returnAddrSet "/ip4/1.2.3.4/tcp/4001" node)
                  "9.9.9.9:1234" 0)
  = "/ip4/5.6.7.8/tcp/4001"
  /\ peerAddrText (mkBSResp (bsRequest returnAddrUnset "/ip4/1.2.3.4/tcp/4001" node)
                     "9.9.9.9:1234" 0)
     = "/ip4/9.9.9.9/tcp/4001".
Proof.
  destruct (bootstrap_round_trip httpPost encodeReq returnAddrSet setup
              "/ip4/1.2.3.4/tcp/4001" node "QmBob /ip4/1.2.3.4/tcp/4001 5.6.7.8:4001"
              "9.9.9.9:1234" 0 eq_refl eq_refl) as (_ & _ & Hset & _).
  destruct (bootstrap_round_trip httpPost encodeReq returnAddrUnset setup
              "/ip4/1.2.3.4/tcp/4001" node "QmBob /ip4/1.2.3.4/tcp/4001 "
              "9.9.9.9:1234" 0 eq_refl eq_refl) as (_ & _ & _ & Hunset).
  split.
  - exact (Hset "5.6.7.8" "4001" ltac:(discriminate) eq_refl eq_refl eq_refl).
  - exact (Hunset "9.9.9.9" "1234" "/ip4/1.2.3.4/tcp" "4001" eq_refl eq_refl eq_refl
             eq_refl eq_refl).
Defined.

(** The validation of a key entry passes without a definition; the
    replacement of [Qmhello] on a node that never committed it fails in
    the system validation. *)
Lemma ValidateAction_stages_witness :
  ValidateAction env node (VCommit keyEntry) KeyEntryType None ["QmBob"] = Returns (None, None)
  /\ ValidateAction env node (VMod modHello) (AppEntryType "post") None ["QmBob"]
     = Returns (Some postDef, Some ErrHashNotFound).
Proof.
  destruct (ValidateAction_stages env node (VCommit keyEntry) None ["QmBob"]) as (Hsys & _).
  destruct (ValidateAction_stages env node (VMod modHello) None ["QmBob"]) as (_ & _ & Hfail).
  split.
  - exact (Hsys KeyEntryType eq_refl).
  - exact (Hfail "post" "blog" (Some postDef) "" ErrHashNotFound eq_refl eq_refl eq_refl).
Defined.


(** A local get on the empty node finds nothing; on the node with [hello]
    and with the mask zero it answers with an empty response. *)
Lemma get_local_edges_witness :
  ActionGet_Do env entangled
    (NewGetAction (mkGetReq "Qmhello" 0 0) (Some (mkGetOptions 0 0 true))) node
  = Returns (None, Some ErrHashNotFound)
  /\ ActionGet_Do env entangled
       (NewGetAction (mkGetReq "Qmhello" 0 0) (Some (mkGetOptions 0 0 true))) nodeWithHello
     = Returns (Some (RespGet zeroGetResp), None).
Proof.
  destruct (get_local_edges env entangled (mkGetReq "Qmhello" 0 0) (mkGetOptions 0 0 true) node)
    as (_ & Habsent & _).
  destruct (get_local_edges env entangled (mkGetReq "Qmhello" 0 0) (mkGetOptions 0 0 true)
              nodeWithHello) as (_ & _ & _ & Hzero).
  split.
  - exact (Habsent eq_refl (fun l (Hin : In l []) => False_ind _ Hin)).
  - exact (Hzero eq_refl eq_refl _ eq_refl).
Defined.

(** The DHT has no answer for the links on [QmBase9]; for those on
    [QmBase1] the reply comes back as it is when loading is off. *)
Lemma getlink_do_replies_witness :
  ActionGetLink_Do env entangled linkReplies showReq (likes "QmBase9") node
  = (Returns (None, Some (ErrNew "no response")),
     askedLinks node (mkLinkQuery "QmBase9" "likes" 0))
  /\ ActionGetLink_Do env entangled linkReplies showReq
       (NewGetLinkAction (Some (mkLinkQuery "QmBase1" "likes" 0))
          (Some (mkGetLinkOptions false 0))) node
     = (Returns (Some (mkLinkQueryResp [mkTaggedHash "Qmhello" ""; mkTaggedHash "Qmgone" ""]),
                 None),
        askedLinks node (mkLinkQuery "QmBase1" "likes" 0)).
Proof.
  destruct (getlink_do_replies env entangled linkReplies showReq
              (mkLinkQuery "QmBase9" "likes" 0) (Some (mkGetLinkOptions true 0)) node)
    as (_ & Herr & _).
  destruct (getlink_do_replies env entangled linkReplies showReq
              (mkLinkQuery "QmBase1" "likes" 0) (Some (mkGetLinkOptions false 0)) node)
    as (_ & _ & _ & Hlinks).
  split.
  - exact (Herr _ _ eq_refl).
  - destruct (Hlinks _ eq_refl) as (_ & Hoff & _). exact (Hoff _ eq_refl eq_refl).
Defined.

(** A [PUT_REQUEST] with a [PutReq] is accepted; one with a [GetReq] comes
    back as a put action together with an error; a validation request is
    no message of the action protocol. *)
Lemma MakeActionFromMessage_dispatch_witness :
  MakeActionFromMessage (fun _ => 0) (fromAlice PUT_REQUEST (PutReq "Qmhello"))
  = (Some APut, None)
  /\ fst (MakeActionFromMessage (fun _ => 0)
            (fromAlice PUT_REQUEST (GetReqBody (mkGetReq "Qmhello" 0 0))))
     = Some APut
  /\ snd (MakeActionFromMessage (fun _ => 0)
            (fromAlice PUT_REQUEST (GetReqBody (mkGetReq "Qmhello" 0 0))))
     <> None
  /\ snd (MakeActionFromMessage (fun _ => 0)
            (fromAlice VALIDATE_PUT_REQUEST (ValidateQuery "Qmhello")))
     = Some (ErrNew "message type 0 not in holochain-action protocol").
Proof.
  destruct (MakeActionFromMessage_dispatch (fun _ => 0)
              (fromAlice PUT_REQUEST (PutReq "Qmhello"))) as (Hput & Hiff & _).
  destruct (MakeActionFromMessage_dispatch (fun _ => 0)
              (fromAlice PUT_REQUEST (GetReqBody (mkGetReq "Qmhello" 0 0))))
    as (Haction & Hwrong & _).
  destruct (MakeActionFromMessage_dispatch (fun _ => 0)
              (fromAlice VALIDATE_PUT_REQUEST (ValidateQuery "Qmhello")))
    as (Hnone & _ & _ & Hother & _).
  split; [|split; [|split]].
  - apply injective_projections; [exact Hput|].
    apply Hiff. right. left. split; reflexivity.
  - exact Haction.
  - intros Herr. apply Hwrong in Herr. decompose [or and] Herr; discriminate.
  - exact (Hother Hnone).
Defined.
